(** * Cyberismo data-handler: the Create and Rename engines

    A shallow embedding of [tools/data-handler/src/create.ts] and
    [tools/data-handler/src/rename.ts], with the properties the
    specification states about them.

    Strings are Rocq [string]s (a JavaScript string restricted to code units
    below 256), the disk is a finite map from paths, and a call that throws
    or rejects returns an [error] in place of its result. *)

From Stdlib Require Import ZArith Bool Ascii String List Sorted Lia.
From stdpp Require Import base option list gmap strings pretty.

Local Open Scope string_scope.
Local Open Scope list_scope.

#[global] Arguments String.append !s1 s2 / : simpl nomatch.
#[global] Arguments Ascii.eqb : simpl never.
#[global] Arguments String.eqb : simpl never.

(** ** JavaScript strings *)
Module Js.

(** [s.startsWith(p)]; also the way a literal pattern [p] matches at the
    head of [s]. *)
Fixpoint startsWith (p s : string) : bool :=
  match p, s with
  | EmptyString, _ => true
  | String _ _, EmptyString => false
  | String a p', String b s' => if Ascii.eqb a b then startsWith p' s' else false
  end.

(** [s.slice(n)] for [0 <= n]. *)
Fixpoint drop (n : nat) (s : string) : string :=
  match n, s with
  | O, _ => s
  | S _, EmptyString => EmptyString
  | S n', String _ s' => drop n' s'
  end.

(** [s.includes(p)]. *)
Fixpoint includes (p s : string) : bool :=
  startsWith p s ||
  match s with
  | EmptyString => false
  | String _ s' => includes p s'
  end.

(** The characters that [.] does not match in a regular expression without
    the [s] flag: LF and CR (U+2028 and U+2029 lie outside [ascii]). *)
Definition isLineTerminator (c : ascii) : bool :=
  Ascii.eqb c "010"%char || Ascii.eqb c "013"%char.

(** The regular expression [.*p], for a literal [p], matches at the head
    of [s]: some run of characters other than line terminators, then [p]. *)
Fixpoint dotStarThen (p s : string) : bool :=
  startsWith p s ||
  match s with
  | EmptyString => false
  | String c s' => negb (isLineTerminator c) && dotStarThen p s'
  end.

(** [new RegExp(`${from}(?!.*${from})`)] matches at the head of [s]:
    [from] is read there and the negative lookahead finds no [.*from]
    in what follows.  [from] is a card key prefix, letters only, so it
    stands for itself in the pattern. *)
Definition lastPrefixReMatchesAt (from s : string) : bool :=
  startsWith from s && negb (dotStarThen from (drop (String.length from) s)).

(** [new RegExp(`${from}(?!.*${from})`).exec(s)?.index]: the engine tries
    the start positions from left to right. *)
Fixpoint lastPrefixReIndex (from s : string) : option nat :=
  if lastPrefixReMatchesAt from s then Some O
  else match s with
       | EmptyString => None
       | String _ s' => option_map S (lastPrefixReIndex from s')
       end.

(** [s.replace(new RegExp(`${from}(?!.*${from})`), to)]: the regular
    expression has no [g] flag, so the first match alone is replaced.  [to]
    is a card key prefix too and holds no [$] replacement pattern. *)
Fixpoint replaceLastPrefix (from to s : string) : string :=
  if lastPrefixReMatchesAt from s then to ++ drop (String.length from) s
  else match s with
       | EmptyString => EmptyString
       | String c s' => String c (replaceLastPrefix from to s')
       end.

(** The start positions at which [p] occurs in [s], in increasing order. *)
Fixpoint occurrences (p s : string) : list nat :=
  (if startsWith p s then [O] else []) ++
  match s with
  | EmptyString => []
  | String _ s' => map S (occurrences p s')
  end.

(** [basename] and [dirname] of [node:path] on a path without a trailing
    separator: the part after, and before, the last [/]. *)
Fixpoint basename (p : string) : string :=
  match p with
  | EmptyString => EmptyString
  | String c p' =>
      if includes "/" p' then basename p'
      else if Ascii.eqb c "/"%char then p' else p
  end.

Fixpoint dirname (p : string) : string :=
  match p with
  | EmptyString => EmptyString
  | String c p' =>
      if includes "/" p' then String c (dirname p')
      else EmptyString
  end.

(** [join(a, b)] of [node:path] for segments that are already normalised
    (no [.], [..] or doubled separator). *)
Definition join (a b : string) : string := a ++ "/" ++ b.

(** [s.replace(/\$|\^/g, '')]: every [$] and every [^] is dropped. *)
Fixpoint dropAnchors (s : string) : string :=
  match s with
  | EmptyString => EmptyString
  | String c s' =>
      if Ascii.eqb c "$"%char || Ascii.eqb c "^"%char then dropAnchors s'
      else String c (dropAnchors s')
  end.

(** [s.split(sep)] for a separator of one character. *)
Fixpoint split (sep : ascii) (s : string) : list string :=
  match s with
  | EmptyString => [EmptyString]
  | String c s' =>
      if Ascii.eqb c sep then EmptyString :: split sep s'
      else match split sep s' with
           | [] => [String c EmptyString]
           | w :: ws => String c w :: ws
           end
  end.

(** A string argument in a condition: [undefined] and [''] are falsy. *)
Definition truthy (s : option string) : bool :=
  match s with
  | Some (String _ _) => true
  | _ => false
  end.

(** Card keys: [^[a-z]+_[0-9]+$]. *)
Fixpoint forallb (f : ascii -> bool) (s : string) : bool :=
  match s with
  | EmptyString => true
  | String c s' => f c && forallb f s'
  end.

Definition isLower (c : ascii) : bool := Ascii.leb "a"%char c && Ascii.leb c "z"%char.
Definition isDigit (c : ascii) : bool := Ascii.leb "0"%char c && Ascii.leb c "9"%char.

(** [^[a-z]+$], a card key prefix. *)
Definition isPrefix (s : string) : bool :=
  negb (String.eqb s "") && forallb isLower s.

(** [^[0-9]+$]. *)
Definition isNumber (s : string) : bool :=
  negb (String.eqb s "") && forallb isDigit s.

(** No line terminator in [s]. *)
Definition oneLine (s : string) : bool :=
  forallb (fun c => negb (isLineTerminator c)) s.

End Js.

(** ** Results of fallible calls *)

(** What a rejected promise or a thrown [Error] carries. *)
Inductive error : Type :=
  | Thrown (message : string)      (* [throw new Error(message)] in the engines *)
  | ENOENT (p : string)            (* node:fs, no such file or directory *)
  | EEXIST (p : string)            (* node:fs, file already exists *)
  | ENOTEMPTY (p : string)         (* node:fs, directory not empty *)
  | EISDIR (p : string)
  | ENOTDIR (p : string)
  | EINVAL (p : string).

Inductive result (A : Type) : Type :=
  | Ok (a : A)
  | Err (e : error).
Arguments Ok {A} a.
Arguments Err {A} e.

#[global] Instance result_bind : MBind result := fun A B k r =>
  match r with
  | Ok a => k a
  | Err e => Err e
  end.
#[global] Instance result_ret : MRet result := fun A a => Ok a.

Definition isOk {A : Type} (r : result A) : bool :=
  match r with Ok _ => true | Err _ => false end.

(** ** The card entity model ([interfaces/project-interfaces]) *)

Record link : Type := Link {
  linkType : string;
  cardKey : string;
  linkDescription : option string      (* [linkDescription?: string] *)
}.

Record cardMetadata : Type := CardMetadata {
  cardtype : string;
  title : string;
  workflowState : string;
  rank : string;
  links : option (list link)           (* [links?: link[]] *)
}.

Record attachmentDetails : Type := AttachmentDetails {
  att_path : string;                   (* the card's attachment folder *)
  fileName : string
}.

Record card : Type := Card {
  key : string;
  path : string;
  content : option string;             (* [content?: string] *)
  metadata : option cardMetadata;      (* [metadata?: cardMetadata] *)
  attachments : option (list attachmentDetails)
}.

(** [fetchCardDetails]: what a card enumeration is asked to populate; a
    field left out of the object literal is [false]. *)
Record fetchCardDetails : Type := FetchCardDetails {
  want_attachments : bool;
  want_children : bool;
  want_content : bool;
  want_metadata : bool
}.

#[global] Instance link_eq_dec : EqDecision link.
Proof. solve_decision. Defined.
#[global] Instance cardMetadata_eq_dec : EqDecision cardMetadata.
Proof. solve_decision. Defined.
#[global] Instance attachmentDetails_eq_dec : EqDecision attachmentDetails.
Proof. solve_decision. Defined.
#[global] Instance card_eq_dec : EqDecision card.
Proof. solve_decision. Defined.

(** ** [Array.prototype.sort] with a comparator *)

(** The sort is stable and places [a] before [b] whenever the comparator
    is negative on [(a, b)]: an element is inserted in front of the first
    later element that it does not have to follow. *)
Section ArraySort.
Context {A : Type} (cmp : A -> A -> Z).

Fixpoint insertSorted (x : A) (l : list A) : list A :=
  match l with
  | [] => [x]
  | y :: l' => if (cmp x y <=? 0)%Z then x :: y :: l' else y :: insertSorted x l'
  end.

Definition arraySort (l : list A) : list A := foldr insertSorted [] l.
End ArraySort.

(** ** The card store on disk, as the Rename engine sees it *)

(** What a card directory holds: the parsed [index.json], the bytes of
    [index.adoc], and the files of the attachment folder [a] by name. *)
Record cardFiles : Type := CardFiles {
  indexJson : cardMetadata;
  indexAdoc : string;
  attachmentFiles : gmap string string
}.

(** The disk of a project: a card directory per path, the configured key
    prefix in [cardsconfig.json], and the names of the local templates.
    Child cards are the entries beneath [<parent>/c/]. *)
Record disk : Type := Disk {
  basePath : string;
  cardkeyPrefix : string;
  cardDirs : gmap string cardFiles;
  localTemplates : list string
}.

Definition cardrootFolder (d : disk) : string := Js.join (basePath d) "cardroot".
Definition templatesFolder (d : disk) : string :=
  Js.join (basePath d) ".cards/local/templates".
(** [Template.templateCardsFolder()]: [<templates>/<name>/c]. *)
Definition templateCardsFolder (d : disk) (name : string) : string :=
  Js.join (Js.join (templatesFolder d) name) "c".

Definition setCardDirs (d : disk) (m : gmap string cardFiles) : disk :=
  {| basePath := basePath d; cardkeyPrefix := cardkeyPrefix d;
     cardDirs := m; localTemplates := localTemplates d |}.

(** Modelled from the spec: [ProjectSettings.setCardPrefix], which is not
    part of the sources; spec 4.4 step 1, "update the project's own prefix
    setting first". *)
Definition setCardPrefix (to : string) (d : disk) : disk :=
  {| basePath := basePath d; cardkeyPrefix := to;
     cardDirs := cardDirs d; localTemplates := localTemplates d |}.

(** [p] lies beneath the directory [dir]. *)
Definition isUnder (dir p : string) : bool := Js.startsWith (dir ++ "/") p.

(** The card record an enumeration builds for the directory [p]. *)
Definition cardOf (details : fetchCardDetails) (p : string) (f : cardFiles) : card :=
  {| key := Js.basename p;
     path := p;
     content := if want_content details then Some (indexAdoc f) else None;
     metadata := if want_metadata details then Some (indexJson f) else None;
     attachments :=
       if want_attachments details
       then Some (map (fun e => AttachmentDetails (Js.join p "a") (fst e))
                      (map_to_list (attachmentFiles f)))
       else None |}.

(** Modelled from the spec: [CardContainer.cards(path, details)], which is
    not part of the sources; spec 4.1, the cards beneath [path] "with
    optionally-populated metadata/children/attachments", a field being
    populated when it is asked for. *)
Definition cards (d : disk) (dir : string) (details : fetchCardDetails) : list card :=
  map (fun e => cardOf details (fst e) (snd e))
      (filter (fun e => isUnder dir (fst e) = true) (map_to_list (cardDirs d))).

(** *** The calls of [node:fs/promises] that the Rename engine makes *)

Inductive fsOp : Type :=
  | FsRename (src dst : string)
  | FsWriteFile (p data : string).

Definition isWriteFile (op : fsOp) : bool :=
  match op with
  | FsWriteFile _ _ => true
  | FsRename _ _ => false
  end.

(** The card directory of which [p] is the [index.adoc]. *)
Definition adocOwner (p : string) : option string :=
  if String.eqb (Js.basename p) "index.adoc" then Some (Js.dirname p) else None.

(** The card directory and the file name of the attachment at [p]. *)
Definition attachmentOwner (p : string) : option (string * string) :=
  let folder := Js.dirname p in
  if String.eqb (Js.basename folder) "a" then Some (Js.dirname folder, Js.basename p)
  else None.

(** Moves the directory [src], with all that lies beneath it, to [dst]. *)
Definition movePath (src dst p : string) : string :=
  if String.eqb p src then dst
  else if isUnder src p then dst ++ Js.drop (String.length src) p
  else p.

Definition moveDirs (src dst : string) (m : gmap string cardFiles) : gmap string cardFiles :=
  list_to_map (map (fun e => (movePath src dst (fst e), snd e)) (map_to_list m)).

(** Something lies at or beneath [p]. *)
Definition occupied (m : gmap string cardFiles) (p : string) : bool :=
  bool_decide (is_Some (m !! p)) ||
  existsb (fun e => isUnder p (fst e)) (map_to_list m).

(** [rename(src, dst)]:
    - of a card directory: the directory and its subtree move; renaming a
      path to itself does nothing; a target inside the directory itself, a
      target whose parent directory is not on the disk, and a target that
      exists (a card directory always holds [index.json]) are refused;
    - of an attachment: the file moves inside its folder, replacing a file
      that bears the new name.
    Anything else is not on the disk. *)
Definition fsRename (src dst : string) (m : gmap string cardFiles)
  : result (gmap string cardFiles) :=
  match m !! src with
  | Some _ =>
      if String.eqb src dst then Ok m
      else if isUnder src dst then Err (EINVAL dst)
      else if negb (occupied m (Js.dirname dst)) then Err (ENOENT dst)
      else if occupied m dst then Err (ENOTEMPTY dst)
      else Ok (moveDirs src dst m)
  | None =>
      match attachmentOwner src with
      | Some (dir, name) =>
          match m !! dir with
          | Some f =>
              match attachmentFiles f !! name with
              | Some bytes =>
                  if String.eqb src dst then Ok m
                  else match attachmentOwner dst with
                       | Some (dir', name') =>
                           if String.eqb dir' dir
                           then Ok (<[dir := CardFiles (indexJson f) (indexAdoc f)
                                       (<[name' := bytes]> (delete name (attachmentFiles f)))]> m)
                           else Err (ENOENT dst)
                       | None => Err (ENOENT dst)
                       end
              | None => Err (ENOENT src)
              end
          | None => Err (ENOENT src)
          end
      | None => Err (ENOENT src)
      end
  end.

(** [writeFile(p, data)] with the default flag [w], on [<card>/index.adoc]:
    the file is replaced wholesale. *)
Definition fsWriteFile (p data : string) (m : gmap string cardFiles)
  : result (gmap string cardFiles) :=
  match adocOwner p with
  | Some dir =>
      match m !! dir with
      | Some f => Ok (<[dir := CardFiles (indexJson f) data (attachmentFiles f)]> m)
      | None => Err (ENOENT p)
      end
  | None => Err (ENOENT p)
  end.

Definition execOp (op : fsOp) (m : gmap string cardFiles) : result (gmap string cardFiles) :=
  match op with
  | FsRename src dst => fsRename src dst m
  | FsWriteFile p data => fsWriteFile p data m
  end.

(** A sequence of awaited calls: the first rejection ends it. *)
Fixpoint execOps (ops : list fsOp) (m : gmap string cardFiles) : result (gmap string cardFiles) :=
  match ops with
  | [] => Ok m
  | op :: ops' => m' ← execOp op m; execOps ops' m'
  end.

(** ** The Rename engine ([rename.ts]) *)

(** [Rename.sortCards]: "Sort cards by path length (so that renaming
    starts from children)". *)
Definition sortCards (a b : card) : Z :=
  if (String.length (path b) <? String.length (path a))%nat then (-1)%Z
  else if (String.length (path a) <? String.length (path b))%nat then 1%Z
  else 0%Z.

(** [b] does not have to come before [a]: its path is not the longer one. *)
Definition notLonger (a b : card) : Prop :=
  (String.length (path b) <= String.length (path a))%nat.

(** What [Rename.rename] asks of both enumerations:
    [{ metadata: true, attachments: true }]. *)
Definition renameDetails : fetchCardDetails :=
  {| want_attachments := true; want_children := false;
     want_content := false; want_metadata := true |}.

Inductive event : Type :=
  | Renamed (projectBasePath : string)
  | Created (cards : list card).

Section RenameEngine.
(** [Project.isTemplateCard], which is not part of the sources. *)
Variable isTemplateCard : card -> bool.
(** [subject.replace(new RegExp(pattern, 'g'), replacement)] for a pattern
    that is not a literal: an attachment file name, dots and all, is read as
    a regular expression. *)
Variable regexReplaceAll : string -> string -> string -> string.

(** The body of the callback of [attachments.map] in [replaceCardPath], on
    the content left by the attachments before: the calls it makes and the
    content it leaves in [card.content].  The callbacks that [Promise.all]
    joins are taken in array order; [card.content || ''] is what is written. *)
Definition renameAttachment (from to cardPath : string) (content : option string)
    (attachment : attachmentDetails) : list fsOp * option string :=
  let newAttachmentFileName := Js.replaceLastPrefix from to (fileName attachment) in
  let content' :=
    option_map (regexReplaceAll ("image::" ++ fileName attachment)
                                ("image::" ++ newAttachmentFileName)) content in
  ([FsRename (Js.join (att_path attachment) (fileName attachment))
             (Js.join (att_path attachment) newAttachmentFileName);
    FsWriteFile (Js.join cardPath "index.adoc") (default "" content')],
   content').

Fixpoint renameAttachments (from to cardPath : string) (content : option string)
    (l : list attachmentDetails) : list fsOp :=
  match l with
  | [] => []
  | a :: l' =>
      let r := renameAttachment from to cardPath content a in
      fst r ++ renameAttachments from to cardPath (snd r) l'
  end.

(** [Rename.replaceCardPath(re, to, card)], [re] being the regular
    expression of [from]: the calls made, in order, and the new card path. *)
Definition replaceCardPath (from to : string) (c : card) : list fsOp * string :=
  let newCardPath := Js.replaceLastPrefix from to (path c) in
  ((if negb (isTemplateCard c)
    then renameAttachments from to (path c) (content c) (default [] (attachments c))
    else [])
   ++ [FsRename (path c) newCardPath],
   newCardPath).

(** The [for (const card of ...)] loops of [rename]: each card awaited
    before the next. *)
Definition renameCards (from to : string) (l : list card) : list fsOp :=
  flat_map (fun c => fst (replaceCardPath from to c)) l.

(** The cards of [dir] in the order in which [rename] takes them. *)
Definition sortedCards (d : disk) (dir : string) : list card :=
  arraySort sortCards (cards d dir renameDetails).

Fixpoint renameTemplates (from to : string) (d : disk) (templates : list string)
  : result disk :=
  match templates with
  | [] => Ok d
  | t :: rest =>
      m ← execOps (renameCards from to (sortedCards d (templateCardsFolder d t)))
                  (cardDirs d);
      renameTemplates from to (setCardDirs d m) rest
  end.

(** [Rename.rename(projectPath, to)] on the project found at [projectPath]:
    the disk it leaves and the event it emits. *)
Definition rename (d : disk) (to : string) : result (disk * event) :=
  let from := cardkeyPrefix d in
  let d1 := setCardPrefix to d in
  m ← execOps (renameCards from to (sortedCards d1 (cardrootFolder d1))) (cardDirs d1);
  d2 ← renameTemplates from to (setCardDirs d1 m) (localTemplates d1);
  Ok (d2, Renamed (basePath d2)).

End RenameEngine.

(** ** The disk as the Create engine sees it *)

Inductive node : Type :=
  | File (bytes : string)
  | Dir.

#[global] Instance node_eq_dec : EqDecision node.
Proof. solve_decision. Defined.

(** A call of the Create engine: it runs on the disk and leaves a disk,
    also when it rejects. *)
Definition io (A : Type) : Type := gmap string node -> result A * gmap string node.

Definition ioRet {A : Type} (a : A) : io A := fun s => (Ok a, s).
Definition ioThrow {A : Type} (e : error) : io A := fun s => (Err e, s).
Definition ioBind {A B : Type} (c : io A) (k : A -> io B) : io B := fun s =>
  match c s with
  | (Ok a, s') => k a s'
  | (Err e, s') => (Err e, s')
  end.
(** [try { c } catch (error) { throw h(error) }]. *)
Definition ioCatch {A : Type} (c : io A) (h : error -> error) : io A := fun s =>
  match c s with
  | (Ok a, s') => (Ok a, s')
  | (Err e, s') => (Err (h e), s')
  end.

Notation "'await' x ':=' c 'in' k" := (ioBind c (fun x => k))
  (at level 10, x name, c at level 100, k at level 200).

Definition isDir (s : gmap string node) (p : string) : bool :=
  match s !! p with Some Dir => true | _ => false end.

(** [writeFile(p, data, { flag: 'wx' })]: "like 'w' but fails if the path
    exists". *)
Definition writeFileWx (p data : string) : io unit := fun s =>
  match s !! p with
  | Some _ => (Err (EEXIST p), s)
  | None =>
      if isDir s (Js.dirname p) then (Ok tt, <[p := File data]> s)
      else (Err (ENOENT p), s)
  end.

(** [copyFile(src, dst, constants.COPYFILE_EXCL)]: "the copy operation
    will fail if dest already exists". *)
Definition copyFileExcl (src dst : string) : io unit := fun s =>
  match s !! src with
  | Some (File bytes) =>
      match s !! dst with
      | Some _ => (Err (EEXIST dst), s)
      | None =>
          if isDir s (Js.dirname dst) then (Ok tt, <[dst := File bytes]> s)
          else (Err (ENOENT dst), s)
      end
  | Some Dir => (Err (EISDIR src), s)
  | None => (Err (ENOENT src), s)
  end.

(** The directories above [p], outermost first: the prefixes of [p] that end
    before a separator. *)
Fixpoint ancestorsFrom (acc p : string) : list string :=
  match p with
  | EmptyString => []
  | String c p' =>
      (if Ascii.eqb c "/"%char && negb (String.eqb acc "") then [acc] else [])
      ++ ancestorsFrom (acc ++ String c EmptyString) p'
  end.
Definition ancestors (p : string) : list string := ancestorsFrom "" p.

Definition mkdirOne (p : string) : io unit := fun s =>
  match s !! p with
  | Some Dir => (Ok tt, s)
  | Some (File _) => (Err (ENOTDIR p), s)
  | None => (Ok tt, <[p := Dir]> s)
  end.

Fixpoint mkdirAll (l : list string) : io unit :=
  match l with
  | [] => ioRet tt
  | p :: l' => await _ := mkdirOne p in mkdirAll l'
  end.

(** [mkdir(p, { recursive: true })]. *)
Definition mkdirRecursive (p : string) : io unit := mkdirAll (ancestors p ++ [p]).

(** The name under which [p] is listed in the directory [dir], when it
    lies directly in it. *)
Definition entryName (dir p : string) : option string :=
  if Js.startsWith (dir ++ "/") p then
    let n := Js.drop (String.length (dir ++ "/")) p in
    if String.eqb n "" || Js.includes "/" n then None else Some n
  else None.

(** [readdir(dir)]. *)
Definition readdir (s : gmap string node) (dir : string) : list string :=
  omap (fun e => entryName dir (fst e)) (map_to_list s).

(** ** The documents of the Create engine *)

Record cardtypeContent : Type := CardtypeContent {
  ct_name : string;
  ct_workflow : string
}.

Record fieldtypeContent : Type := FieldtypeContent {
  ft_name : string;
  ft_dataType : string
}.

Record linktypeContent : Type := LinktypeContent {
  lt_name : string;
  outboundDisplayName : string;
  inboundDisplayName : string;
  sourceCardTypes : list string;
  destinationCardTypes : list string;
  enableLinkDescription : bool
}.

Inductive workflowCategory : Type := initial | active | closed.

Record workflowStateEntry : Type := WorkflowState {
  ws_name : string;
  ws_category : workflowCategory
}.

Record workflowTransition : Type := WorkflowTransition {
  wt_name : string;
  fromState : list string;
  toState : string
}.

Record workflowMetadata : Type := WorkflowMetadata {
  wf_name : string;
  states : list workflowStateEntry;
  transitions : list workflowTransition
}.

(** What is handed to the validator and to [formatJson]. *)
Inductive document : Type :=
  | DocCardtype (c : cardtypeContent)
  | DocFieldtype (f : fieldtypeContent)
  | DocLinktype (l : linktypeContent)
  | DocWorkflow (w : workflowMetadata).

(** [Create.getLinkTypeContent]. *)
Definition getLinkTypeContent (linkTypeName : string) : linktypeContent :=
  {| lt_name := linkTypeName;
     outboundDisplayName := linkTypeName;
     inboundDisplayName := linkTypeName;
     sourceCardTypes := [];
     destinationCardTypes := [];
     enableLinkDescription := false |}.

(** [Create.defaultWorkflowContent]. *)
Definition defaultWorkflowContent (workflowName : string) : workflowMetadata :=
  {| wf_name := workflowName;
     states := [WorkflowState "Draft" initial;
                WorkflowState "Approved" closed;
                WorkflowState "Deprecated" closed];
     transitions := [WorkflowTransition "Create" [""] "Draft";
                     WorkflowTransition "Approve" ["Draft"] "Approved";
                     WorkflowTransition "Archive" ["*"] "Deprecated"] |}.

(** [Create.supportedFieldTypes], on the [pattern] that the field-type
    schema declares for [dataType]:
    [pattern.replace(/\$|\^/g, '').split('|')]. *)
Definition supportedFieldTypes (pattern : string) : list string :=
  Js.split "|"%char (Js.dropAnchors pattern).

(** ** The links item of the card base schema ([card-base-schema]) *)

Record objectSchema : Type := ObjectSchema {
  properties : list string;
  required : list string;
  additionalProperties : bool
}.

(** [properties.links.items] of the schema document. *)
Definition cardBaseLinkItem : objectSchema :=
  {| properties := ["cardkey"; "linktype"; "linkDescription"];
     required := ["direction"; "cardkey"; "linktype"];
     additionalProperties := false |}.

Inductive violation : Type :=
  | MissingRequired (property : string)
  | AdditionalProperty (property : string).

(** The [required] and [additionalProperties] keywords on an object with
    the property names [names]. *)
Definition objectViolations (sch : objectSchema) (names : list string) : list violation :=
  map MissingRequired
      (filter (fun r => negb (existsb (String.eqb r) names)) (required sch))
  ++ (if additionalProperties sch then []
      else map AdditionalProperty
             (filter (fun n => negb (existsb (String.eqb n) (properties sch))) names)).

(** The properties of the object literal
    [{ linkType, cardKey: destinationCardKey, linkDescription }] that hold a
    value: a property that is [undefined] is absent for a validator and is
    left out by [JSON.stringify]. *)
Definition linkProperties (l : link) : list (string * string) :=
  [("linkType", linkType l); ("cardKey", cardKey l)]
  ++ match linkDescription l with
     | Some d => [("linkDescription", d)]
     | None => []
     end.

(** ** The Create engine ([create.ts]) *)

(** The double quote, and an array of strings in a template literal
    ([Array.prototype.toString]). *)
Definition dquote : string := String "034"%char EmptyString.
Definition arrayToString (l : list string) : string := String.concat "," l.

(** [join(projectPath, '.cards', 'local', collection)]. *)
Definition resourceFolder (projectPath collection : string) : string :=
  Js.join (Js.join (Js.join projectPath ".cards") "local") collection.

(** Where the resource [name] of a collection is written:
    [join(projectPath, '.cards', 'local', collection, `${name}.json`)]. *)
Definition resourceFile (projectPath collection name : string) : string :=
  Js.join (resourceFolder projectPath collection) (name ++ ".json").

(** [{ metadata: true }]. *)
Definition metadataOnly : fetchCardDetails :=
  {| want_attachments := false; want_children := false;
     want_content := false; want_metadata := true |}.

Section CreateEngine.
(** The collaborators that are not part of the sources, each on the disk
    it reads: the Project and Template containers, the validator and the
    JSON and logging utilities. *)
Variable cardAttachmentFolder : gmap string node -> string -> string -> option string.
Variable findSpecificCard :
  gmap string node -> string -> string -> fetchCardDetails -> option card.
Variable pathToCard : gmap string node -> string -> string -> option string.
Variable updateCardMetadata : string -> string -> string -> list link -> io unit.
Variable importedResources : gmap string node -> string -> string -> list string.
Variable validateJson : document -> string -> list string.
Variable formatJson : document -> string.
Variable jsonStringify : document -> string.
Variable stringifyKeys : list string -> string.
Variable errorFunction : error -> string.
Variable normalizedTemplateName : string -> string.
Variable templateFolder : string -> string -> string.
Variable templateFindSpecificCard :
  gmap string node -> string -> string -> string -> option card.
Variable templateAddCard : string -> string -> string -> option card -> io string.
(** [properties.dataType.pattern] of [field-type-schema.json]. *)
Variable dataTypePattern : string.

(** Modelled from the spec: [Project.fieldtypes()], [Project.linkTypes()]
    and [Project.workflows()], which are not part of the sources; spec 4.1,
    "read accessors for each resource collection (list of resource
    names/paths)": the names in the local collection folder, then the
    resources of the imported modules. *)
Definition resources (s : gmap string node) (projectPath collection : string)
  : list string :=
  readdir s (resourceFolder projectPath collection)
  ++ importedResources s projectPath collection.

(** [Create.fieldTypeExists]. *)
Definition fieldTypeExists (s : gmap string node) (path fieldTypeName : string) : bool :=
  existsb (fun item => String.eqb item (fieldTypeName ++ ".json")
                       || String.eqb item fieldTypeName)
          (resources s path "fieldtypes").

(** [Create.linkTypeExists]. *)
Definition linkTypeExists (s : gmap string node) (path linkTypeName : string) : bool :=
  existsb (fun item => String.eqb item (linkTypeName ++ ".json")
                       || String.eqb item linkTypeName)
          (resources s path "linktypes").

(** [Create.workflowExists]. *)
Definition workflowExists (s : gmap string node) (path workflowName : string) : bool :=
  existsb (fun item => String.eqb item (workflowName ++ ".json")
                       || String.eqb item workflowName)
          (resources s path "workflows").

(** The [for] loop of [addCards]: every [addCard] is awaited where it is
    pushed, so a rejection leaves the loop and [addCards] at once. *)
Fixpoint addCardLoop (count : nat) (projectPath templateName cardTypeName : string)
    (specificCard : option card) : io (list string) :=
  match count with
  | O => ioRet []
  | S n =>
      await cardKey := templateAddCard projectPath templateName cardTypeName specificCard in
      await rest := addCardLoop n projectPath templateName cardTypeName specificCard in
      ioRet (cardKey :: rest)
  end.

(** The outcomes of the [addCard] calls that a loop of [count] rounds
    makes: the keys of the calls fulfilled before the first rejection, and
    that rejection when there is one. *)
Fixpoint addCardOutcomes (count : nat) (projectPath templateName cardTypeName : string)
    (specificCard : option card) (s : gmap string node)
  : list string * option error * gmap string node :=
  match count with
  | O => ([], None, s)
  | S n =>
      match templateAddCard projectPath templateName cardTypeName specificCard s with
      | (Ok cardKey, s1) =>
          match addCardOutcomes n projectPath templateName cardTypeName specificCard s1 with
          | (keys, rejection, s2) => (cardKey :: keys, rejection, s2)
          end
      | (Err e, s1) => ([], Some e, s1)
      end
  end.

(** [Create.addCards].  What [promiseContainer] holds are the keys already
    awaited, so [Promise.allSettled] reports each as fulfilled and
    [cardsContainer] is that list. *)
Definition addCards (projectPath cardTypeName templateName : string)
    (card : option string) (count : Z) : io string := fun s =>
  let origTemplateName := templateName in
  let templateName := normalizedTemplateName templateName in
  if String.eqb templateName "" then
    (Err (Thrown ("Template '" ++ origTemplateName ++ "' is invalid template name")), s)
  else
    let specificCard :=
      if Js.truthy card
      then templateFindSpecificCard s projectPath templateName (default "" card)
      else None in
    if Js.truthy card && negb (bool_decide (is_Some specificCard)) then
      (Err (Thrown ("Card '" ++ default "" card ++ "' was not found from template '"
                    ++ origTemplateName ++ "'")), s)
    else if Js.includes "/modules/" (templateFolder projectPath templateName) then
      (Err (Thrown "Cannot add cards to imported module templates"), s)
    else
      (await cardsContainer :=
         addCardLoop (Z.to_nat count) projectPath templateName cardTypeName specificCard in
       match cardsContainer with
       | [] => ioThrow (Thrown ("Invalid value for 'repeat:' " ++ dquote ++ pretty count ++ dquote))
       | first :: _ =>
           ioRet (if (1 <? count)%Z
                  then pretty count ++ " cards were added to the template '"
                       ++ templateName ++ " : " ++ stringifyKeys cardsContainer ++ "'"
                  else "card '" ++ first ++ "' was added to the template '"
                       ++ templateName ++ "'")%string
       end) s.

(** [Create.createAttachment]. *)
Definition createAttachment (cardKey projectPath attachment : string)
    (buffer : option string) : io unit := fun s =>
  match cardAttachmentFolder s projectPath cardKey with
  | Some (String c f) =>
      let attachmentFolder := String c f in
      if Js.includes "/modules/" attachmentFolder then
        (Err (Thrown "Cannot modify imported module"), s)
      else
        ioCatch
          (await _ := mkdirRecursive attachmentFolder in
           match buffer with
           | None =>
               copyFileExcl attachment (Js.join attachmentFolder (Js.basename attachment))
           | Some bytes =>
               writeFileWx (Js.join attachmentFolder (Js.basename attachment)) bytes
           end)
          (fun error => Thrown (errorFunction error)) s
  | _ => (Err (Thrown ("Attachment folder for '" ++ cardKey ++ "' not found")), s)
  end.

(** The file that [createAttachment] copies or writes to:
    [join(attachmentFolder, basename(attachment))]. *)
Definition attachmentTarget (s : gmap string node) (projectPath cardKey attachment : string)
  : option string :=
  match cardAttachmentFolder s projectPath cardKey with
  | Some folder => Some (Js.join folder (Js.basename attachment))
  | None => None
  end.

(** [Create.createCardtype]. *)
Definition createCardtype (projectPath name workflow : string) : io unit := fun s =>
  if negb (workflowExists s projectPath workflow) then
    (Err (Thrown ("Input validation error: workflow '" ++ workflow
                  ++ "' does not exist in the project.")), s)
  else
    let content := {| ct_name := name; ct_workflow := workflow |} in
    let destinationFolder :=
      Js.join (resourceFolder projectPath "cardtypes") (ct_name content ++ ".json") in
    writeFileWx destinationFolder (formatJson (DocCardtype content)) s.

(** [Create.createFieldType]. *)
Definition createFieldType (projectPath fieldTypeName dataType : string) : io unit := fun s =>
  let content := {| ft_name := fieldTypeName; ft_dataType := dataType |} in
  if fieldTypeExists s projectPath fieldTypeName then
    (Err (Thrown ("Field type with name '" ++ fieldTypeName
                  ++ "' already exists in the project")), s)
  else if negb (existsb (String.eqb dataType) (supportedFieldTypes dataTypePattern)) then
    (Err (Thrown ("Field type '" ++ dataType ++ "' not supported. Supported types "
                  ++ arrayToString (supportedFieldTypes dataTypePattern))), s)
  else
    let destinationFolder :=
      Js.join (resourceFolder projectPath "fieldtypes") (ft_name content ++ ".json") in
    writeFileWx destinationFolder (formatJson (DocFieldtype content)) s.

(** [Create.createLinkType]. *)
Definition createLinkType (projectPath linkTypeName : string) : io unit := fun s =>
  if linkTypeExists s projectPath linkTypeName then
    (Err (Thrown ("Link type with name '" ++ linkTypeName
                  ++ "' already exists in the project")), s)
  else
    let linkTypeContent := getLinkTypeContent linkTypeName in
    let validJson := validateJson (DocLinktype linkTypeContent) "link-type-schema" in
    if negb (length validJson =? 0)%nat then
      (Err (Thrown ("Invalid linktype JSON: " ++ arrayToString validJson)), s)
    else
      let destinationFolder :=
        Js.join (resourceFolder projectPath "linktypes") (linkTypeName ++ ".json") in
      writeFileWx destinationFolder (jsonStringify (DocLinktype linkTypeContent)) s.

(** [Create.createWorkflow]; [JSON.parse(JSON.stringify(workflow))] is a
    copy of the document. *)
Definition createWorkflow (projectPath : string) (workflow : workflowMetadata)
  : io unit := fun s =>
  let schemaId := "workflow-schema" in
  let validJson := validateJson (DocWorkflow workflow) schemaId in
  if negb (length validJson =? 0)%nat then
    (Err (Thrown ("Invalid workflow JSON: " ++ arrayToString validJson)), s)
  else
    let content := workflow in
    let destinationFile :=
      Js.join (resourceFolder projectPath "workflows") (wf_name content ++ ".json") in
    writeFileWx destinationFile (formatJson (DocWorkflow content)) s.

(** The links that [createLink] reads off the card:
    [card.metadata?.links]. *)
Definition cardLinks (c : card) : option (list link) :=
  match metadata c with
  | Some m => links m
  | None => None
  end.

(** [Create.createLink]. *)
Definition createLink (projectPath cardKey destinationCardKey linkType : string)
    (linkDescription : option string) : io unit := fun s =>
  match findSpecificCard s projectPath cardKey metadataOnly with
  | None => (Err (Thrown ("Card '" ++ cardKey ++ "' does not exist in the project")), s)
  | Some card =>
      if negb (Js.truthy (pathToCard s projectPath destinationCardKey)) then
        (Err (Thrown ("Card '" ++ destinationCardKey
                      ++ "' does not exist in the project")), s)
      else if negb (linkTypeExists s projectPath linkType) then
        (Err (Thrown ("Link type '" ++ linkType ++ "' does not exist in the project")), s)
      else
        let existingLink :=
          match cardLinks card with
          | Some ls =>
              find (fun l => match l with
                             | Link lType lKey lDescription =>
                                 String.eqb lType linkType
                                 && String.eqb lKey destinationCardKey
                                 && bool_decide (lDescription = linkDescription)
                             end)
                   ls
          | None => None
          end in
        match existingLink with
        | Some _ =>
            (Err (Thrown ("Link from card '" ++ cardKey ++ "' to card '"
                          ++ destinationCardKey ++ "' already exists")), s)
        | None =>
            let links := default [] (cardLinks card)
                         ++ [Link linkType destinationCardKey linkDescription] in
            updateCardMetadata projectPath cardKey "links" links s
        end
  end.

End CreateEngine.

(** ** Creating a template and creating cards ([create.ts]) *)

(** The template metadata that [Create.defaultTemplateContent] fills in. *)
Record templateMetadata : Type := TemplateMetadata {
  buttonLabel : string;
  namePrompt : string
}.

(** [Create.defaultTemplateContent]. *)
Definition defaultTemplateContent : templateMetadata :=
  {| buttonLabel := "Button"; namePrompt := "Prompt" |}.

(** [{ metadata: true, children: true }]. *)
Definition metadataAndChildren : fetchCardDetails :=
  {| want_attachments := false; want_children := true;
     want_content := false; want_metadata := true |}.

Section CreateContainers.
(** The collaborators that are not part of the sources: [Template] and
    [Project] with their methods, the validator on the template schema and
    [readJsonFile]. *)
Variable normalizedTemplateName : string -> string.
Variable validateTemplate : templateMetadata -> string -> list string.
Variable templateExists : gmap string node -> string -> string -> bool.
Variable templateCreate : string -> string -> templateMetadata -> io unit.
Variable projectIsCreated : gmap string node -> string -> bool.
(** [new Project(projectPath)]: the error it throws, if it throws. *)
Variable projectError : gmap string node -> string -> option error.
(** [Project.createTemplateObjectByName]: the template object, known by its
    name, or [undefined]; [Template.isCreated]; the content of the file at
    [Template.templateConfigurationFilePath()]. *)
Variable createTemplateObjectByName : gmap string node -> string -> string -> option string.
Variable templateIsCreated : gmap string node -> string -> string -> bool.
Variable readTemplateConfiguration :
  gmap string node -> string -> string -> result templateMetadata.
Variable findSpecificCard :
  gmap string node -> string -> string -> fetchCardDetails -> option card.
Variable templateCreateCards : string -> string -> option card -> io (list card).

(** [Create.createTemplate]. *)
Definition createTemplate (projectPath templateName : string)
    (templateContent : templateMetadata) : io unit := fun s =>
  let origTemplateName := templateName in
  let templateName := normalizedTemplateName templateName in
  if String.eqb templateName "" then
    (Err (Thrown ("Template '" ++ origTemplateName ++ "' is invalid template name")), s)
  else
    let validJson := validateTemplate templateContent "template-schema" in
    if negb (length validJson =? 0)%nat then
      (Err (Thrown ("Invalid template JSON: " ++ arrayToString validJson)), s)
    else if templateExists s projectPath templateName then
      (Err (Thrown ("Template '" ++ templateName ++ "' already exists in the project")), s)
    else templateCreate projectPath templateName templateContent s.

(** [Create.createCard]: the keys it returns and the events it emits. *)
Definition createCard (projectPath templateName : string) (parentCardKey : option string)
  : io (list string * list event) := fun s =>
  if negb (projectIsCreated s projectPath) then
    (Err (Thrown ("Not a project: '" ++ projectPath ++ "'")), s)
  else
    match projectError s projectPath with
    | Some _ => (Err (Thrown ("invalid path '" ++ projectPath ++ "'")), s)
    | None =>
        match createTemplateObjectByName s projectPath templateName with
        | None => (Err (Thrown ("Template '" ++ templateName ++ "' not found from project")), s)
        | Some templateObject =>
            if negb (templateIsCreated s projectPath templateObject) then
              (Err (Thrown ("Template '" ++ templateName ++ "' not found from project")), s)
            else
              match readTemplateConfiguration s projectPath templateObject with
              | Err e => (Err e, s)
              | Ok content =>
                  let validJson := validateTemplate content "template-schema" in
                  if negb (length validJson =? 0)%nat then
                    (Err (Thrown ("Invalid template JSON: " ++ arrayToString validJson)), s)
                  else
                    let specificCard :=
                      if Js.truthy parentCardKey
                      then findSpecificCard s projectPath (default "" parentCardKey)
                             metadataAndChildren
                      else None in
                    if Js.truthy parentCardKey && negb (bool_decide (is_Some specificCard))
                    then
                      (Err (Thrown ("Card '" ++ default "" parentCardKey
                                    ++ "' not found from project")), s)
                    else
                      (await createdCards :=
                         templateCreateCards projectPath templateObject specificCard in
                       ioRet (map key createdCards,
                              if (0 <? length createdCards)%nat
                              then [Created createdCards] else [])) s
              end
        end
    end.

End CreateContainers.

(** ** Creating a project ([Create.createProject]) *)

(** [s.toLowerCase()] on code units below 256: the letters [A] to [Z] and
    the capital letters of Latin-1 (U+00C0 to U+00DE without the
    multiplication sign) go to their small letters, 32 further on. *)
Definition toLowerCaseChar (c : ascii) : ascii :=
  let n := nat_of_ascii c in
  if ((65 <=? n) && (n <=? 90) || (192 <=? n) && (n <=? 222) && negb (n =? 215))%nat
  then ascii_of_nat (n + 32)
  else c.

Fixpoint toLowerCase (s : string) : string :=
  match s with
  | EmptyString => EmptyString
  | String c s' => String (toLowerCaseChar c) (toLowerCase s')
  end.

(** [writeFile(p, data)] with the default flag [w]: the file is made or
    replaced; the directory it goes in has to be there. *)
Definition writeFile (p data : string) : io unit := fun s =>
  match s !! p with
  | Some Dir => (Err (EISDIR p), s)
  | _ =>
      if isDir s (Js.dirname p) then (Ok tt, <[p := File data]> s)
      else (Err (ENOENT p), s)
  end.

(** [mkdir(p)] without [recursive]: the path must be free and the directory
    above it there. *)
Definition mkdir (p : string) : io unit := fun s =>
  match s !! p with
  | Some _ => (Err (EEXIST p), s)
  | None =>
      if isDir s (Js.dirname p) then (Ok tt, <[p := Dir]> s)
      else (Err (ENOENT p), s)
  end.

(** The calls of [node:fs/promises] that [createProject] starts. *)
Inductive fsCall : Type :=
  | Mkdir (p : string) (recursive : bool)
  | WriteFile (p data : string).

Definition runCall (c : fsCall) : io unit :=
  match c with
  | Mkdir p true => mkdirRecursive p
  | Mkdir p false => mkdir p
  | WriteFile p data => writeFile p data
  end.

(** The [content] of an entry of [schemaFilesContent]: the properties that
    the entries of the source hold, each present or absent. *)
Record schemaContent : Type := SchemaContent {
  sc_id : option string;
  sc_version : option Z;
  sc_name : option string;
  sc_cardkeyPrefix : option string;
  sc_nextAvailableCardNumber : option Z
}.

(** [projectFile]. *)
Record projectFile : Type := ProjectFile {
  pf_path : string;
  pf_content : schemaContent;
  pf_name : string
}.

(** What [createProject] runs in: the disk; the calls that were started
    and not awaited and have not settled yet; every call started so far, in
    the order of starting; what was printed with [console.error]; and the
    [schemaFilesContent] of the [Create] object, which [createProject]
    updates in place. *)
Record world : Type := World {
  files : gmap string node;
  pending : list fsCall;
  started : list fsCall;
  console : list string;
  schemaFilesContent : list projectFile
}.

Definition setFiles (s : gmap string node) (w : world) : world :=
  {| files := s; pending := pending w; started := started w;
     console := console w; schemaFilesContent := schemaFilesContent w |}.

(** A call is started: [log] enters it in the list of the calls started,
    [start] also leaves it to settle unawaited. *)
Definition log (c : fsCall) (w : world) : world :=
  {| files := files w; pending := pending w; started := (started w ++ [c])%list;
     console := console w; schemaFilesContent := schemaFilesContent w |}.

Definition start (c : fsCall) (w : world) : world :=
  {| files := files w; pending := (pending w ++ [c])%list;
     started := (started w ++ [c])%list;
     console := console w; schemaFilesContent := schemaFilesContent w |}.

Definition consoleError (message : string) (w : world) : world :=
  {| files := files w; pending := pending w; started := started w;
     console := (console w ++ [message])%list;
     schemaFilesContent := schemaFilesContent w |}.

(** The unawaited call at position [i] settles: it runs on the disk and
    its outcome goes unobserved. *)
Definition settleOne (w : world) (i : nat) : world :=
  match pending w !! i with
  | Some c =>
      {| files := (runCall c (files w)).2; pending := delete i (pending w);
         started := started w; console := console w;
         schemaFilesContent := schemaFilesContent w |}
  | None => w
  end.

Definition settle (picks : list nat) (w : world) : world := foldl settleOne w picks.

(** When the unawaited calls settle is not up to the program.  A schedule
    says, for each of the points at which [createProject] waits for the disk
    or reads it, which of the unawaited calls settle before, and in what
    order; and which of the two calls joined by [Promise.all] settles
    first. *)
Record schedule : Type := Schedule {
  before : nat -> list nat;
  secondFirst : bool
}.

Definition task (A : Type) : Type := world -> result A * world.

Definition taskBind {A B : Type} (c : task A) (k : A -> task B) : task B := fun w =>
  match c w with
  | (Ok a, w') => k a w'
  | (Err e, w') => (Err e, w')
  end.

Definition taskThen {A B : Type} (c : task A) (k : task B) : task B :=
  taskBind c (fun _ => k).

Infix ">>>" := taskThen (at level 60, right associativity).

(** [await call]: the call is started, unawaited calls may settle, and the
    call settles; its rejection is thrown. *)
Definition awaitCall (picks : list nat) (c : fsCall) : task unit := fun w =>
  let w1 := settle picks (log c w) in
  (fst (runCall c (files w1)), setFiles (snd (runCall c (files w1))) w1).

(** [await Promise.all([c1, c2])]: both calls are started; the rejection of
    the one that settles first is thrown at once, the other call being left
    to settle unawaited. *)
Definition awaitAll2 (sch : schedule) (point : nat) (c1 c2 : fsCall) : task unit := fun w =>
  let w1 := settle (before sch point) (log c2 (log c1 w)) in
  let (a, b) := if secondFirst sch then (c2, c1) else (c1, c2) in
  match runCall a (files w1) with
  | (Err e, s2) =>
      (Err e, {| files := s2; pending := (pending w1 ++ [b])%list; started := started w1;
                 console := console w1; schemaFilesContent := schemaFilesContent w1 |})
  | (Ok _, s2) =>
      let w2 := settle (before sch (S point)) (setFiles s2 w1) in
      (fst (runCall b (files w2)), setFiles (snd (runCall b (files w2))) w2)
  end.

(** Calls started one after the other and not awaited. *)
Definition startAll (calls : list fsCall) : task unit := fun w =>
  (Ok tt, foldl (fun w c => start c w) w calls).

(** [try { c } catch (e) { console.error(message) }]. *)
Definition orLog {A : Type} (c : task A) (message : string) : task unit := fun w =>
  match c w with
  | (Ok _, w') => (Ok tt, w')
  | (Err _, w') => (Ok tt, consoleError message w')
  end.

(** The template literal of [gitIgnoreContent]: each line ends in the
    escape [\n] and in the line break of the source text, and the lines
    after the first begin with the eight blanks of the indentation. *)
Definition newline : string := String "010"%char EmptyString.

Definition gitIgnoreContent : string :=
  String.concat (newline ++ newline ++ "        ")
    [".calc"; ".asciidoctor"; ".vscode"; "*.html"; "*.pdf"; "*.puml";
     "**/.DS_Store"; "*-debug.log"; "*-error.log"]
  ++ newline.

Definition gitKeepContent : string := "".

Definition projectFolders : list string := [".cards/local"; "cardroot"].

Definition projectSubFolders : list (list string) :=
  [["calculations"; "cardtypes"; "fieldtypes"; "templates"; "workflows"]; []].

(** The callback of [schemaFilesContent.forEach], up to its [await]: the
    placeholders of the entry are filled in, in the entry itself. *)
Definition fillEntry (projectPrefix projectName : string) (entry : projectFile)
  : projectFile :=
  let content := pf_content entry in
  let content1 :=
    if match sc_cardkeyPrefix content with
       | Some v => Js.includes "$PROJECT-PREFIX" v
       | None => false
       end
    then {| sc_id := sc_id content; sc_version := sc_version content;
            sc_name := sc_name content;
            sc_cardkeyPrefix := Some (toLowerCase projectPrefix);
            sc_nextAvailableCardNumber := sc_nextAvailableCardNumber content |}
    else content in
  let content2 :=
    if match sc_name content1 with
       | Some v => Js.includes "$PROJECT-NAME" v
       | None => false
       end
    then {| sc_id := sc_id content1; sc_version := sc_version content1;
            sc_name := Some projectName;
            sc_cardkeyPrefix := sc_cardkeyPrefix content1;
            sc_nextAvailableCardNumber := sc_nextAvailableCardNumber content1 |}
    else content1 in
  {| pf_path := pf_path entry; pf_content := content2; pf_name := pf_name entry |}.

Section CreateProject.
(** [Project.schemaContentFile] and [Project.projectConfigFileName], the
    getters [calculationProjectFolder] and [fieldtypesFolder] of a project
    at a path, [Project.isCreated], the error that [new Project] throws, if
    it throws, and [formatJson]: none of them part of the sources. *)
Variable schemaContentFile : string.
Variable projectConfigFileName : string.
Variable calculationProjectFolder : string -> string.
Variable fieldtypesFolder : string -> string.
Variable projectIsCreated : gmap string node -> string -> bool.
Variable projectError : gmap string node -> string -> option error.
Variable formatContent : schemaContent -> string.

(** The [schemaFilesContent] of a new [Create] object. *)
Definition newSchemaFilesContent : list projectFile :=
  [ {| pf_path := ".cards/local";
       pf_content := SchemaContent (Some "cardsconfig-schema") (Some 1%Z) None None None;
       pf_name := schemaContentFile |};
    {| pf_path := ".cards/local";
       pf_content := SchemaContent None None (Some "$PROJECT-NAME")
                       (Some "$PROJECT-PREFIX") (Some 1%Z);
       pf_name := projectConfigFileName |};
    {| pf_path := ".cards/local/cardtypes";
       pf_content := SchemaContent (Some "/cardtype-schema") (Some 1%Z) None None None;
       pf_name := schemaContentFile |};
    {| pf_path := ".cards/local/fieldtypes";
       pf_content := SchemaContent (Some "field-type-schema") (Some 1%Z) None None None;
       pf_name := schemaContentFile |};
    {| pf_path := ".cards/local/linktypes";
       pf_content := SchemaContent (Some "link-type-schema") (Some 1%Z) None None None;
       pf_name := schemaContentFile |};
    {| pf_path := ".cards/local/workflows";
       pf_content := SchemaContent (Some "workflow-schema") (Some 1%Z) None None None;
       pf_name := schemaContentFile |} ].

(** The [mkdir] calls of the [forEach] over [projectSubFolders]: neither
    awaited nor returned. *)
Definition subFolderCalls (parentFolderToCreate : string) : list fsCall :=
  flat_map (fun e => map (fun subFolder =>
                            Mkdir (Js.join parentFolderToCreate (fst e) ++ "/" ++ subFolder)
                                  false)
                         (snd e))
           (zip projectFolders projectSubFolders).

(** The write that the callback of [schemaFilesContent.forEach] starts for
    an entry. *)
Definition schemaFileCall (parentFolderToCreate : string) (entry : projectFile) : fsCall :=
  WriteFile (Js.join (Js.join parentFolderToCreate (pf_path entry)) (pf_name entry))
            (formatContent (pf_content entry)).

(** [this.schemaFilesContent.forEach(async (entry) => ...)]: every entry is
    filled in and its write started; none of the writes is awaited. *)
Definition writeSchemaFiles (parentFolderToCreate projectPrefix projectName : string)
  : task unit := fun w =>
  let entries := map (fillEntry projectPrefix projectName) (schemaFilesContent w) in
  startAll (map (schemaFileCall parentFolderToCreate) entries)
    {| files := files w; pending := pending w; started := started w;
       console := console w; schemaFilesContent := entries |}.

(** [new Project(projectPath)] inside the [try]. *)
Definition loadProject (picks : list nat) (projectPath : string) : task unit := fun w =>
  let w1 := settle picks w in
  match projectError (files w1) projectPath with
  | Some e => (Err e, w1)
  | None => (Ok tt, w1)
  end.

(** [Create.createProject], for a [projectPath] that [resolve] leaves as it
    is. *)
Definition createProject (sch : schedule) (projectPath projectPrefix projectName : string)
  : task unit := fun w =>
  let parentFolderToCreate := projectPath in
  if projectIsCreated (files w) projectPath then
    (Err (Thrown "Project already exists"), w)
  else
    (awaitCall (before sch 0) (Mkdir parentFolderToCreate true)
     >>> awaitAll2 sch 1
           (Mkdir (parentFolderToCreate ++ "/" ++ ".cards/local") true)
           (Mkdir (parentFolderToCreate ++ "/" ++ "cardroot") true)
     >>> startAll (subFolderCalls parentFolderToCreate)
     >>> writeSchemaFiles parentFolderToCreate projectPrefix projectName
     >>> awaitCall (before sch 3) (WriteFile (Js.join projectPath ".gitignore") gitIgnoreContent)
     >>> orLog (loadProject (before sch 4) projectPath
                >>> awaitCall (before sch 5)
                      (WriteFile (Js.join (calculationProjectFolder projectPath) ".gitkeep")
                                 gitKeepContent)
                >>> awaitCall (before sch 6)
                      (WriteFile (Js.join (fieldtypesFolder projectPath) ".gitkeep")
                                 gitKeepContent))
             "Failed to create project") w.

End CreateProject.

(** Nothing is at the path [dir] as a directory, and nothing lies beneath
    it. *)
Definition absent (dir : string) (s : gmap string node) : Prop :=
  isDir s dir = false /\ forall q, isUnder dir q = true -> s !! q = None.

(** *** Well-formed projects *)

(** [p] is [dir] or lies beneath it. *)
Definition inside (dir p : string) : bool := String.eqb p dir || isUnder dir p.

(** [p] is the path of a card directory named by a key with the prefix
    [prefix], which is not kept in an attachment folder. *)
Definition cardPathOk (prefix p : string) : Prop :=
  exists dir n,
    p = Js.join dir (prefix ++ "_" ++ n)
    /\ Js.oneLine dir = true
    /\ Js.forallb Js.isDigit n = true
    /\ Js.basename dir <> "a".

(** The data model of the spec, section 3, on the card store: the
    configured prefix is one ([^[a-z]+$]); every card directory in the card
    root and in the card folder of a local template is named by a key with
    that prefix; the names of attachments and of templates are file names. *)
Record wellFormed (d : disk) : Prop := WellFormed {
  wf_prefix : Js.isPrefix (cardkeyPrefix d) = true;
  wf_live : forall k f,
    cardDirs d !! k = Some f -> isUnder (cardrootFolder d) k = true ->
    cardPathOk (cardkeyPrefix d) k;
  wf_template : forall t k f,
    t ∈ localTemplates d -> cardDirs d !! k = Some f ->
    isUnder (templateCardsFolder d t) k = true ->
    cardPathOk (cardkeyPrefix d) k;
  wf_attachments : forall k f name,
    cardDirs d !! k = Some f -> isUnder (cardrootFolder d) k = true ->
    is_Some (attachmentFiles f !! name) -> Js.includes "/" name = false;
  wf_templates_nodup : NoDup (localTemplates d);
  wf_templates_names : forall t, t ∈ localTemplates d -> Js.includes "/" t = false
}.

(** An entry that another [rename] would change: the card has attachments
    and its [index.adoc] is not empty. *)
Definition unblanked (f : cardFiles) : Prop :=
  attachmentFiles f <> ∅ /\ indexAdoc f <> "".

(** The card store while [rename] goes through the cards of the card root
    [root]: [m0] is the store it started from, [current] the card it is at,
    [pending] the cards it has still to take.
    - the card it is at is on the disk, the pending cards are as they
      were enumerated;
    - only those cards can have attachments and an [index.adoc] that is not
      empty;
    - the attachments of the live cards bear file names;
    - nothing outside the card root has changed. *)
Record liveInv (root : string) (m0 m : gmap string cardFiles)
    (current : option string) (pending : list card) : Prop := LiveInv {
  inv_current : forall q, current = Some q -> is_Some (m !! q);
  inv_pending : forall c, c ∈ pending ->
    exists f, m !! path c = Some f /\ c = cardOf renameDetails (path c) f;
  inv_unblanked : forall k f,
    m !! k = Some f -> isUnder root k = true -> unblanked f ->
    k ∈ map path pending \/ current = Some k;
  inv_names : forall k f name,
    m !! k = Some f -> isUnder root k = true ->
    is_Some (attachmentFiles f !! name) -> Js.includes "/" name = false;
  inv_frame : forall k, isUnder root k = false -> m !! k = m0 !! k
}.

(** ** A sample project *)

(** Collaborators and a disk on which the engines are run in the examples:
    the project [/p] with the workflow [simple], the card type [task], the
    field type [owner], the link type [blocks], the card [demo_1] with one
    attachment, and the template [page] in whose card folder a stray file
    lies where the second card would go. *)
Module Sample.

Definition importedResources (s : gmap string node) (p collection : string)
  : list string := [].

Definition formatJson (d : document) : string :=
  match d with
  | DocCardtype c => "{name:" ++ ct_name c ++ ",workflow:" ++ ct_workflow c ++ "}"
  | DocFieldtype f => "{name:" ++ ft_name f ++ ",dataType:" ++ ft_dataType f ++ "}"
  | DocLinktype l => "{name:" ++ lt_name l ++ "}"
  | DocWorkflow w => "{name:" ++ wf_name w ++ "}"
  end.

Definition jsonStringify (d : document) : string := formatJson d.

Definition validateJson (d : document) (schemaId : string) : list string := [].

Definition errorFunction (e : error) : string :=
  match e with
  | Thrown m => m
  | ENOENT p => "ENOENT: " ++ p
  | EEXIST p => "EEXIST: " ++ p
  | ENOTEMPTY p => "ENOTEMPTY: " ++ p
  | EISDIR p => "EISDIR: " ++ p
  | ENOTDIR p => "ENOTDIR: " ++ p
  | EINVAL p => "EINVAL: " ++ p
  end.

Definition dataTypePattern : string := "^shorttext$|^longtext$|^number$|^enum$".

Definition disk0 : gmap string node :=
  list_to_map
    [("/p", Dir); ("/p/.cards", Dir); ("/p/.cards/local", Dir);
     ("/p/.cards/local/workflows", Dir);
     ("/p/.cards/local/workflows/simple.json", File "{name:simple}");
     ("/p/.cards/local/cardtypes", Dir);
     ("/p/.cards/local/cardtypes/task.json", File "{name:task,workflow:simple}");
     ("/p/.cards/local/fieldtypes", Dir);
     ("/p/.cards/local/fieldtypes/owner.json", File "{name:owner,dataType:shorttext}");
     ("/p/.cards/local/linktypes", Dir);
     ("/p/.cards/local/linktypes/blocks.json", File "{name:blocks}");
     ("/p/.cards/local/templates", Dir);
     ("/p/.cards/local/templates/page", Dir);
     ("/p/.cards/local/templates/page/c", Dir);
     ("/p/.cards/local/templates/page/c/demo_4", File "stray");
     ("/p/cardroot", Dir);
     ("/p/cardroot/demo_1", Dir);
     ("/p/cardroot/demo_1/index.json", File "{title:one}");
     ("/p/cardroot/demo_1/a", Dir);
     ("/p/cardroot/demo_1/a/plan.png", File "PNG");
     ("/p/cardroot/demo_2", Dir);
     ("/p/cardroot/demo_2/index.json", File "{title:two}");
     ("/tmp/plan.png", File "NEW")].

Definition cardAttachmentFolder (s : gmap string node) (p cardKey : string)
  : option string :=
  if isDir s (Js.join (Js.join p "cardroot") cardKey)
  then Some (Js.join (Js.join (Js.join p "cardroot") cardKey) "a")
  else None.

Definition pathToCard (s : gmap string node) (p cardKey : string) : option string :=
  if isDir s (Js.join (Js.join p "cardroot") cardKey)
  then Some (Js.join (Js.join p "cardroot") cardKey)
  else None.

(** The links of [demo_1]: one link to [demo_2]. *)
Definition demoLinks : list link := [Link "blocks" "demo_2" None].

Definition findSpecificCard (s : gmap string node) (p cardKey : string)
    (details : fetchCardDetails) : option card :=
  match pathToCard s p cardKey with
  | Some dir =>
      Some {| key := cardKey; path := dir; content := None;
              metadata :=
                if want_metadata details
                then Some (CardMetadata "task" cardKey "Draft" "0|a"
                             (if String.eqb cardKey "demo_1" then Some demoLinks else None))
                else None;
              attachments := None |}
  | None => None
  end.

Definition updateCardMetadata (p cardKey changedKey : string) (newValue : list link)
  : io unit := fun s =>
  (Ok tt,
   <[Js.join (Js.join (Js.join p "cardroot") cardKey) "index.json"
     := File ("{" ++ changedKey ++ ":"
              ++ arrayToString
                   (map (fun l => match l with
                                  | Link lType lKey _ => (lType ++ ">" ++ lKey)%string
                                  end) newValue)
              ++ "}")]> s).

Definition stringifyKeys (l : list string) : string := "[" ++ arrayToString l ++ "]".
Definition normalizedTemplateName (t : string) : string := t.
Definition templateFolder (p t : string) : string :=
  Js.join (Js.join p ".cards/local/templates") t.
Definition templateFindSpecificCard (s : gmap string node) (p t cardKey : string)
  : option card := None.

(** The next key of the template: the project's counter stands at 3. *)
Definition nextKey (s : gmap string node) (folder : string) : string :=
  if bool_decide (is_Some (s !! Js.join folder "demo_3")) then "demo_4" else "demo_3".

Definition templateAddCard (p t cardTypeName : string) (parent : option card)
  : io string := fun s =>
  let folder := Js.join (templateFolder p t) "c" in
  let cardKey := nextKey s folder in
  (await _ := mkdirOne (Js.join folder cardKey) in
   await _ := writeFileWx (Js.join (Js.join folder cardKey) "index.json") cardTypeName in
   ioRet cardKey) s.

End Sample.

(** The card store of a project with the prefix [abc]: a card with an
    attachment, its child, its grandchild with an attachment, a second card
    at top level, and a card in the local template [page]. *)
Module SampleStore.

Definition meta : cardMetadata := CardMetadata "task" "a title" "Draft" "0|a" None.

Definition disk0 : disk :=
  {| basePath := "/p";
     cardkeyPrefix := "abc";
     cardDirs :=
       list_to_map
         [("/p/cardroot/abc_1",
           CardFiles meta "see image::abc.png[]" (list_to_map [("abc.png", "PNG")]));
          ("/p/cardroot/abc_1/c/abc_2", CardFiles meta "child" ∅);
          ("/p/cardroot/abc_1/c/abc_2/c/abc_3",
           CardFiles meta "grandchild" (list_to_map [("x.png", "X")]));
          ("/p/cardroot/abc_4", CardFiles meta "second" ∅);
          ("/p/.cards/local/templates/page/c/abc_5",
           CardFiles meta "blueprint" (list_to_map [("y.png", "Y")]))];
     localTemplates := ["page"] |}.

Definition isTemplateCard (c : card) : bool :=
  isUnder "/p/.cards/local/templates" (path c).

Definition regexReplaceAll (pattern replacement subject : string) : string := subject.

End SampleStore.

(** Collaborators for [createProject], [createTemplate] and [createCard]
    in the examples, and a schedule on which every unawaited call settles at
    the next point, in the order of starting. *)
Module SampleProject.

Definition schemaContentFile : string := ".schema".
Definition projectConfigFileName : string := "cardsconfig.json".

Definition calculationProjectFolder (p : string) : string :=
  Js.join p ".cards/local/calculations".
Definition fieldtypesFolder (p : string) : string := Js.join p ".cards/local/fieldtypes".

Definition projectIsCreated (s : gmap string node) (p : string) : bool :=
  isDir s (Js.join p ".cards") && isDir s (Js.join p "cardroot").

Definition projectError (s : gmap string node) (p : string) : option error :=
  match s !! Js.join (Js.join p ".cards/local") projectConfigFileName with
  | Some (File _) => None
  | _ => Some (ENOENT (Js.join (Js.join p ".cards/local") projectConfigFileName))
  end.

Definition formatContent (c : schemaContent) : string :=
  "{id:" ++ default "-" (sc_id c) ++ ",name:" ++ default "-" (sc_name c)
  ++ ",cardkeyPrefix:" ++ default "-" (sc_cardkeyPrefix c) ++ "}".

Definition inOrder : schedule :=
  {| before := fun _ => repeat 0%nat 16; secondFirst := false |}.

Definition world0 : world :=
  {| files := Sample.disk0; pending := []; started := []; console := [];
     schemaFilesContent := newSchemaFilesContent schemaContentFile projectConfigFileName |}.

Definition normalizedTemplateName (t : string) : string :=
  if Js.startsWith "local/" t then Js.drop 6 t
  else if Js.includes "/" t then "" else t.

Definition validateTemplate (c : templateMetadata) (schemaId : string) : list string :=
  if String.eqb (buttonLabel c) "" then ["buttonLabel must not be empty"] else [].

Definition templateExists (s : gmap string node) (p t : string) : bool :=
  isDir s (Js.join (Js.join p ".cards/local/templates") t).

Definition templateCreate (p t : string) (c : templateMetadata) : io unit :=
  await _ := mkdirRecursive (Js.join (Js.join (Js.join p ".cards/local/templates") t) "c") in
  writeFileWx (Js.join (Js.join (Js.join p ".cards/local/templates") t) "template.json")
              ("{buttonLabel:" ++ buttonLabel c ++ "}").

End SampleProject.

(** * Properties *)

Local Open Scope string_scope.

(** ** Strings *)

Lemma startsWith_app (p s : string) : Js.startsWith p (p ++ s) = true.
Proof.
  induction p as [|a p IH]; simpl; [reflexivity|].
  rewrite Ascii.eqb_refl. exact IH.
Qed.

Lemma startsWith_inv (p s : string) :
  Js.startsWith p s = true -> exists t, s = p ++ t.
Proof.
  revert s. induction p as [|a p IH]; intros s H; simpl in *.
  - exists s. reflexivity.
  - destruct s as [|b s]; [discriminate|].
    destruct (Ascii.eqb_spec a b) as [->|]; [|discriminate].
    destruct (IH _ H) as [t ->]. exists t. reflexivity.
Qed.

Lemma drop_app (p s : string) : Js.drop (String.length p) (p ++ s) = s.
Proof. induction p as [|a p IH]; simpl; [destruct s; reflexivity|exact IH]. Qed.

Lemma append_assoc (a b c : string) : (a ++ b) ++ c = a ++ (b ++ c).
Proof. induction a as [|x a IH]; simpl; [reflexivity|]. f_equal. exact IH. Qed.

Lemma append_nil_r (a : string) : a ++ "" = a.
Proof. induction a as [|x a IH]; simpl; [reflexivity|]. f_equal. exact IH. Qed.

Lemma length_append (a b : string) :
  String.length (a ++ b) = (String.length a + String.length b)%nat.
Proof. induction a as [|x a IH]; simpl; [reflexivity|]. f_equal. exact IH. Qed.

Lemma append_inj_l (a b c : string) : a ++ b = a ++ c -> b = c.
Proof. induction a as [|x a IH]; simpl; intros H; [exact H|]. injection H. exact IH. Qed.

Lemma includes_app_r (p a b : string) :
  Js.includes p b = true -> Js.includes p (a ++ b) = true.
Proof.
  intros H. induction a as [|x a IH]; simpl; [exact H|].
  rewrite IH. apply orb_true_r.
Qed.

Lemma includes_slash_cons (c : ascii) (s : string) :
  Js.includes "/" (String c s) = Ascii.eqb "/"%char c || Js.includes "/" s.
Proof.
  cbn [Js.includes Js.startsWith]. destruct (Ascii.eqb "/"%char c); reflexivity.
Qed.

Lemma includes_slash_app (a b : string) :
  Js.includes "/" (a ++ b) = Js.includes "/" a || Js.includes "/" b.
Proof.
  induction a as [|x a IH].
  - simpl. reflexivity.
  - change (String x a ++ b) with (String x (a ++ b)).
    rewrite !includes_slash_cons, IH. apply orb_assoc.
Qed.

(** The last segment of a joined path. *)
Lemma basename_join (dir n : string) :
  Js.includes "/" n = false -> Js.basename (Js.join dir n) = n.
Proof.
  intros Hn. unfold Js.join. induction dir as [|c dir IH].
  - simpl. rewrite Hn. reflexivity.
  - change (String c dir ++ "/" ++ n) with (String c (dir ++ "/" ++ n)).
    cbn [Js.basename]. rewrite includes_slash_app.
    replace (Js.includes "/" ("/" ++ n)) with true by (simpl; reflexivity).
    rewrite orb_true_r. exact IH.
Qed.

Lemma dirname_join (dir n : string) :
  Js.includes "/" n = false -> Js.dirname (Js.join dir n) = dir.
Proof.
  intros Hn. unfold Js.join. induction dir as [|c dir IH].
  - simpl. rewrite Hn. reflexivity.
  - change (String c dir ++ "/" ++ n) with (String c (dir ++ "/" ++ n)).
    cbn [Js.dirname]. rewrite includes_slash_app.
    replace (Js.includes "/" ("/" ++ n)) with true by (simpl; reflexivity).
    rewrite orb_true_r. f_equal. exact IH.
Qed.

Lemma entryName_join (dir n : string) :
  n <> "" -> Js.includes "/" n = false -> entryName dir (Js.join dir n) = Some n.
Proof.
  intros Hne Hn. unfold entryName, Js.join.
  rewrite <- append_assoc, startsWith_app, drop_app, Hn.
  destruct (String.eqb_spec n ""); [contradiction|reflexivity].
Qed.

(** ** The Create engine's disk *)

Lemma readdir_spec (s : gmap string node) (dir n : string) :
  n ∈ readdir s dir <-> exists p, is_Some (s !! p) /\ entryName dir p = Some n.
Proof.
  unfold readdir. rewrite list_elem_of_omap. split.
  - intros [[p v] [Hin Hn]]. apply elem_of_map_to_list in Hin.
    exists p. split; [eexists; exact Hin|exact Hn].
  - intros [p [[v Hv] Hn]]. exists (p, v). split; [|exact Hn].
    apply elem_of_map_to_list. exact Hv.
Qed.

Lemma readdir_lists_file (s : gmap string node) (dir n : string) :
  n <> "" -> Js.includes "/" n = false ->
  is_Some (s !! Js.join dir n) -> n ∈ readdir s dir.
Proof.
  intros Hne Hn Hs. apply readdir_spec. exists (Js.join dir n).
  split; [exact Hs|]. apply entryName_join; assumption.
Qed.

Lemma entryName_inv (dir p n : string) :
  entryName dir p = Some n -> p = Js.join dir n.
Proof.
  unfold entryName. destruct (Js.startsWith (dir ++ "/") p) eqn:Hp; [|discriminate].
  apply startsWith_inv in Hp as [t ->]. rewrite drop_app.
  destruct (String.eqb t "" || Js.includes "/" t); [discriminate|].
  intros [= ->]. unfold Js.join. apply append_assoc.
Qed.

Lemma readdir_entry (s : gmap string node) (dir n : string) :
  n ∈ readdir s dir -> is_Some (s !! Js.join dir n).
Proof.
  intros H. apply readdir_spec in H as [p [Hs Hn]].
  apply entryName_inv in Hn as ->. exact Hs.
Qed.

Lemma existsb_elem_of (f : string -> bool) (l : list string) :
  existsb f l = true <-> exists x, x ∈ l /\ f x = true.
Proof.
  rewrite existsb_exists. split; intros [x [H1 H2]]; exists x; split; try exact H2.
  - apply list_elem_of_In. exact H1.
  - apply list_elem_of_In. exact H1.
Qed.

Lemma writeFileWx_exists (p data : string) (s : gmap string node) :
  is_Some (s !! p) -> writeFileWx p data s = (Err (EEXIST p), s).
Proof. intros [v Hv]. unfold writeFileWx. rewrite Hv. reflexivity. Qed.

Lemma writeFileWx_keeps (p data : string) (s : gmap string node) (q : string) :
  is_Some (s !! q) -> (writeFileWx p data s).2 !! q = s !! q.
Proof.
  intros [v Hv]. unfold writeFileWx. destruct (s !! p) eqn:Hp; [reflexivity|].
  destruct (isDir s (Js.dirname p)); [|reflexivity].
  simpl. apply lookup_insert_ne. intros ->. congruence.
Qed.

Lemma writeFileWx_ok (p data : string) (s s' : gmap string node) :
  writeFileWx p data s = (Ok tt, s') ->
  s !! p = None /\ isDir s (Js.dirname p) = true /\ s' = <[p := File data]> s.
Proof.
  unfold writeFileWx. destruct (s !! p); [discriminate|].
  destruct (isDir s (Js.dirname p)); [|discriminate].
  intros [= <-]. auto.
Qed.

Lemma writeFileWx_fresh (p data : string) (s : gmap string node) :
  s !! p = None -> isDir s (Js.dirname p) = true ->
  writeFileWx p data s = (Ok tt, <[p := File data]> s).
Proof. intros Hp Hd. unfold writeFileWx. rewrite Hp, Hd. reflexivity. Qed.

Lemma copyFileExcl_exists (src dst : string) (s : gmap string node) :
  is_Some (s !! dst) -> exists e, copyFileExcl src dst s = (Err e, s).
Proof.
  intros [v Hv]. unfold copyFileExcl.
  destruct (s !! src) as [[bytes|]|]; rewrite ?Hv; eauto.
Qed.

Lemma mkdirOne_keeps (p : string) (s : gmap string node) (q : string) :
  is_Some (s !! q) -> (mkdirOne p s).2 !! q = s !! q.
Proof.
  intros [v Hv]. unfold mkdirOne. destruct (s !! p) as [[b|]|] eqn:Hp; try reflexivity.
  simpl. apply lookup_insert_ne. intros ->. congruence.
Qed.

Lemma mkdirAll_keeps (l : list string) (s : gmap string node) (q : string) :
  is_Some (s !! q) -> (mkdirAll l s).2 !! q = s !! q.
Proof.
  revert s. induction l as [|p l IH]; intros s Hq; [reflexivity|].
  cbn [mkdirAll]. unfold ioBind.
  pose proof (mkdirOne_keeps p s q Hq) as H1.
  destruct (mkdirOne p s) as [[[]|e] s1] eqn:E; simpl in H1.
  - rewrite IH; [exact H1|]. rewrite H1. exact Hq.
  - exact H1.
Qed.

(** ** The Create engine *)

Section CreateProperties.
Context (cardAttachmentFolder : gmap string node -> string -> string -> option string)
        (importedResources : gmap string node -> string -> string -> list string)
        (validateJson : document -> string -> list string)
        (formatJson jsonStringify : document -> string)
        (errorFunction : error -> string)
        (dataTypePattern : string).

Local Abbreviation createCardtype' := (createCardtype importedResources formatJson).
Local Abbreviation createFieldType' :=
  (createFieldType importedResources formatJson dataTypePattern).
Local Abbreviation createLinkType' :=
  (createLinkType importedResources validateJson jsonStringify).
Local Abbreviation createWorkflow' := (createWorkflow validateJson formatJson).
Local Abbreviation createAttachment' := (createAttachment cardAttachmentFolder errorFunction).
Local Abbreviation fieldTypeExists' := (fieldTypeExists importedResources).
Local Abbreviation linkTypeExists' := (linkTypeExists importedResources).
Local Abbreviation workflowExists' := (workflowExists importedResources).
Local Abbreviation attachmentTarget' := (attachmentTarget cardAttachmentFolder).

Lemma createCardtype_cases (p name wf : string) (s : gmap string node) :
  createCardtype' p name wf s
  = (Err (Thrown ("Input validation error: workflow '" ++ wf
                  ++ "' does not exist in the project.")), s)
  \/ createCardtype' p name wf s
     = writeFileWx (resourceFile p "cardtypes" name)
                   (formatJson (DocCardtype (CardtypeContent name wf))) s.
Proof.
  unfold createCardtype. destruct (workflowExists' s p wf); simpl; [right|left]; reflexivity.
Qed.

Lemma createFieldType_cases (p name dt : string) (s : gmap string node) :
  (exists m, createFieldType' p name dt s = (Err (Thrown m), s))
  \/ createFieldType' p name dt s
     = writeFileWx (resourceFile p "fieldtypes" name)
                   (formatJson (DocFieldtype (FieldtypeContent name dt))) s.
Proof.
  unfold createFieldType. destruct (fieldTypeExists' s p name); [left; eauto|].
  destruct (existsb _ _); simpl; [right; reflexivity|left; eauto].
Qed.

Lemma createLinkType_cases (p name : string) (s : gmap string node) :
  (exists m, createLinkType' p name s = (Err (Thrown m), s))
  \/ createLinkType' p name s
     = writeFileWx (resourceFile p "linktypes" name)
                   (jsonStringify (DocLinktype (getLinkTypeContent name))) s.
Proof.
  unfold createLinkType. destruct (linkTypeExists' s p name); [left; eauto|].
  destruct (negb _); [left; eauto|right; reflexivity].
Qed.

Lemma createWorkflow_cases (p : string) (w : workflowMetadata) (s : gmap string node) :
  (exists m, createWorkflow' p w s = (Err (Thrown m), s))
  \/ createWorkflow' p w s
     = writeFileWx (resourceFile p "workflows" (wf_name w)) (formatJson (DocWorkflow w)) s.
Proof.
  unfold createWorkflow. destruct (negb _); [left; eauto|right; reflexivity].
Qed.

Lemma createAttachment_keeps (cardKey p attachment : string) (buffer : option string)
    (s : gmap string node) (q : string) :
  is_Some (s !! q) -> (createAttachment' cardKey p attachment buffer s).2 !! q = s !! q.
Proof.
  intros Hq. unfold createAttachment.
  destruct (cardAttachmentFolder s p cardKey) as [[|c f]|]; try reflexivity.
  destruct (Js.includes "/modules/" (String c f)); [reflexivity|].
  unfold ioCatch, ioBind.
  pose proof (mkdirAll_keeps (ancestors (String c f) ++ [String c f])%list s q Hq) as H1.
  unfold mkdirRecursive.
  destruct (mkdirAll _ s) as [[[]|e] s1] eqn:E; simpl in H1; [|exact H1].
  assert (is_Some (s1 !! q)) as Hq1 by (rewrite H1; exact Hq).
  destruct buffer as [bytes|].
  - pose proof (writeFileWx_keeps (Js.join (String c f) (Js.basename attachment)) bytes s1 q Hq1) as H2.
    destruct (writeFileWx _ _ s1) as [[[]|e] s2]; simpl in *; congruence.
  - assert (forall r, r = copyFileExcl attachment (Js.join (String c f) (Js.basename attachment)) s1 ->
                      r.2 !! q = s1 !! q) as H2.
    { intros r ->. unfold copyFileExcl.
      destruct (s1 !! attachment) as [[b|]|]; try reflexivity.
      destruct (s1 !! Js.join (String c f) (Js.basename attachment)) eqn:Ht; [reflexivity|].
      destruct (isDir s1 _); [|reflexivity].
      cbn [snd]. apply lookup_insert_ne. intros Heq. rewrite Heq in Ht.
      destruct Hq1. congruence. }
    specialize (H2 _ eq_refl).
    destruct (copyFileExcl _ _ s1) as [[[]|e] s2]; simpl in *; congruence.
Qed.

Lemma createAttachment_target_exists (cardKey p attachment : string)
    (buffer : option string) (s : gmap string node) (target : string) :
  attachmentTarget' s p cardKey attachment = Some target ->
  is_Some (s !! target) ->
  isOk (createAttachment' cardKey p attachment buffer s).1 = false.
Proof.
  unfold attachmentTarget, createAttachment. intros Ht Hq.
  destruct (cardAttachmentFolder s p cardKey) as [[|c f]|]; try reflexivity.
  injection Ht as Ht. rewrite Ht.
  destruct (Js.includes "/modules/" (String c f)); [reflexivity|].
  unfold ioCatch, ioBind, mkdirRecursive.
  pose proof (mkdirAll_keeps (ancestors (String c f) ++ [String c f])%list s _ Hq) as H1.
  destruct (mkdirAll _ s) as [[[]|e] s1] eqn:E; [|reflexivity].
  cbn [snd] in H1.
  assert (is_Some (s1 !! target)) as Hq1 by (rewrite H1; exact Hq).
  destruct buffer as [bytes|].
  - rewrite (writeFileWx_exists _ _ _ Hq1). reflexivity.
  - destruct (copyFileExcl_exists attachment _ _ Hq1) as [e ->]. reflexivity.
Qed.

Lemma resource_file_listed (s : gmap string node) (p collection name : string) :
  Js.includes "/" name = false ->
  is_Some (s !! resourceFile p collection name) ->
  existsb (fun item => String.eqb item (name ++ ".json") || String.eqb item name)
          (resources importedResources s p collection) = true.
Proof.
  intros Hname Hfile. apply existsb_elem_of. exists (name ++ ".json"). split.
  - unfold resources. apply elem_of_app. left. apply readdir_lists_file.
    + destruct name; discriminate.
    + rewrite includes_slash_app, Hname. reflexivity.
    + exact Hfile.
  - rewrite String.eqb_refl. reflexivity.
Qed.

Lemma resource_file_dirname (p collection name : string) :
  Js.includes "/" name = false ->
  Js.dirname (resourceFile p collection name) = resourceFolder p collection.
Proof.
  intros Hname. apply dirname_join. rewrite includes_slash_app, Hname. reflexivity.
Qed.


(** C2, as the code has it.  When the file of a resource of that name is in
    the collection folder, [createFieldType] and [createLinkType] are
    stopped by their uniqueness check, with the "already exists in the
    project" error; [createCardtype] and [createWorkflow] make no such
    check: they get as far as the exclusive write, which rejects with
    [EEXIST], unless the workflow check or the validation stops them before.
    In each case the disk is left as it was.  A creation that succeeds
    leaves the file there, so creating the same name again fails. *)
Theorem second_creation_rejected (p name : string) (s : gmap string node) :
  Js.includes "/" name = false ->
  (is_Some (s !! resourceFile p "fieldtypes" name) ->
   forall dt, createFieldType' p name dt s
     = (Err (Thrown ("Field type with name '" ++ name
                     ++ "' already exists in the project")), s)) /\
  (is_Some (s !! resourceFile p "linktypes" name) ->
   createLinkType' p name s
     = (Err (Thrown ("Link type with name '" ++ name
                     ++ "' already exists in the project")), s)) /\
  (is_Some (s !! resourceFile p "cardtypes" name) ->
   forall wf,
     createCardtype' p name wf s
     = (Err (Thrown ("Input validation error: workflow '" ++ wf
                     ++ "' does not exist in the project.")), s)
     \/ createCardtype' p name wf s = (Err (EEXIST (resourceFile p "cardtypes" name)), s)) /\
  (is_Some (s !! resourceFile p "workflows" name) ->
   forall w, wf_name w = name ->
     createWorkflow' p w s
     = (Err (Thrown ("Invalid workflow JSON: "
                     ++ arrayToString (validateJson (DocWorkflow w) "workflow-schema"))), s)
     \/ createWorkflow' p w s = (Err (EEXIST (resourceFile p "workflows" name)), s)) /\
  (forall s0 dt, createFieldType' p name dt s0 = (Ok tt, s) ->
                 is_Some (s !! resourceFile p "fieldtypes" name)) /\
  (forall s0, createLinkType' p name s0 = (Ok tt, s) ->
              is_Some (s !! resourceFile p "linktypes" name)) /\
  (forall s0 wf, createCardtype' p name wf s0 = (Ok tt, s) ->
                 is_Some (s !! resourceFile p "cardtypes" name)) /\
  (forall s0 w, wf_name w = name -> createWorkflow' p w s0 = (Ok tt, s) ->
                is_Some (s !! resourceFile p "workflows" name)).
Proof.
  intros Hname. repeat split.
  - intros Hfile dt. unfold createFieldType, fieldTypeExists.
    rewrite (resource_file_listed s p "fieldtypes" name Hname Hfile). reflexivity.
  - intros Hfile. unfold createLinkType, linkTypeExists.
    rewrite (resource_file_listed s p "linktypes" name Hname Hfile). reflexivity.
  - intros Hfile wf. destruct (createCardtype_cases p name wf s) as [-> | ->]; [left; reflexivity|].
    right. apply writeFileWx_exists. exact Hfile.
  - intros Hfile w <-. unfold createWorkflow.
    destruct (negb _); [left; reflexivity|right].
    apply writeFileWx_exists. exact Hfile.
  - intros s0 dt H. destruct (createFieldType_cases p name dt s0) as [[m Hm] | Hw];
      [congruence|]. rewrite Hw in H. apply writeFileWx_ok in H as (_ & _ & ->).
    rewrite lookup_insert_eq. eauto.
  - intros s0 H. destruct (createLinkType_cases p name s0) as [[m Hm] | Hw];
      [congruence|]. rewrite Hw in H. apply writeFileWx_ok in H as (_ & _ & ->).
    rewrite lookup_insert_eq. eauto.
  - intros s0 wf H. destruct (createCardtype_cases p name wf s0) as [Hm | Hw];
      [congruence|]. rewrite Hw in H. apply writeFileWx_ok in H as (_ & _ & ->).
    rewrite lookup_insert_eq. eauto.
  - intros s0 w <- H. destruct (createWorkflow_cases p w s0) as [[m Hm] | Hw];
      [congruence|]. rewrite Hw in H. apply writeFileWx_ok in H as (_ & _ & ->).
    rewrite lookup_insert_eq. eauto.
Qed.


End CreateProperties.

Section LinkProperties.
Context (findSpecificCard :
           gmap string node -> string -> string -> fetchCardDetails -> option card)
        (pathToCard : gmap string node -> string -> string -> option string)
        (updateCardMetadata : string -> string -> string -> list link -> io unit)
        (importedResources : gmap string node -> string -> string -> list string).

Local Abbreviation createLink' :=
  (createLink findSpecificCard pathToCard updateCardMetadata importedResources).

Lemma find_link_none (lt dest : string) (desc : option string) (ls : list link) :
  find (fun l => match l with
                 | Link lType lKey lDescription =>
                     String.eqb lType lt && String.eqb lKey dest
                     && bool_decide (lDescription = desc)
                 end) ls = None
  <-> Link lt dest desc ∉ ls.
Proof.
  induction ls as [|[a b c] ls IH]; cbn [find].
  - split; [intros _ H; inversion H|reflexivity].
  - destruct (String.eqb_spec a lt) as [->|Ha]; cbn [andb].
    + destruct (String.eqb_spec b dest) as [->|Hb]; cbn [andb].
      * destruct (bool_decide_reflect (c = desc)) as [->|Hc].
        -- split; [discriminate|]. intros H. exfalso. apply H. left.
        -- rewrite IH. split; intros H.
           ++ intros Hin. apply elem_of_cons in Hin as [Heq|Hin]; [|contradiction].
              injection Heq as <-. contradiction.
           ++ intros Hin. apply H. right. exact Hin.
      * rewrite IH. split; intros H.
        -- intros Hin. apply elem_of_cons in Hin as [Heq|Hin]; [|contradiction].
           injection Heq as <- _. contradiction.
        -- intros Hin. apply H. right. exact Hin.
    + rewrite IH. split; intros H.
      * intros Hin. apply elem_of_cons in Hin as [Heq|Hin]; [|contradiction].
        injection Heq as <- _ _. contradiction.
      * intros Hin. apply H. right. exact Hin.
Qed.

(** When all four checks pass, [createLink] is the call of
    [updateCardMetadata] with the links read off the card and the new one
    behind them. *)
Lemma createLink_appends (p cardKey dest lt : string) (desc : option string)
    (s : gmap string node) (c : card) :
  findSpecificCard s p cardKey metadataOnly = Some c ->
  Js.truthy (pathToCard s p dest) = true ->
  linkTypeExists importedResources s p lt = true ->
  Link lt dest desc ∉ default [] (cardLinks c) ->
  createLink' p cardKey dest lt desc s
  = updateCardMetadata p cardKey "links"
      (default [] (cardLinks c) ++ [Link lt dest desc])%list s.
Proof.
  intros Hc Hd Hl Hn. unfold createLink. rewrite Hc, Hd, Hl. cbn [negb].
  destruct (cardLinks c) as [ls|] eqn:Els; [|reflexivity].
  change (Link lt dest desc ∉ ls) in Hn.
  apply find_link_none in Hn. rewrite Hn. reflexivity.
Qed.

(** C7. [createLink] is rejected, the disk left as it was and
    [updateCardMetadata] not called, when the source card is not found, when
    the destination key resolves to no card, when the link type is not among
    the link types, and when the source card holds the same
    (link type, destination key, description) already; in every other case
    it is the call of [updateCardMetadata] on the card's links with exactly
    the new link appended. *)
Theorem createLink_outcomes (p cardKey dest lt : string) (desc : option string)
    (s : gmap string node) :
  (findSpecificCard s p cardKey metadataOnly = None ->
   createLink' p cardKey dest lt desc s
   = (Err (Thrown ("Card '" ++ cardKey ++ "' does not exist in the project")), s)) /\
  (forall c, findSpecificCard s p cardKey metadataOnly = Some c ->
     (Js.truthy (pathToCard s p dest) = false ->
      createLink' p cardKey dest lt desc s
      = (Err (Thrown ("Card '" ++ dest ++ "' does not exist in the project")), s)) /\
     (Js.truthy (pathToCard s p dest) = true ->
      linkTypeExists importedResources s p lt = false ->
      createLink' p cardKey dest lt desc s
      = (Err (Thrown ("Link type '" ++ lt ++ "' does not exist in the project")), s)) /\
     (Js.truthy (pathToCard s p dest) = true ->
      linkTypeExists importedResources s p lt = true ->
      Link lt dest desc ∈ default [] (cardLinks c) ->
      createLink' p cardKey dest lt desc s
      = (Err (Thrown ("Link from card '" ++ cardKey ++ "' to card '" ++ dest
                      ++ "' already exists")), s)) /\
     (Js.truthy (pathToCard s p dest) = true ->
      linkTypeExists importedResources s p lt = true ->
      Link lt dest desc ∉ default [] (cardLinks c) ->
      createLink' p cardKey dest lt desc s
      = updateCardMetadata p cardKey "links"
          (default [] (cardLinks c) ++ [Link lt dest desc])%list s)).
Proof.
  split.
  - intros Hc. unfold createLink. rewrite Hc. reflexivity.
  - intros c Hc. repeat split.
    + intros Hd. unfold createLink. rewrite Hc, Hd. reflexivity.
    + intros Hd Hl. unfold createLink. rewrite Hc, Hd, Hl. reflexivity.
    + intros Hd Hl Hin. unfold createLink. rewrite Hc, Hd, Hl. cbn [negb].
      destruct (cardLinks c) as [ls|] eqn:Els; [|inversion Hin].
      change (Link lt dest desc ∈ ls) in Hin.
      destruct (find _ ls) eqn:Hf; [reflexivity|].
      apply find_link_none in Hf. contradiction.
    + intros Hd Hl Hn. apply createLink_appends; assumption.
Qed.

(** C9. The link that [createLink] hands to [updateCardMetadata] holds
    [linkType], [cardKey] and, when a description is given,
    [linkDescription], and no [direction]; the links item of the card base
    schema requires [direction], [cardkey] and [linktype] and allows no
    property beyond [cardkey], [linktype] and [linkDescription], so the
    link lacks all three required properties and holds two that are not
    allowed. *)
Theorem createLink_sets_no_direction (p cardKey dest lt : string)
    (desc : option string) (s : gmap string node) (c : card) :
  findSpecificCard s p cardKey metadataOnly = Some c ->
  Js.truthy (pathToCard s p dest) = true ->
  linkTypeExists importedResources s p lt = true ->
  Link lt dest desc ∉ default [] (cardLinks c) ->
  let new := Link lt dest desc in
  let names := map fst (linkProperties new) in
  createLink' p cardKey dest lt desc s
  = updateCardMetadata p cardKey "links" (default [] (cardLinks c) ++ [new])%list s
  /\ names = (["linkType"; "cardKey"]
              ++ (match desc with Some _ => ["linkDescription"] | None => [] end))%list
  /\ ("direction" ∉ names)
  /\ required cardBaseLinkItem = ["direction"; "cardkey"; "linktype"]
  /\ properties cardBaseLinkItem = ["cardkey"; "linktype"; "linkDescription"]
  /\ additionalProperties cardBaseLinkItem = false
  /\ objectViolations cardBaseLinkItem names
     = [MissingRequired "direction"; MissingRequired "cardkey";
        MissingRequired "linktype";
        AdditionalProperty "linkType"; AdditionalProperty "cardKey"].
Proof.
  intros Hc Hd Hl Hn new names. split; [apply createLink_appends; assumption|].
  subst new names. destruct desc as [d|]; repeat split; try reflexivity.
  - intros H. simpl in H.
    repeat (apply elem_of_cons in H as [H|H]; [discriminate|]). inversion H.
  - intros H. simpl in H.
    repeat (apply elem_of_cons in H as [H|H]; [discriminate|]). inversion H.
Qed.

End LinkProperties.

Section AddCardsProperties.
Context (stringifyKeys : list string -> string)
        (normalizedTemplateName : string -> string)
        (templateFolder : string -> string -> string)
        (templateFindSpecificCard :
           gmap string node -> string -> string -> string -> option card)
        (templateAddCard : string -> string -> string -> option card -> io string).

Local Abbreviation addCards' :=
  (addCards stringifyKeys normalizedTemplateName templateFolder
            templateFindSpecificCard templateAddCard).
Local Abbreviation addCardLoop' := (addCardLoop templateAddCard).
Local Abbreviation addCardOutcomes' := (addCardOutcomes templateAddCard).

(** The loop gives up at the first rejection and forgets the keys it had. *)
Lemma addCardLoop_outcomes (n : nat) (p t ct : string) (sc : option card)
    (s : gmap string node) :
  addCardLoop' n p t ct sc s
  = match addCardOutcomes' n p t ct sc s with
    | (keys, None, s') => (Ok keys, s')
    | (_, Some e, s') => (Err e, s')
    end.
Proof.
  revert s. induction n as [|n IH]; intros s; [reflexivity|].
  cbn [addCardLoop addCardOutcomes]. unfold ioBind at 1.
  destruct (templateAddCard p t ct sc s) as [[k|e] s1]; [|reflexivity].
  unfold ioBind. rewrite IH.
  destruct (addCardOutcomes' n p t ct sc s1) as [[keys [e|]] s2]; reflexivity.
Qed.

Lemma addCardOutcomes_length (n : nat) (p t ct : string) (sc : option card)
    (s : gmap string node) :
  match addCardOutcomes' n p t ct sc s with
  | (keys, None, _) => length keys = n
  | (keys, Some _, _) => (length keys < n)%nat
  end.
Proof.
  revert s. induction n as [|n IH]; intros s; [reflexivity|].
  cbn [addCardOutcomes].
  destruct (templateAddCard p t ct sc s) as [[k|e] s1]; [|simpl; lia].
  specialize (IH s1).
  destruct (addCardOutcomes' n p t ct sc s1) as [[keys [e|]] s2]; simpl; lia.
Qed.


End AddCardsProperties.

(** ** The Create engine on the sample project *)



(** C2 fails as stated: with the card type [task] on the disk,
    [createCardtype] passes its only check, that of the workflow, and is
    rejected by the exclusive write with [EEXIST]; no uniqueness check
    produced the error. *)
Lemma createCardtype_has_no_uniqueness_check :
  is_Some (Sample.disk0 !! resourceFile "/p" "cardtypes" "task")
  /\ createCardtype Sample.importedResources Sample.formatJson "/p" "task" "simple"
       Sample.disk0
     = (Err (EEXIST "/p/.cards/local/cardtypes/task.json"), Sample.disk0).
Proof. split; [eexists; reflexivity|reflexivity]. Qed.

Lemma second_creation_rejected_witness :
  let create := createFieldType Sample.importedResources Sample.formatJson
                  Sample.dataTypePattern "/p" "size" in
  let s1 := (create "number" Sample.disk0).2 in
  create "number" Sample.disk0 = (Ok tt, s1)
  /\ create "enum" s1
     = (Err (Thrown "Field type with name 'size' already exists in the project"), s1).
Proof.
  intros create s1.
  assert (create "number" Sample.disk0 = (Ok tt, s1)) as Hfirst by reflexivity.
  split; [exact Hfirst|].
  destruct (second_creation_rejected Sample.importedResources Sample.validateJson
              Sample.formatJson Sample.jsonStringify Sample.dataTypePattern
              "/p" "size" s1 eq_refl)
    as (Hexists & _ & _ & _ & Hleft & _).
  apply Hexists. exact (Hleft _ _ Hfirst).
Defined.




Lemma createLink_outcomes_witness :
  let createLink' := createLink Sample.findSpecificCard Sample.pathToCard
                       Sample.updateCardMetadata Sample.importedResources "/p" in
  createLink' "demo_1" "demo_2" "blocks" None Sample.disk0
  = (Err (Thrown "Link from card 'demo_1' to card 'demo_2' already exists"), Sample.disk0)
  /\ createLink' "demo_1" "demo_9" "blocks" None Sample.disk0
     = (Err (Thrown "Card 'demo_9' does not exist in the project"), Sample.disk0)
  /\ createLink' "demo_1" "demo_2" "tests" None Sample.disk0
     = (Err (Thrown "Link type 'tests' does not exist in the project"), Sample.disk0)
  /\ createLink' "demo_9" "demo_2" "blocks" None Sample.disk0
     = (Err (Thrown "Card 'demo_9' does not exist in the project"), Sample.disk0)
  /\ createLink' "demo_1" "demo_2" "blocks" (Some "soon") Sample.disk0
     = Sample.updateCardMetadata "/p" "demo_1" "links"
         [Link "blocks" "demo_2" None; Link "blocks" "demo_2" (Some "soon")] Sample.disk0.
Proof.
  intros createLink'.
  pose (c := {| key := "demo_1"; path := "/p/cardroot/demo_1"; content := None;
                metadata := Some (CardMetadata "task" "demo_1" "Draft" "0|a"
                                    (Some Sample.demoLinks));
                attachments := None |}).
  assert (Sample.findSpecificCard Sample.disk0 "/p" "demo_1" metadataOnly = Some c)
    as Hc by reflexivity.
  split; [|split; [|split; [|split]]].
  - destruct (createLink_outcomes Sample.findSpecificCard Sample.pathToCard
                Sample.updateCardMetadata Sample.importedResources
                "/p" "demo_1" "demo_2" "blocks" None Sample.disk0) as [_ H].
    destruct (H c Hc) as (_ & _ & Hdup & _).
    apply Hdup; try reflexivity. apply elem_of_cons. left. reflexivity.
  - destruct (createLink_outcomes Sample.findSpecificCard Sample.pathToCard
                Sample.updateCardMetadata Sample.importedResources
                "/p" "demo_1" "demo_9" "blocks" None Sample.disk0) as [_ H].
    destruct (H c Hc) as (Hdest & _). apply Hdest. reflexivity.
  - destruct (createLink_outcomes Sample.findSpecificCard Sample.pathToCard
                Sample.updateCardMetadata Sample.importedResources
                "/p" "demo_1" "demo_2" "tests" None Sample.disk0) as [_ H].
    destruct (H c Hc) as (_ & Htype & _). apply Htype; reflexivity.
  - destruct (createLink_outcomes Sample.findSpecificCard Sample.pathToCard
                Sample.updateCardMetadata Sample.importedResources
                "/p" "demo_9" "demo_2" "blocks" None Sample.disk0) as [H _].
    apply H. reflexivity.
  - destruct (createLink_outcomes Sample.findSpecificCard Sample.pathToCard
                Sample.updateCardMetadata Sample.importedResources
                "/p" "demo_1" "demo_2" "blocks" (Some "soon") Sample.disk0) as [_ H].
    destruct (H c Hc) as (_ & _ & _ & Hnew).
    apply Hnew; try reflexivity.
    intros Hin. apply elem_of_cons in Hin as [Heq|Hin]; [discriminate|inversion Hin].
Defined.

Lemma createLink_sets_no_direction_witness :
  let new := Link "blocks" "demo_1" None in
  createLink Sample.findSpecificCard Sample.pathToCard Sample.updateCardMetadata
    Sample.importedResources "/p" "demo_2" "demo_1" "blocks" None Sample.disk0
  = Sample.updateCardMetadata "/p" "demo_2" "links" [new] Sample.disk0
  /\ map fst (linkProperties new) = ["linkType"; "cardKey"]
  /\ objectViolations cardBaseLinkItem (map fst (linkProperties new))
     = [MissingRequired "direction"; MissingRequired "cardkey";
        MissingRequired "linktype";
        AdditionalProperty "linkType"; AdditionalProperty "cardKey"].
Proof.
  intros new.
  pose (c := {| key := "demo_2"; path := "/p/cardroot/demo_2"; content := None;
                metadata := Some (CardMetadata "task" "demo_2" "Draft" "0|a" None);
                attachments := None |}).
  assert (Link "blocks" "demo_1" None ∉ default [] (cardLinks c)) as Hnew
    by (intros Hin; inversion Hin).
  destruct (createLink_sets_no_direction Sample.findSpecificCard Sample.pathToCard
              Sample.updateCardMetadata Sample.importedResources
              "/p" "demo_2" "demo_1" "blocks" None Sample.disk0 c
              eq_refl eq_refl eq_refl Hnew)
    as (Hcall & Hnames & _ & _ & _ & _ & Hviolations).
  split; [exact Hcall|]. split; [exact Hnames|exact Hviolations].
Defined.

(** ** The order in which [rename] takes the cards *)

Lemma insertSorted_perm {A : Type} (cmp : A -> A -> Z) (x : A) (l : list A) :
  insertSorted cmp x l ≡ₚ x :: l.
Proof.
  induction l as [|y l IH]; cbn [insertSorted]; [reflexivity|].
  destruct (cmp x y <=? 0)%Z; [reflexivity|].
  rewrite IH. apply Permutation_swap.
Qed.

Lemma arraySort_perm {A : Type} (cmp : A -> A -> Z) (l : list A) :
  arraySort cmp l ≡ₚ l.
Proof.
  induction l as [|x l IH]; [reflexivity|].
  unfold arraySort in *. cbn [foldr]. rewrite insertSorted_perm, IH. reflexivity.
Qed.

Lemma sortCards_le (a b : card) : (sortCards a b <=? 0)%Z = true <-> notLonger a b.
Proof.
  unfold sortCards, notLonger.
  destruct (Nat.ltb_spec (String.length (path b)) (String.length (path a)));
    [split; [lia|reflexivity]|].
  destruct (Nat.ltb_spec (String.length (path a)) (String.length (path b)));
    split; try lia; try reflexivity; discriminate.
Qed.

Lemma insertSorted_sorted (x : card) (l : list card) :
  StronglySorted notLonger l -> StronglySorted notLonger (insertSorted sortCards x l).
Proof.
  induction 1 as [|y l Hl IH Hy]; cbn [insertSorted].
  - constructor; constructor.
  - destruct (sortCards x y <=? 0)%Z eqn:E.
    + apply sortCards_le in E. constructor; [constructor; assumption|].
      constructor; [exact E|].
      rewrite Forall_forall in Hy. apply Forall_forall. intros z Hz.
      specialize (Hy z Hz). unfold notLonger in *. lia.
    + assert (notLonger y x) as Hyx.
      { unfold notLonger. destruct (Nat.le_gt_cases (String.length (path x))
                                      (String.length (path y))) as [H|H]; [exact H|].
        exfalso. assert ((sortCards x y <=? 0)%Z = true); [|congruence].
        apply sortCards_le. unfold notLonger. lia. }
      constructor; [exact IH|].
      rewrite (insertSorted_perm sortCards x l). constructor; assumption.
Qed.

Lemma arraySort_sorted (l : list card) :
  StronglySorted notLonger (arraySort sortCards l).
Proof.
  induction l as [|x l IH]; [constructor|].
  unfold arraySort in *. cbn [foldr]. apply insertSorted_sorted. exact IH.
Qed.

Lemma isUnder_inv (dir p : string) :
  isUnder dir p = true -> exists t, p = dir ++ "/" ++ t.
Proof.
  unfold isUnder. intros H. apply startsWith_inv in H as [t ->].
  exists t. apply append_assoc.
Qed.

Lemma isUnder_longer (dir p : string) :
  isUnder dir p = true -> (String.length dir < String.length p)%nat.
Proof.
  intros H. apply isUnder_inv in H as [t ->]. rewrite !length_append. simpl. lia.
Qed.

Lemma StronglySorted_lookup {A : Type} (R : A -> A -> Prop) (l : list A)
    (i j : nat) (a b : A) :
  StronglySorted R l -> (i < j)%nat -> l !! i = Some a -> l !! j = Some b -> R a b.
Proof.
  intros Hs. revert i j. induction Hs as [|x l Hl IH Hx]; intros i j Hij Hi Hj.
  - rewrite lookup_nil in Hi. discriminate.
  - destruct j as [|j]; [lia|]. cbn in Hj. destruct i as [|i].
    + cbn in Hi. injection Hi as ->. rewrite Forall_forall in Hx.
      apply Hx. eapply list_elem_of_lookup_2. exact Hj.
    + cbn in Hi. apply (IH i j); [lia|assumption..].
Qed.



(** ** The regular expression of the old prefix *)

(** C4 fails on the code: the prefix [coco] occurs in [cocococo.png] at 0,
    2 and 4; the regular expression matches at 2, the leftmost occurrence
    with no whole occurrence behind it, and not at 4, the last one, so
    neither the first nor the last occurrence survives the replacement. *)
Lemma replaceLastPrefix_overlapping_occurrences :
  Js.isPrefix "coco" = true
  /\ Js.occurrences "coco" "cocococo.png" = [0; 2; 4]%nat
  /\ Js.lastPrefixReIndex "coco" "cocococo.png" = Some 2%nat
  /\ Js.replaceLastPrefix "coco" "demo" "cocococo.png" = "codemoco.png".
Proof. vm_compute. repeat split; reflexivity. Qed.

Lemma dotStarThen_absent (c : ascii) (f t : string) :
  Js.forallb (fun x => negb (Ascii.eqb c x)) t = true ->
  Js.dotStarThen (String c f) t = false.
Proof.
  induction t as [|x t IH]; cbn [Js.forallb Js.dotStarThen Js.startsWith]; [reflexivity|].
  intros H. apply andb_true_iff in H as [Hx Ht].
  apply negb_true_iff in Hx. rewrite Hx, (IH Ht). cbn. apply andb_false_r.
Qed.

Lemma dotStarThen_app (p y k : string) :
  Js.oneLine y = true -> Js.startsWith p k = true -> Js.dotStarThen p (y ++ k) = true.
Proof.
  intros Hy Hk. induction y as [|c y IH].
  - cbn [String.append]. destruct k; cbn [Js.dotStarThen]; rewrite Hk; reflexivity.
  - change (String c y ++ k) with (String c (y ++ k)). cbn [Js.dotStarThen].
    unfold Js.oneLine in Hy. cbn [Js.forallb] in Hy.
    apply andb_true_iff in Hy as [Hc Hy]. rewrite Hc, (IH Hy). apply orb_true_r.
Qed.

Lemma oneLine_app (a b : string) :
  Js.oneLine (a ++ b) = Js.oneLine a && Js.oneLine b.
Proof.
  unfold Js.oneLine. induction a as [|c a IH]; [reflexivity|].
  change (String c a ++ b) with (String c (a ++ b)). cbn [Js.forallb].
  rewrite IH. apply andb_assoc.
Qed.

(** A prefix [p] of [x ++ k] ends inside [x], or runs over all of [x]. *)
Lemma startsWith_app_cases (p x k : string) :
  Js.startsWith p (x ++ k) = true ->
  (exists y, x = p ++ y) \/ (exists q, q <> "" /\ p = x ++ q).
Proof.
  revert x. induction p as [|a p IH]; intros x H.
  - left. exists x. reflexivity.
  - destruct x as [|b x].
    + right. exists (String a p). split; [discriminate|reflexivity].
    + change (String b x ++ k) with (String b (x ++ k)) in H.
      cbn [Js.startsWith] in H.
      destruct (Ascii.eqb_spec a b) as [->|]; [|discriminate].
      destruct (IH x H) as [[y ->]|[q [Hq ->]]].
      * left. exists y. reflexivity.
      * right. exists q. split; [exact Hq|reflexivity].
Qed.

Lemma suffix_of_dir_has_separator (x1 x2 d : string) :
  x1 ++ x2 = d ++ "/" -> x2 <> "" -> Js.includes "/" x2 = true.
Proof.
  revert d. induction x1 as [|a x1 IH]; intros d H Hx2.
  - cbn [String.append] in H. subst x2. rewrite includes_slash_app. apply orb_true_r.
  - destruct d as [|b d].
    + cbn in H. injection H as _ H. destruct x1; [|discriminate].
      cbn in H. contradiction.
    + cbn in H. injection H as _ H. exact (IH d H Hx2).
Qed.

(** The scan of the regular expression over [x ++ k], when it matches at
    [k] and no occurrence of [from] in the line [x] runs into [k]. *)
Lemma replaceLastPrefix_scan (from to x k : string) :
  Js.lastPrefixReMatchesAt from k = true ->
  Js.oneLine x = true ->
  (forall x1 x2, x = x1 ++ x2 -> x2 <> "" -> Js.startsWith from (x2 ++ k) = true ->
                 exists y, x2 = from ++ y) ->
  Js.replaceLastPrefix from to (x ++ k) = x ++ to ++ Js.drop (String.length from) k.
Proof.
  intros Hk. induction x as [|c x IH]; intros Hline Hstraddle.
  - cbn [String.append]. destruct k; cbn [Js.replaceLastPrefix]; rewrite Hk; reflexivity.
  - change (String c x ++ k) with (String c (x ++ k)).
    cbn [Js.replaceLastPrefix].
    assert (Js.lastPrefixReMatchesAt from (String c (x ++ k)) = false) as ->.
    { unfold Js.lastPrefixReMatchesAt.
      destruct (Js.startsWith from (String c (x ++ k))) eqn:Hs; [|reflexivity].
      destruct (Hstraddle "" (String c x) eq_refl ltac:(discriminate) Hs) as [y Hy].
      change (String c (x ++ k)) with (String c x ++ k). rewrite Hy, append_assoc, drop_app.
      rewrite dotStarThen_app; [reflexivity| |].
      - rewrite Hy, oneLine_app in Hline. apply andb_true_iff in Hline as [_ H]. exact H.
      - unfold Js.lastPrefixReMatchesAt in Hk. apply andb_true_iff in Hk as [H _]. exact H. }
    change (String c x ++ to ++ Js.drop (String.length from) k)
      with (String c (x ++ to ++ Js.drop (String.length from) k)).
    f_equal. apply IH.
    + unfold Js.oneLine in *. cbn [Js.forallb] in Hline.
      apply andb_true_iff in Hline as [_ H]. exact H.
    + intros x1 x2 -> Hx2 Hs. apply (Hstraddle (String c x1) x2); [reflexivity|exact Hx2|exact Hs].
Qed.

Lemma isLower_facts (c : ascii) :
  Js.isLower c = true ->
  c <> "/"%char /\ c <> "_"%char /\ Js.isDigit c = false.
Proof.
  destruct c as [[] [] [] [] [] [] [] []]; vm_compute; intros H;
    try discriminate H; repeat split; discriminate.
Qed.

Lemma isPrefix_no_separator (from : string) :
  Js.forallb Js.isLower from = true -> Js.includes "/" from = false.
Proof.
  induction from as [|c f IH]; [reflexivity|].
  cbn [Js.forallb]. intros H. apply andb_true_iff in H as [Hc Hf].
  rewrite includes_slash_cons, (IH Hf).
  destruct (isLower_facts c Hc) as [Hne _].
  destruct (Ascii.eqb_spec "/"%char c) as [<-|]; [contradiction|reflexivity].
Qed.

Lemma number_lacks_letter (c : ascii) (n : string) :
  Js.isLower c = true -> Js.forallb Js.isDigit n = true ->
  Js.forallb (fun x => negb (Ascii.eqb c x)) n = true.
Proof.
  intros Hc. induction n as [|x n IH]; [reflexivity|].
  cbn [Js.forallb]. intros H. apply andb_true_iff in H as [Hx Hn].
  rewrite (IH Hn), andb_true_r.
  destruct (Ascii.eqb_spec c x) as [->|]; [|reflexivity].
  destruct (isLower_facts x Hc) as (_ & _ & Hd). congruence.
Qed.

(** On the path of a card whose key bears the prefix, the regular
    expression matches the prefix of the key, and nothing else is touched. *)
Lemma replaceLastPrefix_card_path (from to dir n : string) :
  Js.isPrefix from = true -> Js.oneLine dir = true -> Js.forallb Js.isDigit n = true ->
  Js.replaceLastPrefix from to (Js.join dir (from ++ "_" ++ n))
  = Js.join dir (to ++ "_" ++ n).
Proof.
  intros Hfrom Hdir Hn. unfold Js.isPrefix in Hfrom.
  apply andb_true_iff in Hfrom as [Hne Hlow].
  destruct from as [|c f]; [discriminate|]. clear Hne.
  pose proof Hlow as Hlow'. cbn [Js.forallb] in Hlow'.
  apply andb_true_iff in Hlow' as [Hc _].
  set (from := String c f) in *.
  assert (Js.lastPrefixReMatchesAt from (from ++ "_" ++ n) = true) as Hk.
  { unfold Js.lastPrefixReMatchesAt. rewrite startsWith_app, drop_app.
    unfold from. rewrite dotStarThen_absent; [reflexivity|].
    change ("_" ++ n) with (String "_" n). cbn [Js.forallb].
    rewrite (number_lacks_letter c n Hc Hn), andb_true_r.
    destruct (isLower_facts c Hc) as (_ & Hu & _).
    destruct (Ascii.eqb_spec c "_"%char); [contradiction|reflexivity]. }
  unfold Js.join.
  rewrite <- (append_assoc dir "/" (from ++ "_" ++ n)).
  rewrite (replaceLastPrefix_scan from to (dir ++ "/") _ Hk).
  - rewrite drop_app, append_assoc. reflexivity.
  - rewrite oneLine_app, Hdir. reflexivity.
  - intros x1 x2 Hx Hx2 Hs.
    destruct (startsWith_app_cases _ _ _ Hs) as [Hy|[q [Hq Hfrom]]]; [exact Hy|].
    exfalso. pose proof (suffix_of_dir_has_separator x1 x2 dir (eq_sym Hx) Hx2) as Hsep.
    pose proof (isPrefix_no_separator from Hlow) as Hno.
    rewrite Hfrom, includes_slash_app, Hsep in Hno. discriminate.
Qed.

(** ** What [rename] writes *)

Lemma cards_spec (d : disk) (dir : string) (details : fetchCardDetails) (c : card) :
  c ∈ cards d dir details <->
  exists p f, cardDirs d !! p = Some f /\ isUnder dir p = true /\ c = cardOf details p f.
Proof.
  unfold cards. rewrite list_elem_of_fmap. split.
  - intros [[p f] [-> Hin]]. apply list_elem_of_filter in Hin as [Hu Hin].
    apply elem_of_map_to_list in Hin. exists p, f. auto.
  - intros (p & f & Hpf & Hu & ->). exists (p, f). split; [reflexivity|].
    apply list_elem_of_filter. split; [exact Hu|]. apply elem_of_map_to_list. exact Hpf.
Qed.

Lemma sortedCards_spec (d : disk) (dir : string) (c : card) :
  c ∈ sortedCards d dir <->
  exists p f, cardDirs d !! p = Some f /\ isUnder dir p = true
              /\ c = cardOf renameDetails p f.
Proof. unfold sortedCards. rewrite arraySort_perm. apply cards_spec. Qed.

Section RenameScript.
Context (isTemplateCard : card -> bool)
        (regexReplaceAll : string -> string -> string -> string).

Local Abbreviation replaceCardPath' := (replaceCardPath isTemplateCard regexReplaceAll).
Local Abbreviation renameAttachments' := (renameAttachments regexReplaceAll).

Lemma renameAttachments_no_content (from to p : string) (l : list attachmentDetails) :
  renameAttachments' from to p None l
  = flat_map (fun a =>
                [FsRename (Js.join (att_path a) (fileName a))
                          (Js.join (att_path a) (Js.replaceLastPrefix from to (fileName a)));
                 FsWriteFile (Js.join p "index.adoc") ""]) l.
Proof.
  induction l as [|a l IH]; [reflexivity|].
  cbn [renameAttachments renameAttachment option_map fst snd flat_map].
  rewrite IH. reflexivity.
Qed.

Lemma renameAttachments_writes (from to p : string) (content : option string)
    (l : list attachmentDetails) :
  length (filter (fun op => isWriteFile op = true) (renameAttachments' from to p content l))
  = length l
  /\ forall op, op ∈ renameAttachments' from to p content l -> isWriteFile op = true ->
                exists data, op = FsWriteFile (Js.join p "index.adoc") data.
Proof.
  revert content. induction l as [|a l IH]; intros content.
  - split; [reflexivity|]. intros op H. inversion H.
  - cbn [renameAttachments renameAttachment fst snd].
    destruct (IH (option_map (regexReplaceAll ("image::" ++ fileName a)
                   ("image::" ++ Js.replaceLastPrefix from to (fileName a))) content))
      as [Hlen Hall].
    split.
    + cbn [app]. rewrite filter_cons_False by (cbn; discriminate).
      rewrite filter_cons_True by reflexivity. cbn [length]. rewrite Hlen. reflexivity.
    + intros op Hin Hw. cbn [app] in Hin.
      apply elem_of_cons in Hin as [->|Hin]; [discriminate|].
      apply elem_of_cons in Hin as [->|Hin]; [eauto|].
      exact (Hall op Hin Hw).
Qed.


End RenameScript.


(** ** Renaming twice *)

Lemma isUnder_app (dir r : string) : isUnder dir (dir ++ "/" ++ r) = true.
Proof. unfold isUnder. rewrite <- append_assoc. apply startsWith_app. Qed.

Lemma isUnder_extend (a b r : string) : isUnder a b = true -> isUnder a (b ++ r) = true.
Proof.
  intros H. apply isUnder_inv in H as [t ->].
  rewrite !append_assoc. apply isUnder_app.
Qed.

Lemma isUnder_trans (a b c : string) :
  isUnder a b = true -> isUnder b c = true -> isUnder a c = true.
Proof.
  intros Hab Hbc. apply isUnder_inv in Hbc as [t ->]. apply isUnder_extend. exact Hab.
Qed.

Lemma isUnder_irrefl (a : string) : isUnder a a = false.
Proof.
  destruct (isUnder a a) eqn:H; [|reflexivity]. apply isUnder_longer in H. lia.
Qed.

Lemma isUnder_join (dir n : string) : isUnder dir (Js.join dir n) = true.
Proof. apply isUnder_app. Qed.

Lemma inside_spec (dir p : string) :
  inside dir p = true <-> p = dir \/ isUnder dir p = true.
Proof.
  unfold inside. rewrite orb_true_iff, String.eqb_eq. reflexivity.
Qed.

Lemma inside_false (dir p : string) :
  inside dir p = false <-> p <> dir /\ isUnder dir p = false.
Proof.
  unfold inside. rewrite orb_false_iff, String.eqb_neq. reflexivity.
Qed.

Lemma drop_all (s : string) : Js.drop (String.length s) s = "".
Proof. induction s as [|c s IH]; [reflexivity|exact IH]. Qed.

Lemma movePath_inside (src dst p : string) :
  inside src p = true -> movePath src dst p = dst ++ Js.drop (String.length src) p.
Proof.
  unfold movePath. intros H. apply inside_spec in H as [->|H].
  - rewrite String.eqb_refl, drop_all, append_nil_r. reflexivity.
  - rewrite H. destruct (String.eqb_spec p src) as [->|]; [|reflexivity].
    rewrite isUnder_irrefl in H. discriminate.
Qed.

Lemma movePath_outside (src dst p : string) :
  inside src p = false -> movePath src dst p = p.
Proof.
  unfold movePath. intros H. apply inside_false in H as [Hne Hu].
  rewrite Hu. destruct (String.eqb_spec p src); [contradiction|reflexivity].
Qed.

Lemma inside_drop (src p : string) :
  inside src p = true -> p = src ++ Js.drop (String.length src) p.
Proof.
  intros H. apply inside_spec in H as [->|H].
  - rewrite drop_all, append_nil_r. reflexivity.
  - apply isUnder_inv in H as [t ->]. rewrite drop_app. reflexivity.
Qed.

Lemma movePath_inside_dst (src dst p : string) :
  inside src p = true -> inside dst (movePath src dst p) = true.
Proof.
  intros H. rewrite (movePath_inside _ _ _ H). apply inside_spec.
  apply inside_spec in H as [->|H].
  - left. rewrite drop_all. apply append_nil_r.
  - right. apply isUnder_inv in H as [t ->]. rewrite drop_app. apply isUnder_app.
Qed.

Lemma inside_under (root dir p : string) :
  isUnder root dir = true -> inside dir p = true -> isUnder root p = true.
Proof.
  intros Hr H. apply inside_spec in H as [->|H]; [exact Hr|].
  exact (isUnder_trans _ _ _ Hr H).
Qed.

Lemma occupied_spec (m : gmap string cardFiles) (p : string) :
  occupied m p = true <-> exists k, is_Some (m !! k) /\ inside p k = true.
Proof.
  unfold occupied. rewrite orb_true_iff, bool_decide_eq_true, existsb_exists. split.
  - intros [H|[[k f] [Hin Hu]]].
    + exists p. split; [exact H|]. apply inside_spec. left. reflexivity.
    + exists k. split.
      * apply list_elem_of_In, elem_of_map_to_list in Hin. eauto.
      * apply inside_spec. right. exact Hu.
  - intros [k [[f Hf] Hin]]. apply inside_spec in Hin as [->|Hu].
    + left. eauto.
    + right. exists (k, f). split; [|exact Hu].
      apply list_elem_of_In, elem_of_map_to_list. exact Hf.
Qed.

(** A move to a place where nothing lies, and not into the moved
    directory itself, tells the moved entries apart. *)
Lemma movePath_inj (src dst : string) (m : gmap string cardFiles) (k1 k2 : string) :
  occupied m dst = false ->
  is_Some (m !! k1) -> is_Some (m !! k2) ->
  movePath src dst k1 = movePath src dst k2 -> k1 = k2.
Proof.
  intros Hocc H1 H2 Heq.
  assert (forall k, is_Some (m !! k) -> inside dst k = false) as Hfree.
  { intros k Hk. destruct (inside dst k) eqn:E; [|reflexivity].
    assert (occupied m dst = true) by (apply occupied_spec; eauto). congruence. }
  destruct (inside src k1) eqn:E1, (inside src k2) eqn:E2.
  - rewrite (movePath_inside _ _ _ E1), (movePath_inside _ _ _ E2) in Heq.
    apply append_inj_l in Heq.
    rewrite (inside_drop _ _ E1), (inside_drop _ _ E2), Heq. reflexivity.
  - rewrite (movePath_outside _ _ _ E2) in Heq.
    pose proof (movePath_inside_dst src dst k1 E1) as Hd. rewrite Heq in Hd.
    rewrite (Hfree k2 H2) in Hd. discriminate.
  - rewrite (movePath_outside _ _ _ E1) in Heq.
    pose proof (movePath_inside_dst src dst k2 E2) as Hd. rewrite <- Heq in Hd.
    rewrite (Hfree k1 H1) in Hd. discriminate.
  - rewrite (movePath_outside _ _ _ E1), (movePath_outside _ _ _ E2) in Heq. exact Heq.
Qed.

Lemma moveDirs_lookup_1 (src dst : string) (m : gmap string cardFiles) (k : string)
    (f : cardFiles) :
  occupied m dst = false -> m !! k = Some f ->
  moveDirs src dst m !! movePath src dst k = Some f.
Proof.
  intros Hocc Hk. unfold moveDirs. apply elem_of_list_to_map_1.
  - rewrite <- list_fmap_compose.
    replace (fst ∘ (fun e : string * cardFiles => (movePath src dst e.1, e.2)))
      with (movePath src dst ∘ (fst : string * cardFiles -> string)) by reflexivity.
    rewrite list_fmap_compose. apply NoDup_fmap_2_strong; [|apply NoDup_fst_map_to_list].
    intros x y Hx Hy. apply list_elem_of_fmap in Hx as [[x' fx] [-> Hx]].
    apply list_elem_of_fmap in Hy as [[y' fy] [-> Hy]].
    apply elem_of_map_to_list in Hx, Hy.
    apply (movePath_inj src dst m); eauto.
  - apply list_elem_of_fmap. exists (k, f). split; [reflexivity|].
    apply elem_of_map_to_list. exact Hk.
Qed.

Lemma moveDirs_lookup_2 (src dst : string) (m : gmap string cardFiles) (k' : string)
    (f : cardFiles) :
  moveDirs src dst m !! k' = Some f ->
  exists k, m !! k = Some f /\ k' = movePath src dst k.
Proof.
  unfold moveDirs. intros H. apply elem_of_list_to_map_2 in H.
  apply list_elem_of_fmap in H as [[k fk] [Heq Hin]]. injection Heq as -> ->.
  apply elem_of_map_to_list in Hin. exists k. auto.
Qed.

(** An entry that lies neither in the moved directory nor where it goes
    is left as it is. *)
Lemma moveDirs_lookup_outside (src dst : string) (m : gmap string cardFiles) (k : string) :
  occupied m dst = false -> inside src k = false -> inside dst k = false ->
  moveDirs src dst m !! k = m !! k.
Proof.
  intros Hocc Hs Hd. destruct (m !! k) as [f|] eqn:Hk.
  - rewrite <- (movePath_outside src dst k Hs) at 1.
    apply moveDirs_lookup_1; assumption.
  - destruct (moveDirs src dst m !! k) as [f|] eqn:Hk'; [|reflexivity].
    apply moveDirs_lookup_2 in Hk' as [k0 [Hk0 Heq]].
    destruct (inside src k0) eqn:E.
    + pose proof (movePath_inside_dst src dst k0 E) as H. rewrite <- Heq, Hd in H.
      discriminate.
    + rewrite (movePath_outside _ _ _ E) in Heq. subst k0. congruence.
Qed.

Lemma replaceLastPrefix_same (x s : string) : Js.replaceLastPrefix x x s = s.
Proof.
  induction s as [|c s IH]; cbn [Js.replaceLastPrefix].
  - destruct (Js.lastPrefixReMatchesAt x "") eqn:E; [|reflexivity].
    unfold Js.lastPrefixReMatchesAt in E. apply andb_true_iff in E as [E _].
    destruct x; [reflexivity|discriminate E].
  - destruct (Js.lastPrefixReMatchesAt x (String c s)) eqn:E; [|rewrite IH; reflexivity].
    unfold Js.lastPrefixReMatchesAt in E. apply andb_true_iff in E as [E _].
    apply startsWith_inv in E as [t Ht]. rewrite Ht, drop_app. reflexivity.
Qed.

Lemma basename_no_separator (p : string) : Js.includes "/" (Js.basename p) = false.
Proof.
  induction p as [|c p IH]; [reflexivity|].
  cbn [Js.basename]. destruct (Js.includes "/" p) eqn:Hp; [exact IH|].
  destruct (Ascii.eqb_spec c "/"%char) as [->|Hc]; [exact Hp|].
  rewrite includes_slash_cons, Hp.
  destruct (Ascii.eqb_spec "/"%char c) as [<-|]; [contradiction|reflexivity].
Qed.

Lemma attachmentOwner_join (q name : string) :
  Js.includes "/" name = false ->
  attachmentOwner (Js.join (Js.join q "a") name) = Some (q, name).
Proof.
  intros Hn. unfold attachmentOwner.
  rewrite (dirname_join _ _ Hn), (basename_join _ _ Hn).
  rewrite (basename_join q "a" eq_refl), (dirname_join q "a" eq_refl). reflexivity.
Qed.

Lemma attachmentOwner_name (p dir name : string) :
  attachmentOwner p = Some (dir, name) -> Js.includes "/" name = false.
Proof.
  unfold attachmentOwner. destruct (String.eqb _ "a"); [|discriminate].
  intros [= _ <-]. apply basename_no_separator.
Qed.

Lemma adocOwner_join (q : string) : adocOwner (Js.join q "index.adoc") = Some q.
Proof.
  unfold adocOwner. rewrite (basename_join q "index.adoc" eq_refl).
  rewrite (dirname_join q "index.adoc" eq_refl). reflexivity.
Qed.

Lemma digits_no_separator (n : string) :
  Js.forallb Js.isDigit n = true -> Js.includes "/" n = false.
Proof.
  induction n as [|c n IH]; [reflexivity|].
  cbn [Js.forallb]. intros H. apply andb_true_iff in H as [Hc Hn].
  rewrite includes_slash_cons, (IH Hn).
  destruct (Ascii.eqb_spec "/"%char c) as [<-|]; [discriminate Hc|reflexivity].
Qed.

Lemma key_no_separator (prefix n : string) :
  Js.isPrefix prefix = true -> Js.forallb Js.isDigit n = true ->
  Js.includes "/" (prefix ++ "_" ++ n) = false.
Proof.
  intros Hp Hn. unfold Js.isPrefix in Hp. apply andb_true_iff in Hp as [_ Hp].
  rewrite !includes_slash_app, (isPrefix_no_separator _ Hp), (digits_no_separator _ Hn).
  reflexivity.
Qed.

(** What the well-formedness of a card path gives: where the card goes,
    that it stays in the directory it is in, and that its path does not name
    an attachment. *)
Lemma cardPathOk_rename (from to p : string) :
  Js.isPrefix from = true -> cardPathOk from p ->
  exists dir key,
    Js.replaceLastPrefix from to p = Js.join dir key
    /\ (forall area, isUnder area p = true -> isUnder area (Js.join dir key) = true)
    /\ attachmentOwner p = None.
Proof.
  intros Hfrom (dir & n & -> & Hline & Hn & Ha).
  exists dir, (to ++ "_" ++ n). split; [|split].
  - apply replaceLastPrefix_card_path; assumption.
  - intros area Hu. unfold isUnder, Js.join in *.
    pose proof (key_no_separator from n Hfrom Hn) as Hk.
    set (K := from ++ "_" ++ n) in *. set (K' := to ++ "_" ++ n).
    rewrite <- (append_assoc dir "/" K) in Hu. rewrite <- (append_assoc dir "/" K').
    destruct (startsWith_app_cases _ _ _ Hu) as [[y Hy]|[q [Hq Hy]]].
    + rewrite Hy, append_assoc. apply startsWith_app.
    + exfalso. apply startsWith_inv in Hu as [t Ht]. rewrite Hy in Ht.
      rewrite (append_assoc (dir ++ "/") q t) in Ht. apply append_inj_l in Ht.
      rewrite Ht, includes_slash_app in Hk. apply orb_false_iff in Hk as [Hq' _].
      rewrite (suffix_of_dir_has_separator (dir ++ "/") q area (eq_sym Hy) Hq) in Hq'.
      discriminate.
  - unfold attachmentOwner.
    rewrite (dirname_join _ _ (key_no_separator from n Hfrom Hn)).
    destruct (String.eqb_spec (Js.basename dir) "a"); [contradiction|reflexivity].
Qed.

Lemma execOps_app (a b : list fsOp) (m : gmap string cardFiles) :
  execOps (a ++ b)%list m = (m' ← execOps a m; execOps b m').
Proof.
  revert m. induction a as [|op a IH]; intros m; [reflexivity|].
  cbn [app execOps]. destruct (execOp op m) as [m1|e]; [|reflexivity].
  cbn. apply IH.
Qed.

Lemma execOps_app_ok (a b : list fsOp) (m m' : gmap string cardFiles) :
  execOps (a ++ b)%list m = Ok m' ->
  exists m1, execOps a m = Ok m1 /\ execOps b m1 = Ok m'.
Proof.
  rewrite execOps_app. destruct (execOps a m) as [m1|e]; [|discriminate].
  intros H. exists m1. split; [reflexivity|exact H].
Qed.

(** The ways in which a [rename] is fulfilled. *)
Lemma fsRename_ok (src dst : string) (m m' : gmap string cardFiles) :
  fsRename src dst m = Ok m' ->
  m' = m
  \/ (is_Some (m !! src) /\ occupied m dst = false /\ m' = moveDirs src dst m)
  \/ (exists dir name name' f bytes,
        attachmentOwner src = Some (dir, name) /\ m !! dir = Some f
        /\ attachmentFiles f !! name = Some bytes
        /\ attachmentOwner dst = Some (dir, name')
        /\ m' = <[dir := CardFiles (indexJson f) (indexAdoc f)
                           (<[name' := bytes]> (delete name (attachmentFiles f)))]> m).
Proof.
  unfold fsRename. destruct (m !! src) as [fsrc|] eqn:Hsrc.
  - destruct (String.eqb src dst); [intros [= <-]; left; reflexivity|].
    destruct (isUnder src dst); [discriminate|].
    destruct (negb (occupied m (Js.dirname dst))); [discriminate|].
    destruct (occupied m dst) eqn:Hocc; [discriminate|].
    intros [= <-]. right. left. eauto.
  - destruct (attachmentOwner src) as [[dir name]|] eqn:Ho; [|discriminate].
    destruct (m !! dir) as [f|] eqn:Hf; [|discriminate].
    destruct (attachmentFiles f !! name) as [bytes|] eqn:Hb; [|discriminate].
    destruct (String.eqb src dst); [intros [= <-]; left; reflexivity|].
    destruct (attachmentOwner dst) as [[dir' name']|] eqn:Hod; [|discriminate].
    destruct (String.eqb_spec dir' dir) as [->|]; [|discriminate].
    intros [= <-]. right. right. exists dir, name, name', f, bytes. auto.
Qed.

Lemma fsWriteFile_ok (p data : string) (m m' : gmap string cardFiles) :
  fsWriteFile p data m = Ok m' ->
  exists dir f, adocOwner p = Some dir /\ m !! dir = Some f
                /\ m' = <[dir := CardFiles (indexJson f) data (attachmentFiles f)]> m.
Proof.
  unfold fsWriteFile. destruct (adocOwner p) as [dir|]; [|discriminate].
  destruct (m !! dir) as [f|] eqn:Hf; [|discriminate].
  intros [= <-]. eauto.
Qed.

Section LiveInvariant.
Context (root : string) (m0 : gmap string cardFiles).

(** A directory of the card root moves within the card root; the cards
    pending are elsewhere and what moves need not be blanked any more. *)
Lemma liveInv_move (m : gmap string cardFiles) (current current' : option string)
    (pending : list card) (src dst : string) :
  liveInv root m0 m current pending ->
  occupied m dst = false ->
  isUnder root src = true -> isUnder root dst = true ->
  (forall c, c ∈ pending -> inside src (path c) = false) ->
  (forall k f, m !! k = Some f -> inside src k = true -> ~ unblanked f) ->
  (forall q, current' = Some q -> current = Some q /\ inside src q = false) ->
  (forall q, current = Some q -> current' = Some q \/ inside src q = true) ->
  liveInv root m0 (moveDirs src dst m) current' pending.
Proof.
  intros [Hcur Hpend Hunb Hnames Hframe] Hocc Hsrc Hdst Hout Hgood Hc1 Hc2.
  assert (forall k, is_Some (m !! k) -> inside dst k = false) as Hfree.
  { intros k Hk. destruct (inside dst k) eqn:E; [|reflexivity].
    assert (occupied m dst = true) by (apply occupied_spec; eauto). congruence. }
  split.
  - intros q Hq. destruct (Hc1 q Hq) as [Hq' Hin].
    rewrite moveDirs_lookup_outside; auto.
  - intros c Hc. destruct (Hpend c Hc) as [f [Hf Heq]]. exists f. split; [|exact Heq].
    rewrite moveDirs_lookup_outside; eauto.
  - intros k' f Hk' Hlive Hbad.
    apply moveDirs_lookup_2 in Hk' as [k [Hk ->]].
    destruct (inside src k) eqn:E.
    + exfalso. exact (Hgood k f Hk E Hbad).
    + rewrite (movePath_outside _ _ _ E) in *.
      destruct (Hunb k f Hk Hlive Hbad) as [H|H]; [left; exact H|].
      destruct (Hc2 k H) as [H'|H']; [right; exact H'|congruence].
  - intros k' f name Hk' Hlive Hname.
    apply moveDirs_lookup_2 in Hk' as [k [Hk ->]].
    apply (Hnames k f name Hk); [|exact Hname].
    destruct (inside src k) eqn:E.
    + exact (inside_under _ _ _ Hsrc E).
    + rewrite (movePath_outside _ _ _ E) in Hlive. exact Hlive.
  - intros k Hk. rewrite <- (Hframe k Hk). apply moveDirs_lookup_outside; [exact Hocc| |].
    + destruct (inside src k) eqn:E; [|reflexivity].
      rewrite (inside_under _ _ _ Hsrc E) in Hk. discriminate.
    + destruct (inside dst k) eqn:E; [|reflexivity].
      rewrite (inside_under _ _ _ Hdst E) in Hk. discriminate.
Qed.

(** The card that [rename] is at gets new files. *)
Lemma liveInv_update (m : gmap string cardFiles) (q : string) (pending : list card)
    (f f' : cardFiles) :
  liveInv root m0 m (Some q) pending ->
  isUnder root q = true -> q ∉ map path pending ->
  m !! q = Some f ->
  (forall name, is_Some (attachmentFiles f' !! name) ->
                is_Some (attachmentFiles f !! name) \/ Js.includes "/" name = false) ->
  liveInv root m0 (<[q := f']> m) (Some q) pending.
Proof.
  intros [Hcur Hpend Hunb Hnames Hframe] Hq Hnew Hf Hsub. split.
  - intros q' [= <-]. rewrite lookup_insert_eq. eauto.
  - intros c Hc. destruct (Hpend c Hc) as [fc [Hfc Heq]]. exists fc. split; [|exact Heq].
    rewrite lookup_insert_ne; [exact Hfc|].
    intros ->. apply Hnew. apply list_elem_of_fmap. eauto.
  - intros k fk Hk Hlive Hbad. destruct (decide (k = q)) as [->|Hne]; [right; reflexivity|].
    rewrite lookup_insert_ne in Hk by congruence. exact (Hunb k fk Hk Hlive Hbad).
  - intros k fk name Hk Hlive Hname. destruct (decide (k = q)) as [->|Hne].
    + rewrite lookup_insert_eq in Hk. injection Hk as <-.
      destruct (Hsub name Hname) as [H|H]; [|exact H]. exact (Hnames q f name Hf Hlive H).
    + rewrite lookup_insert_ne in Hk by congruence. exact (Hnames k fk name Hk Hlive Hname).
  - intros k Hk. rewrite lookup_insert_ne; [exact (Hframe k Hk)|].
    intros ->. congruence.
Qed.

End LiveInvariant.

Lemma inside_longer (dir p : string) :
  inside dir p = true -> (String.length dir <= String.length p)%nat.
Proof.
  intros H. apply inside_spec in H as [->|H]; [lia|].
  apply isUnder_longer in H. lia.
Qed.

Lemma isUnder_attachment (q name : string) :
  isUnder q (Js.join (Js.join q "a") name) = true.
Proof.
  unfold Js.join. rewrite (append_assoc q ("/" ++ "a") ("/" ++ name)).
  rewrite (append_assoc "/" "a" ("/" ++ name)). apply isUnder_app.
Qed.

Lemma not_unblanked_blank (f : cardFiles) : indexAdoc f = "" -> ~ unblanked f.
Proof. intros H [_ Hn]. contradiction. Qed.

Section LiveStep.
Context (isTemplateCard : card -> bool)
        (regexReplaceAll : string -> string -> string -> string)
        (root : string) (m0 : gmap string cardFiles) (from to : string).
Hypothesis from_prefix : Js.isPrefix from = true.

Local Abbreviation replaceCardPath' := (replaceCardPath isTemplateCard regexReplaceAll).
Local Abbreviation renameCards' := (renameCards isTemplateCard regexReplaceAll).

(** The two calls made for one attachment of the card at [q]. *)
Lemma liveInv_attachment (m m' : gmap string cardFiles) (q name name' : string)
    (pending : list card) :
  liveInv root m0 m (Some q) pending ->
  isUnder root q = true -> q ∉ map path pending ->
  (forall c, c ∈ pending -> (String.length (path c) <= String.length q)%nat) ->
  Js.includes "/" name = false ->
  execOps [FsRename (Js.join (Js.join q "a") name) (Js.join (Js.join q "a") name');
           FsWriteFile (Js.join q "index.adoc") ""] m = Ok m' ->
  liveInv root m0 m' (Some q) pending
  /\ exists f, m' !! q = Some f /\ indexAdoc f = "".
Proof.
  intros Hinv Hq Hnew Hlen Hname Hexec.
  cbn [execOps execOp] in Hexec.
  destruct (fsRename _ _ m) as [m1|e] eqn:Hren; [|discriminate]. cbn in Hexec.
  destruct (fsWriteFile _ _ m1) as [m2|e] eqn:Hwr; [|discriminate]. cbn in Hexec.
  injection Hexec as <-.
  assert (liveInv root m0 m1 (Some q) pending) as Hinv1.
  { apply fsRename_ok in Hren as [->|[(Hsrc & Hocc & ->)|Hatt]]; [exact Hinv| |].
    - pose proof (isUnder_longer _ _ (isUnder_attachment q name)) as Hlonger.
      apply (liveInv_move root m0 m (Some q) (Some q)); auto.
      + exact (isUnder_trans _ _ _ Hq (isUnder_attachment q name)).
      + exact (isUnder_trans _ _ _ Hq (isUnder_attachment q name')).
      + intros c Hc. destruct (inside _ (path c)) eqn:E; [|reflexivity].
        apply inside_longer in E. specialize (Hlen c Hc). lia.
      + intros k f Hk Hin Hbad.
        pose proof (inside_longer _ _ Hin) as Hk_long.
        assert (isUnder root k = true) as Hlive
          by exact (inside_under _ _ _ (isUnder_trans _ _ _ Hq (isUnder_attachment q name)) Hin).
        destruct (inv_unblanked _ _ _ _ _ Hinv k f Hk Hlive Hbad) as [H|H].
        * apply list_elem_of_fmap in H as [c [-> Hc]]. specialize (Hlen c Hc). lia.
        * injection H as ->. lia.
      + intros q' [= <-]. split; [reflexivity|].
        destruct (inside _ q) eqn:E; [|reflexivity]. apply inside_longer in E. lia.
    - destruct Hatt as (dir & n & n' & f & bytes & Ho & Hf & Hb & Hod & ->).
      rewrite (attachmentOwner_join q name Hname) in Ho. injection Ho as <- <-.
      apply (liveInv_update root m0 m q pending f); auto.
      intros x Hx. cbn [attachmentFiles] in Hx.
      destruct (decide (x = n')) as [->|Hne].
      + right. exact (attachmentOwner_name _ _ _ Hod).
      + left. rewrite lookup_insert_ne in Hx by congruence.
        destruct (decide (x = name)) as [->|Hne'].
        * rewrite lookup_delete_eq in Hx. destruct Hx. discriminate.
        * rewrite lookup_delete_ne in Hx by congruence. exact Hx. }
  apply fsWriteFile_ok in Hwr as (dir & f & Ho & Hf & ->).
  rewrite adocOwner_join in Ho. injection Ho as <-. split.
  - apply (liveInv_update root m0 m1 q pending f); auto.
  - eexists. rewrite lookup_insert_eq. split; reflexivity.
Qed.

Lemma liveInv_attachments (l : list attachmentDetails) (m m' : gmap string cardFiles)
    (q : string) (pending : list card) :
  liveInv root m0 m (Some q) pending ->
  isUnder root q = true -> q ∉ map path pending ->
  (forall c, c ∈ pending -> (String.length (path c) <= String.length q)%nat) ->
  (forall a, a ∈ l -> att_path a = Js.join q "a" /\ Js.includes "/" (fileName a) = false) ->
  execOps (renameAttachments regexReplaceAll from to q None l) m = Ok m' ->
  liveInv root m0 m' (Some q) pending
  /\ (l <> [] -> exists f, m' !! q = Some f /\ indexAdoc f = "")
  /\ (l = [] -> m' = m).
Proof.
  intros Hinv Hq Hnew Hlen. rewrite renameAttachments_no_content.
  revert m Hinv. induction l as [|a l IH]; intros m Hinv Hall Hexec.
  - injection Hexec as <-. split; [exact Hinv|]. split; [congruence|reflexivity].
  - cbn [flat_map] in Hexec. apply execOps_app_ok in Hexec as [m1 [H1 H2]].
    destruct (Hall a) as [Hpath Hname]; [left|].
    rewrite Hpath in H1.
    destruct (liveInv_attachment m m1 q (fileName a) _ pending Hinv Hq Hnew Hlen Hname H1)
      as [Hinv1 Hblank].
    destruct (IH m1 Hinv1) as (Hinv' & Hne & Hnil); [|exact H2|].
    { intros a' Ha'. apply Hall. right. exact Ha'. }
    split; [exact Hinv'|]. split; [|discriminate].
    intros _. destruct l as [|a2 l]; [|apply Hne; discriminate].
    rewrite (Hnil eq_refl). exact Hblank.
Qed.

(** [rename] is through with the card it is at, which needs no blanking. *)
Lemma liveInv_close (m : gmap string cardFiles) (q : string) (pending : list card)
    (f : cardFiles) :
  liveInv root m0 m (Some q) pending -> m !! q = Some f -> ~ unblanked f ->
  liveInv root m0 m None pending.
Proof.
  intros [Hcur Hpend Hunb Hnames Hframe] Hf Hgood. split; auto; [discriminate|].
  intros k fk Hk Hlive Hbad. destruct (Hunb k fk Hk Hlive Hbad) as [H|H]; [left; exact H|].
  injection H as ->. rewrite Hf in Hk. injection Hk as ->. contradiction.
Qed.

Lemma liveInv_open (m : gmap string cardFiles) (c : card) (pending : list card) :
  liveInv root m0 m None (c :: pending) ->
  liveInv root m0 m (Some (path c)) pending.
Proof.
  intros [Hcur Hpend Hunb Hnames Hframe]. split; auto.
  - intros q [= <-]. destruct (Hpend c) as [f [Hf _]]; [left|]. eauto.
  - intros c' Hc'. apply Hpend. right. exact Hc'.
  - intros k f Hk Hlive Hbad. destruct (Hunb k f Hk Hlive Hbad) as [H|H]; [|discriminate].
    cbn [map] in H. apply elem_of_cons in H as [->|H]; [right; reflexivity|left; exact H].
Qed.

(** The calls of [replaceCardPath] for the first of the pending cards. *)
Lemma liveInv_card (m m' : gmap string cardFiles) (c : card) (pending : list card) :
  liveInv root m0 m None (c :: pending) ->
  StronglySorted notLonger (c :: pending) ->
  NoDup (map path (c :: pending)) ->
  isUnder root (path c) = true -> cardPathOk from (path c) -> isTemplateCard c = false ->
  execOps (replaceCardPath' from to c).1 m = Ok m' ->
  liveInv root m0 m' None pending.
Proof.
  intros Hinv Hsorted Hnodup Hq Hok Htpl Hexec.
  set (q := path c) in *.
  destruct (inv_pending _ _ _ _ _ Hinv c) as [f0 [Hf0 Hc]]; [left|]. fold q in Hf0, Hc.
  assert (forall c', c' ∈ pending -> (String.length (path c') <= String.length q)%nat) as Hlen.
  { intros c' Hc'. apply StronglySorted_inv in Hsorted as [_ Hall].
    rewrite Forall_forall in Hall. exact (Hall c' Hc'). }
  assert (q ∉ map path pending) as Hnew.
  { cbn [map] in Hnodup. apply NoDup_cons in Hnodup as [H _]. exact H. }
  pose proof (liveInv_open m c pending Hinv) as Hopen. fold q in Hopen.
  unfold replaceCardPath in Hexec. rewrite Htpl in Hexec. cbn [negb fst] in Hexec.
  apply execOps_app_ok in Hexec as [mA [HA Hmove]].
  assert (content c = None) as Hcontent by (rewrite Hc; reflexivity).
  assert (attachments c
          = Some (map (fun e => AttachmentDetails (Js.join q "a") (fst e))
                      (map_to_list (attachmentFiles f0)))) as Hatts
    by (rewrite Hc; reflexivity).
  rewrite Hcontent, Hatts in HA. cbn [from_option id] in HA.
  fold q in HA.
  assert (forall a,
            a ∈ map (fun e => AttachmentDetails (Js.join q "a") (fst e))
                    (map_to_list (attachmentFiles f0)) ->
            att_path a = Js.join q "a" /\ Js.includes "/" (fileName a) = false) as Hfiles.
  { intros a Ha. apply list_elem_of_fmap in Ha as [[name bytes] [-> Hin]].
    split; [reflexivity|]. cbn [fileName fst].
    apply elem_of_map_to_list in Hin.
    apply (inv_names _ _ _ _ _ Hinv q f0 name Hf0 Hq). eauto. }
  destruct (liveInv_attachments _ m mA q pending Hopen Hq Hnew Hlen Hfiles HA)
    as (HinvA & Hblank & Hsame).
  assert (exists fA, mA !! q = Some fA /\ ~ unblanked fA) as [fA [HfA Hgood]].
  { destruct (map_to_list (attachmentFiles f0)) as [|e l] eqn:El.
    - rewrite (Hsame eq_refl). exists f0. split; [exact Hf0|].
      apply map_to_list_empty_iff in El. intros [H _]. contradiction.
    - destruct Hblank as [fA [HfA Hb]]; [discriminate|].
      exists fA. split; [exact HfA|]. apply not_unblanked_blank. exact Hb. }
  cbn [execOps execOp] in Hmove. fold q in Hmove.
  destruct (fsRename q (Js.replaceLastPrefix from to q) mA) as [m1|e] eqn:Hren;
    [|discriminate]. cbn in Hmove.
  injection Hmove as <-.
  destruct (cardPathOk_rename from to q from_prefix Hok) as (dir & key & Hdst & Harea & Hnone).
  apply fsRename_ok in Hren as [->|[(Hsrc & Hocc & ->)|Hatt]].
  - exact (liveInv_close mA q pending fA HinvA HfA Hgood).
  - apply (liveInv_move root m0 mA (Some q) None); auto.
    + rewrite Hdst. apply Harea. exact Hq.
    + intros c' Hc'. apply inside_false. split.
      * intros Heq. apply Hnew. apply list_elem_of_fmap. eauto.
      * destruct (isUnder q (path c')) eqn:E; [|reflexivity].
        apply isUnder_longer in E. specialize (Hlen c' Hc'). lia.
    + intros k f Hk Hin Hbad. apply inside_spec in Hin as [->|Hu].
      * rewrite HfA in Hk. injection Hk as <-. contradiction.
      * pose proof (isUnder_longer _ _ Hu) as Hlong.
        destruct (inv_unblanked _ _ _ _ _ HinvA k f Hk (isUnder_trans _ _ _ Hq Hu) Hbad)
          as [H|H].
        -- apply list_elem_of_fmap in H as [c' [-> Hc']]. specialize (Hlen c' Hc'). lia.
        -- injection H as ->. lia.
    + discriminate.
    + intros q' [= <-]. right. apply inside_spec. left. reflexivity.
  - destruct Hatt as (d' & n & n' & f & bytes & Ho & _). congruence.
Qed.

(** The loop of [rename] over the cards of the card root. *)
Lemma liveInv_cards (l : list card) (m m' : gmap string cardFiles) :
  liveInv root m0 m None l ->
  StronglySorted notLonger l ->
  NoDup (map path l) ->
  (forall c, c ∈ l -> isUnder root (path c) = true /\ cardPathOk from (path c)
                      /\ isTemplateCard c = false) ->
  execOps (renameCards' from to l) m = Ok m' ->
  liveInv root m0 m' None [].
Proof.
  revert m. induction l as [|c l IH]; intros m Hinv Hsorted Hnodup Hall Hexec.
  - injection Hexec as <-. exact Hinv.
  - unfold renameCards in Hexec. cbn [flat_map] in Hexec.
    apply execOps_app_ok in Hexec as [m1 [H1 H2]].
    destruct (Hall c) as (Hq & Hok & Htpl); [left|].
    pose proof (liveInv_card m m1 c l Hinv Hsorted Hnodup Hq Hok Htpl H1) as Hinv1.
    apply (IH m1 Hinv1); [| | |exact H2].
    + apply StronglySorted_inv in Hsorted as [H _]. exact H.
    + cbn [map] in Hnodup. apply NoDup_cons in Hnodup as [_ H]. exact H.
    + intros c' Hc'. apply Hall. right. exact Hc'.
Qed.

End LiveStep.

(** *** The card root and the card folders of the templates lie apart *)

Lemma templateCardsFolder_in_templates (d : disk) (t k : string) :
  isUnder (templateCardsFolder d t) k = true -> isUnder (templatesFolder d) k = true.
Proof.
  apply isUnder_trans. unfold templateCardsFolder.
  apply isUnder_extend, isUnder_join.
Qed.

Lemma cardroot_not_templates (d : disk) (k : string) :
  isUnder (cardrootFolder d) k = true -> isUnder (templatesFolder d) k = false.
Proof.
  intros H1. destruct (isUnder (templatesFolder d) k) eqn:H2; [|reflexivity].
  apply isUnder_inv in H1 as [r1 ->]. apply isUnder_inv in H2 as [r2 H2].
  unfold cardrootFolder, templatesFolder, Js.join in H2.
  rewrite !append_assoc in H2. apply append_inj_l in H2. discriminate H2.
Qed.

Lemma cardroot_not_template (d : disk) (t k : string) :
  isUnder (cardrootFolder d) k = true -> isUnder (templateCardsFolder d t) k = false.
Proof.
  intros H. destruct (isUnder (templateCardsFolder d t) k) eqn:E; [|reflexivity].
  apply templateCardsFolder_in_templates in E.
  rewrite (cardroot_not_templates d k H) in E. discriminate.
Qed.

Lemma separator_splits (a b x y : string) :
  Js.includes "/" a = false -> Js.includes "/" b = false ->
  a ++ "/" ++ x = b ++ "/" ++ y -> a = b.
Proof.
  revert b. induction a as [|c a IH]; intros b Ha Hb H.
  - destruct b as [|c' b]; [reflexivity|]. cbn in H. injection H as <- _.
    rewrite includes_slash_cons in Hb. discriminate.
  - destruct b as [|c' b].
    + cbn in H. injection H as -> _. rewrite includes_slash_cons in Ha. discriminate.
    + cbn in H. injection H as <- H. f_equal.
      rewrite includes_slash_cons in Ha, Hb.
      apply orb_false_iff in Ha as [_ Ha]. apply orb_false_iff in Hb as [_ Hb].
      exact (IH b Ha Hb H).
Qed.

Lemma templates_apart (d : disk) (t1 t2 k : string) :
  Js.includes "/" t1 = false -> Js.includes "/" t2 = false ->
  isUnder (templateCardsFolder d t1) k = true ->
  isUnder (templateCardsFolder d t2) k = true -> t1 = t2.
Proof.
  intros Ht1 Ht2 H1 H2.
  apply isUnder_inv in H1 as [r1 ->]. apply isUnder_inv in H2 as [r2 H2].
  unfold templateCardsFolder, Js.join in H2.
  rewrite !append_assoc in H2. do 2 apply append_inj_l in H2.
  exact (separator_splits t1 t2 _ _ Ht1 Ht2 H2).
Qed.

Lemma cards_paths_nodup (d : disk) (dir : string) (details : fetchCardDetails) :
  NoDup (map path (cards d dir details)).
Proof.
  unfold cards. rewrite <- list_fmap_compose.
  replace (path ∘ (fun e : string * cardFiles => cardOf details e.1 e.2))
    with (fst : string * cardFiles -> string) by reflexivity.
  eapply sublist_NoDup.
  - apply (NoDup_fst_map_to_list (cardDirs d)).
  - apply fmap_sublist, sublist_filter.
Qed.

Lemma sortedCards_paths_nodup (d : disk) (dir : string) :
  NoDup (map path (sortedCards d dir)).
Proof.
  unfold sortedCards. rewrite (arraySort_perm sortCards). apply cards_paths_nodup.
Qed.

Section TemplatePhase.
Context (isTemplateCard : card -> bool)
        (regexReplaceAll : string -> string -> string -> string)
        (from to : string).
Hypothesis from_prefix : Js.isPrefix from = true.

Local Abbreviation renameCards' := (renameCards isTemplateCard regexReplaceAll).
Local Abbreviation renameTemplates' := (renameTemplates isTemplateCard regexReplaceAll).

(** The pass over the cards of one template leaves what lies outside its
    card folder as it is. *)
Lemma template_pass_frame (area : string) (l : list card) (m m' : gmap string cardFiles) :
  (forall c, c ∈ l -> isTemplateCard c = true /\ cardPathOk from (path c)
                      /\ isUnder area (path c) = true) ->
  execOps (renameCards' from to l) m = Ok m' ->
  forall k, isUnder area k = false -> m' !! k = m !! k.
Proof.
  revert m. induction l as [|c l IH]; intros m Hall Hexec k Hk.
  - injection Hexec as <-. reflexivity.
  - unfold renameCards in Hexec. cbn [flat_map] in Hexec.
    apply execOps_app_ok in Hexec as [m1 [H1 H2]].
    rewrite (IH m1) with (1 := fun c' Hc' => Hall c' (list_elem_of_further _ _ _ Hc'))
                         (2 := H2) (3 := Hk).
    destruct (Hall c) as (Htpl & Hok & Hsrc); [left|].
    unfold replaceCardPath in H1. rewrite Htpl in H1. cbn [negb fst app] in H1.
    cbn [execOps execOp] in H1.
    destruct (fsRename (path c) (Js.replaceLastPrefix from to (path c)) m) as [mx|e] eqn:Hren;
      [|discriminate].
    cbn in H1. injection H1 as <-.
    destruct (cardPathOk_rename from to (path c) from_prefix Hok)
      as (dir & key & Hdst & Harea & Hnone).
    apply fsRename_ok in Hren as [->|[(_ & Hocc & ->)|Hatt]]; [reflexivity| |].
    + apply moveDirs_lookup_outside; [exact Hocc| |].
      * destruct (inside (path c) k) eqn:E; [|reflexivity].
        rewrite (inside_under _ _ _ Hsrc E) in Hk. discriminate.
      * destruct (inside _ k) eqn:E; [|reflexivity].
        rewrite Hdst in E. rewrite (inside_under _ _ _ (Harea area Hsrc) E) in Hk.
        discriminate.
    + destruct Hatt as (d' & n & n' & f & bytes & Ho & _). congruence.
Qed.

Lemma renameTemplates_frame (ts : list string) (d d' : disk) :
  NoDup ts -> (forall t, t ∈ ts -> Js.includes "/" t = false) ->
  (forall t k f, t ∈ ts -> cardDirs d !! k = Some f ->
                 isUnder (templateCardsFolder d t) k = true -> cardPathOk from k) ->
  (forall c, isUnder (templatesFolder d) (path c) = true -> isTemplateCard c = true) ->
  renameTemplates' from to d ts = Ok d' ->
  basePath d' = basePath d /\ cardkeyPrefix d' = cardkeyPrefix d
  /\ localTemplates d' = localTemplates d
  /\ forall k, (forall t, t ∈ ts -> isUnder (templateCardsFolder d t) k = false) ->
               cardDirs d' !! k = cardDirs d !! k.
Proof.
  revert d. induction ts as [|t ts IH]; intros d Hnodup Hnames Hwf Htpl Hexec.
  - injection Hexec as <-. auto.
  - cbn [renameTemplates] in Hexec.
    destruct (execOps _ (cardDirs d)) as [m|e] eqn:Hpass; [|discriminate]. cbn in Hexec.
    apply NoDup_cons in Hnodup as [Hfresh Hnodup].
    assert (forall k, isUnder (templateCardsFolder d t) k = false -> m !! k = cardDirs d !! k)
      as Hframe.
    { apply (template_pass_frame (templateCardsFolder d t)) with (2 := Hpass).
      intros c Hc. apply sortedCards_spec in Hc as (p & f & Hp & Hu & ->).
      cbn [cardOf path]. split; [|split; [|exact Hu]].
      - apply Htpl. exact (templateCardsFolder_in_templates d t p Hu).
      - apply (Hwf t p f); [left|exact Hp|exact Hu]. }
    destruct (IH (setCardDirs d m)) with (5 := Hexec) as (Hb & Hp & Hl & Hrest); auto.
    + intros t' Ht'. apply Hnames. right. exact Ht'.
    + intros t' k f Ht' Hk Hu. cbn [setCardDirs cardDirs] in Hk.
      apply (Hwf t' k f); [right; exact Ht'| |exact Hu].
      rewrite <- Hframe; [exact Hk|].
      destruct (isUnder (templateCardsFolder d t) k) eqn:E; [|reflexivity].
      exfalso. apply Hfresh.
      rewrite (templates_apart d t t' k); auto.
      * apply Hnames. left.
      * apply Hnames. right. exact Ht'.
    + split; [exact Hb|]. split; [exact Hp|]. split; [exact Hl|].
      intros k Hk. rewrite Hrest.
      * cbn [setCardDirs cardDirs]. apply Hframe. apply Hk. left.
      * intros t' Ht'. apply (Hk t'). right. exact Ht'.
Qed.

End TemplatePhase.

Section SecondRun.
Context (isTemplateCard : card -> bool)
        (regexReplaceAll : string -> string -> string -> string).

Local Abbreviation replaceCardPath' := (replaceCardPath isTemplateCard regexReplaceAll).
Local Abbreviation renameCards' := (renameCards isTemplateCard regexReplaceAll).
Local Abbreviation renameTemplates' := (renameTemplates isTemplateCard regexReplaceAll).
Local Abbreviation rename' := (rename isTemplateCard regexReplaceAll).

Lemma fsRename_same_card (p : string) (m : gmap string cardFiles) :
  is_Some (m !! p) -> fsRename p p m = Ok m.
Proof.
  intros [f Hf]. unfold fsRename. rewrite Hf, String.eqb_refl. reflexivity.
Qed.

Lemma fsRename_same_attachment (q name : string) (f : cardFiles)
    (m : gmap string cardFiles) :
  m !! q = Some f -> is_Some (attachmentFiles f !! name) ->
  Js.includes "/" name = false ->
  fsRename (Js.join (Js.join q "a") name) (Js.join (Js.join q "a") name) m = Ok m.
Proof.
  intros Hf [bytes Hb] Hname. unfold fsRename.
  destruct (m !! Js.join (Js.join q "a") name); [rewrite String.eqb_refl; reflexivity|].
  rewrite (attachmentOwner_join q name Hname), Hf, Hb, String.eqb_refl. reflexivity.
Qed.

Lemma fsWriteFile_blank (q : string) (f : cardFiles) (m : gmap string cardFiles) :
  m !! q = Some f -> indexAdoc f = "" ->
  fsWriteFile (Js.join q "index.adoc") "" m = Ok m.
Proof.
  intros Hf Hb. unfold fsWriteFile. rewrite adocOwner_join, Hf.
  f_equal. apply insert_id. rewrite Hf. f_equal. destruct f. cbn in *. congruence.
Qed.

Lemma execOps_flat_map_same {A : Type} (g : A -> list fsOp) (l : list A)
    (m : gmap string cardFiles) :
  (forall a, a ∈ l -> execOps (g a) m = Ok m) -> execOps (flat_map g l) m = Ok m.
Proof.
  induction l as [|a l IH]; intros H; [reflexivity|].
  cbn [flat_map]. rewrite execOps_app, (H a) by left. cbn.
  apply IH. intros a' Ha'. apply H. right. exact Ha'.
Qed.

(** With the prefix in place already, the calls made for a card that needs
    no blanking change nothing. *)
Lemma replaceCardPath_same (to : string) (m : gmap string cardFiles) (p : string)
    (f : cardFiles) :
  m !! p = Some f ->
  (isTemplateCard (cardOf renameDetails p f) = false ->
   (forall name, is_Some (attachmentFiles f !! name) -> Js.includes "/" name = false)
   /\ ~ unblanked f) ->
  execOps (replaceCardPath' to to (cardOf renameDetails p f)).1 m = Ok m.
Proof.
  intros Hf Hlive. unfold replaceCardPath. cbn [fst].
  rewrite execOps_app.
  assert (execOps (if negb (isTemplateCard (cardOf renameDetails p f))
                   then renameAttachments regexReplaceAll to to
                          (path (cardOf renameDetails p f))
                          (content (cardOf renameDetails p f))
                          (default [] (attachments (cardOf renameDetails p f)))
                   else []) m = Ok m) as ->.
  { destruct (isTemplateCard (cardOf renameDetails p f)) eqn:Htpl; [reflexivity|].
    destruct (Hlive eq_refl) as [Hnames Hgood]. cbn [negb].
    cbn [cardOf renameDetails want_content want_attachments content attachments path
         from_option id].
    rewrite renameAttachments_no_content. apply execOps_flat_map_same.
    intros a Ha. apply list_elem_of_fmap in Ha as [[name bytes] [-> Hin]].
    apply elem_of_map_to_list in Hin. cbn [att_path fileName fst].
    rewrite replaceLastPrefix_same. cbn [execOps execOp].
    rewrite (fsRename_same_attachment p name f m Hf) by eauto. cbn.
    rewrite (fsWriteFile_blank p f m Hf); [reflexivity|].
    destruct (String.eqb_spec (indexAdoc f) "") as [H|H]; [exact H|].
    exfalso. apply Hgood. split; [|exact H].
    intros Hempty. rewrite Hempty, lookup_empty in Hin. discriminate. }
  cbn. cbn [cardOf path]. rewrite replaceLastPrefix_same.
  rewrite fsRename_same_card by eauto. reflexivity.
Qed.

Lemma renameCards_same (to : string) (m : gmap string cardFiles) (l : list card) :
  (forall c, c ∈ l ->
     exists p f, c = cardOf renameDetails p f /\ m !! p = Some f
       /\ (isTemplateCard c = false ->
           (forall name, is_Some (attachmentFiles f !! name) -> Js.includes "/" name = false)
           /\ ~ unblanked f)) ->
  execOps (renameCards' to to l) m = Ok m.
Proof.
  intros H. unfold renameCards. apply execOps_flat_map_same.
  intros c Hc. destruct (H c Hc) as (p & f & -> & Hf & Hlive).
  apply replaceCardPath_same; assumption.
Qed.

Lemma setCardDirs_same (d : disk) : setCardDirs d (cardDirs d) = d.
Proof. destruct d. reflexivity. Qed.

Lemma renameTemplates_same (to : string) (d : disk) (ts : list string) :
  (forall c, isUnder (templatesFolder d) (path c) = true -> isTemplateCard c = true) ->
  renameTemplates' to to d ts = Ok d.
Proof.
  intros Htpl. induction ts as [|t ts IH]; [reflexivity|].
  cbn [renameTemplates]. rewrite renameCards_same.
  - cbn. rewrite setCardDirs_same. exact IH.
  - intros c Hc. apply sortedCards_spec in Hc as (p & f & Hp & Hu & ->).
    exists p, f. split; [reflexivity|]. split; [exact Hp|].
    intros Hlive. rewrite Htpl in Hlive; [discriminate|].
    exact (templateCardsFolder_in_templates d t p Hu).
Qed.

(** X1. In a well-formed project, where [isTemplateCard] tells the cards
    of the card root from those of the templates, a [rename] that was
    fulfilled has left a disk on which the same [rename] changes nothing:
    it is fulfilled again, with the same disk and the same event.  (The
    second run renames every path to itself and writes the empty
    [index.adoc] of each card with attachments, which the first run had
    emptied.) *)
Theorem rename_twice (d d1 : disk) (to : string) (e1 : event) :
  (forall c, isUnder (cardrootFolder d) (path c) = true -> isTemplateCard c = false) ->
  (forall c, isUnder (templatesFolder d) (path c) = true -> isTemplateCard c = true) ->
  wellFormed d ->
  rename' d to = Ok (d1, e1) ->
  rename' d1 to = Ok (d1, e1).
Proof.
  intros Hlive Htpl [Hprefix Hwf_live Hwf_tpl Hwf_att Hnodup Hnames] Hrun.
  unfold rename in Hrun.
  change (cardrootFolder (setCardPrefix to d)) with (cardrootFolder d) in Hrun.
  change (cardDirs (setCardPrefix to d)) with (cardDirs d) in Hrun.
  change (localTemplates (setCardPrefix to d)) with (localTemplates d) in Hrun.
  set (root := cardrootFolder d) in *. set (from := cardkeyPrefix d) in *.
  set (cardsL := sortedCards (setCardPrefix to d) root) in *.
  destruct (execOps (renameCards' from to cardsL) (cardDirs d)) as [m2|e] eqn:Hphase1;
    [|discriminate].
  cbn in Hrun.
  destruct (renameTemplates' from to (setCardDirs (setCardPrefix to d) m2) (localTemplates d))
    as [d2|e] eqn:Hphase2; [|discriminate].
  cbn in Hrun. injection Hrun as <- <-.
  (* the cards of the card root *)
  assert (forall c, c ∈ cardsL <->
            exists p f, cardDirs d !! p = Some f /\ isUnder root p = true
                        /\ c = cardOf renameDetails p f) as HcardsL.
  { intros c. unfold cardsL. rewrite sortedCards_spec. reflexivity. }
  assert (liveInv root (cardDirs d) (cardDirs d) None cardsL) as Hinit.
  { split.
    - discriminate.
    - intros c Hc. apply HcardsL in Hc as (p & f & Hp & Hu & ->). exists f. auto.
    - intros k f Hk Hu _. left. apply list_elem_of_fmap.
      exists (cardOf renameDetails k f). split; [reflexivity|].
      apply HcardsL. eauto.
    - intros k f name Hk Hu Hname. exact (Hwf_att k f name Hk Hu Hname).
    - reflexivity. }
  assert (liveInv root (cardDirs d) m2 None []) as Hdone.
  { apply (liveInv_cards isTemplateCard regexReplaceAll root (cardDirs d) from to Hprefix
             cardsL (cardDirs d) m2 Hinit); [| | |exact Hphase1].
    - apply arraySort_sorted.
    - apply sortedCards_paths_nodup.
    - intros c Hc. apply HcardsL in Hc as (p & f & Hp & Hu & ->). cbn [cardOf path].
      split; [exact Hu|]. split; [exact (Hwf_live p f Hp Hu)|].
      apply Hlive. exact Hu. }
  (* the cards of the templates *)
  destruct (renameTemplates_frame isTemplateCard regexReplaceAll from to Hprefix
              (localTemplates d) (setCardDirs (setCardPrefix to d) m2) d2)
    as (Hbase & Hpre & Hts & Hframe); auto.
  { intros t k f Ht Hk Hu. cbn [setCardDirs cardDirs] in Hk.
    change (templateCardsFolder (setCardDirs (setCardPrefix to d) m2) t)
      with (templateCardsFolder d t) in Hu.
    apply (Hwf_tpl t k f Ht); [|exact Hu].
    rewrite <- (inv_frame _ _ _ _ _ Hdone k); [exact Hk|].
    destruct (isUnder root k) eqn:E; [|reflexivity].
    rewrite (cardroot_not_template d t k E) in Hu. discriminate. }
  cbn [setCardDirs setCardPrefix basePath cardkeyPrefix localTemplates] in Hbase, Hpre, Hts.
  assert (forall k, isUnder root k = true -> cardDirs d2 !! k = m2 !! k) as Hkeep.
  { intros k Hk. rewrite Hframe; [reflexivity|].
    intros t _. exact (cardroot_not_template d t k Hk). }
  (* the second run *)
  assert (cardrootFolder d2 = root) as Hroot2
    by (unfold root, cardrootFolder; rewrite Hbase; reflexivity).
  assert (templatesFolder d2 = templatesFolder d) as Htf2
    by (unfold templatesFolder; rewrite Hbase; reflexivity).
  assert (setCardPrefix to d2 = d2) as Hset.
  { destruct d2. cbn in Hpre. subst. reflexivity. }
  unfold rename. rewrite Hpre, Hset, Hroot2.
  rewrite renameCards_same.
  - cbn. rewrite setCardDirs_same.
    rewrite renameTemplates_same; [reflexivity|].
    intros c Hc. apply Htpl. rewrite <- Htf2. exact Hc.
  - intros c Hc. apply sortedCards_spec in Hc as (p & f & Hp & Hu & ->).
    exists p, f. split; [reflexivity|]. split; [exact Hp|].
    intros _. rewrite (Hkeep p Hu) in Hp. split.
    + intros name Hname. exact (inv_names _ _ _ _ _ Hdone p f name Hp Hu Hname).
    + intros Hbad. destruct (inv_unblanked _ _ _ _ _ Hdone p f Hp Hu Hbad) as [H|H].
      * inversion H.
      * discriminate.
Qed.

End SecondRun.

(** *** The sample store is well formed *)

Lemma sampleStore_entries (k : string) (f : cardFiles) :
  cardDirs SampleStore.disk0 !! k = Some f ->
  (k, f) ∈ [("/p/cardroot/abc_1",
             CardFiles SampleStore.meta "see image::abc.png[]"
                       (list_to_map [("abc.png", "PNG")]));
            ("/p/cardroot/abc_1/c/abc_2", CardFiles SampleStore.meta "child" ∅);
            ("/p/cardroot/abc_1/c/abc_2/c/abc_3",
             CardFiles SampleStore.meta "grandchild" (list_to_map [("x.png", "X")]));
            ("/p/cardroot/abc_4", CardFiles SampleStore.meta "second" ∅);
            ("/p/.cards/local/templates/page/c/abc_5",
             CardFiles SampleStore.meta "blueprint" (list_to_map [("y.png", "Y")]))].
Proof.
  intros H. apply elem_of_list_to_map_2 in H. exact H.
Qed.

Lemma singleton_name (a b name : string) :
  is_Some ((list_to_map [(a, b)] : gmap string string) !! name) -> name = a.
Proof.
  intros [v Hv]. apply elem_of_list_to_map_2 in Hv.
  apply list_elem_of_singleton in Hv. congruence.
Qed.

Lemma sampleStore_wellFormed : wellFormed SampleStore.disk0.
Proof.
  split.
  - reflexivity.
  - intros k f Hk _. apply sampleStore_entries in Hk.
    repeat (apply elem_of_cons in Hk as [Hk|Hk]); try (apply elem_of_nil in Hk; contradiction);
      injection Hk as -> _.
    + exists "/p/cardroot", "1". repeat split; discriminate.
    + exists "/p/cardroot/abc_1/c", "2". repeat split; discriminate.
    + exists "/p/cardroot/abc_1/c/abc_2/c", "3". repeat split; discriminate.
    + exists "/p/cardroot", "4". repeat split; discriminate.
    + exists "/p/.cards/local/templates/page/c", "5". repeat split; discriminate.
  - intros t k f _ Hk _. apply sampleStore_entries in Hk.
    repeat (apply elem_of_cons in Hk as [Hk|Hk]); try (apply elem_of_nil in Hk; contradiction);
      injection Hk as -> _.
    + exists "/p/cardroot", "1". repeat split; discriminate.
    + exists "/p/cardroot/abc_1/c", "2". repeat split; discriminate.
    + exists "/p/cardroot/abc_1/c/abc_2/c", "3". repeat split; discriminate.
    + exists "/p/cardroot", "4". repeat split; discriminate.
    + exists "/p/.cards/local/templates/page/c", "5". repeat split; discriminate.
  - intros k f name Hk _ Hname. apply sampleStore_entries in Hk.
    repeat (apply elem_of_cons in Hk as [Hk|Hk]); try (apply elem_of_nil in Hk; contradiction);
      injection Hk as -> ->; cbn [attachmentFiles] in Hname.
    + apply singleton_name in Hname as ->. reflexivity.
    + rewrite lookup_empty in Hname. destruct Hname; discriminate.
    + apply singleton_name in Hname as ->. reflexivity.
    + rewrite lookup_empty in Hname. destruct Hname; discriminate.
    + apply singleton_name in Hname as ->. reflexivity.
  - cbn. apply NoDup_singleton.
  - intros t Ht. cbn in Ht. apply list_elem_of_singleton in Ht as ->. reflexivity.
Qed.

Lemma sampleStore_live_cards (c : card) :
  isUnder (cardrootFolder SampleStore.disk0) (path c) = true ->
  SampleStore.isTemplateCard c = false.
Proof. apply (cardroot_not_templates SampleStore.disk0). Qed.

Lemma sampleStore_template_cards (c : card) :
  isUnder (templatesFolder SampleStore.disk0) (path c) = true ->
  SampleStore.isTemplateCard c = true.
Proof. intros H. exact H. Qed.

Lemma rename_twice_witness :
  exists d1 e1,
    rename SampleStore.isTemplateCard SampleStore.regexReplaceAll SampleStore.disk0 "xyz"
    = Ok (d1, e1)
    /\ rename SampleStore.isTemplateCard SampleStore.regexReplaceAll d1 "xyz" = Ok (d1, e1).
Proof.
  destruct (rename SampleStore.isTemplateCard SampleStore.regexReplaceAll
              SampleStore.disk0 "xyz") as [[d1 e1]|e] eqn:E.
  - exists d1, e1. split; [reflexivity|].
    exact (rename_twice SampleStore.isTemplateCard SampleStore.regexReplaceAll
             SampleStore.disk0 d1 "xyz" e1 sampleStore_live_cards
             sampleStore_template_cards sampleStore_wellFormed E).
  - exfalso. vm_compute in E. discriminate E.
Defined.

(** ** More on the regular expression of the old prefix *)

Lemma dotStarThen_includes (p s : string) :
  Js.dotStarThen p s = true -> Js.includes p s = true.
Proof.
  induction s as [|c s IH]; cbn [Js.dotStarThen Js.includes].
  - rewrite !orb_false_r. auto.
  - intros H. apply orb_true_iff in H as [H|H]; [rewrite H; reflexivity|].
    apply andb_true_iff in H as [_ H]. rewrite (IH H). apply orb_true_r.
Qed.

Lemma includes_dotStarThen (p s : string) :
  Js.oneLine s = true -> Js.includes p s = true -> Js.dotStarThen p s = true.
Proof.
  induction s as [|c s IH]; cbn [Js.dotStarThen Js.includes]; intros Hl H.
  - exact H.
  - apply orb_true_iff in H as [H|H]; [rewrite H; reflexivity|].
    unfold Js.oneLine in Hl. cbn [Js.forallb] in Hl. apply andb_true_iff in Hl as [Hc Hl].
    rewrite Hc, (IH Hl H). apply orb_true_r.
Qed.

Lemma includes_drop (p s : string) (n : nat) :
  Js.includes p (Js.drop n s) = true -> Js.includes p s = true.
Proof.
  revert s. induction n as [|n IH]; intros s H; [exact H|].
  destruct s as [|c s]; [exact H|].
  cbn [Js.drop] in H. cbn [Js.includes]. rewrite (IH s H). apply orb_true_r.
Qed.

Lemma oneLine_drop (s : string) (n : nat) :
  Js.oneLine s = true -> Js.oneLine (Js.drop n s) = true.
Proof.
  revert s. induction n as [|n IH]; intros s H; [exact H|].
  destruct s as [|c s]; [exact H|].
  cbn [Js.drop]. apply IH. unfold Js.oneLine in H. cbn [Js.forallb] in H.
  apply andb_true_iff in H as [_ H]. exact H.
Qed.

(** X2. Where the old prefix does not occur, and also when the old prefix
    is the empty string (the negative lookahead then never holds), the regular
    expression matches nowhere and [replace] gives the string back: the
    name of an attachment that does not bear the prefix is kept. *)
Theorem replaceLastPrefix_absent (from to s : string) :
  (Js.includes from s = false -> Js.replaceLastPrefix from to s = s)
  /\ Js.replaceLastPrefix "" to s = s.
Proof.
  split.
  - induction s as [|c s IH]; cbn [Js.includes Js.replaceLastPrefix]; intros H;
      apply orb_false_iff in H as [H1 H2]; unfold Js.lastPrefixReMatchesAt;
      rewrite H1; cbn [andb]; [reflexivity|].
    rewrite (IH H2). reflexivity.
  - induction s as [|c s IH]; [reflexivity|].
    cbn [Js.replaceLastPrefix]. unfold Js.lastPrefixReMatchesAt.
    cbn [Js.startsWith String.length Js.drop Js.dotStarThen andb orb negb].
    rewrite IH. reflexivity.
Qed.

(** X3. Where the old prefix, not empty, occurs in a string, [replace]
    exchanges one occurrence of it for the new prefix and keeps all that is
    before and behind it; in a string of one line no whole occurrence is
    left behind the one exchanged. *)
Theorem replaceLastPrefix_one_occurrence (from to s : string) :
  from <> "" -> Js.includes from s = true ->
  exists a b,
    s = a ++ from ++ b
    /\ Js.replaceLastPrefix from to s = a ++ to ++ b
    /\ (Js.oneLine s = true -> Js.includes from b = false).
Proof.
  intros Hne. induction s as [|c s IH]; intros H.
  - destruct from; [contradiction|discriminate H].
  - cbn [Js.replaceLastPrefix].
    destruct (Js.lastPrefixReMatchesAt from (String c s)) eqn:Hm.
    + unfold Js.lastPrefixReMatchesAt in Hm. apply andb_true_iff in Hm as [Hs Hn].
      apply startsWith_inv in Hs as [b Hb].
      exists "", b. rewrite Hb, drop_app. repeat split.
      intros Hl. rewrite Hb, drop_app in Hn.
      destruct (Js.includes from b) eqn:Hi; [|reflexivity].
      rewrite includes_dotStarThen in Hn; [discriminate| |exact Hi].
      rewrite <- Hb in Hl. pose proof (oneLine_drop _ (String.length from) Hl) as Hd.
      rewrite Hb, drop_app in Hd. exact Hd.
    + assert (Js.includes from s = true) as Hi.
      { cbn [Js.includes] in H. apply orb_true_iff in H as [H|H]; [|exact H].
        unfold Js.lastPrefixReMatchesAt in Hm. rewrite H in Hm. cbn [andb] in Hm.
        apply negb_false_iff, dotStarThen_includes in Hm.
        destruct from as [|x from]; [contradiction|].
        cbn [String.length Js.drop] in Hm. exact (includes_drop _ _ _ Hm). }
      destruct (IH Hi) as (a & b & Hs & Hr & Hl).
      exists (String c a), b. rewrite Hr. split; [rewrite Hs; reflexivity|].
      split; [reflexivity|].
      intros Hone. apply Hl. unfold Js.oneLine in Hone. cbn [Js.forallb] in Hone.
      apply andb_true_iff in Hone as [_ Hone]. exact Hone.
Qed.

Lemma replaceLastPrefix_one_occurrence_witness :
  exists a b,
    "abc-plan-abc.png" = a ++ "abc" ++ b
    /\ Js.replaceLastPrefix "abc" "xyz" "abc-plan-abc.png" = a ++ "xyz" ++ b
    /\ (Js.oneLine "abc-plan-abc.png" = true -> Js.includes "abc" b = false).
Proof.
  apply (replaceLastPrefix_one_occurrence "abc" "xyz" "abc-plan-abc.png");
    [discriminate|reflexivity].
Defined.

(** ** More on the order in which [rename] takes the cards *)

Lemma insertSorted_filter (n : nat) (x : card) (l : list card) :
  filter (fun c => String.length (path c) = n) (insertSorted sortCards x l)
  = filter (fun c => String.length (path c) = n) (x :: l).
Proof.
  induction l as [|y l IH]; [reflexivity|].
  cbn [insertSorted]. destruct (sortCards x y <=? 0)%Z eqn:E; [reflexivity|].
  assert (String.length (path x) < String.length (path y))%nat as Hlt.
  { apply Z.leb_gt in E. unfold sortCards in E.
    destruct (String.length (path y) <? String.length (path x))%nat eqn:E1; [lia|].
    destruct (String.length (path x) <? String.length (path y))%nat eqn:E2; [|lia].
    apply Nat.ltb_lt in E2. exact E2. }
  rewrite filter_cons, IH, !filter_cons.
  destruct (decide (String.length (path y) = n)) as [Hy|Hy];
    destruct (decide (String.length (path x) = n)) as [Hx|Hx]; try reflexivity.
  lia.
Qed.

(** X4. The sort is stable on [sortCards]: the cards whose paths have one
    and the same length are taken in the order in which the enumeration
    gave them. *)
Theorem rename_keeps_enumeration_order (n : nat) (l : list card) :
  filter (fun c => String.length (path c) = n) (arraySort sortCards l)
  = filter (fun c => String.length (path c) = n) l.
Proof.
  induction l as [|x l IH]; [reflexivity|].
  change (arraySort sortCards (x :: l)) with (insertSorted sortCards x (arraySort sortCards l)).
  rewrite insertSorted_filter, !filter_cons, IH. reflexivity.
Qed.

(** ** What [rename] does to template cards and to an empty project *)

Section RenameEdges.
Context (isTemplateCard : card -> bool)
        (regexReplaceAll : string -> string -> string -> string).

Local Abbreviation replaceCardPath' := (replaceCardPath isTemplateCard regexReplaceAll).
Local Abbreviation renameCards' := (renameCards isTemplateCard regexReplaceAll).
Local Abbreviation renameTemplates' := (renameTemplates isTemplateCard regexReplaceAll).
Local Abbreviation rename' := (rename isTemplateCard regexReplaceAll).

(** X5. For the cards of a local template, which [isTemplateCard]
    recognises, the only call that [rename] makes is the one that renames
    the card directory: no attachment is renamed, also when its name bears
    the old prefix, and [index.adoc] is not written. *)
Theorem rename_moves_template_cards_only (d : disk) (t from to : string) :
  (forall c, isUnder (templatesFolder d) (path c) = true -> isTemplateCard c = true) ->
  renameCards' from to (sortedCards d (templateCardsFolder d t))
  = map (fun c => FsRename (path c) (Js.replaceLastPrefix from to (path c)))
        (sortedCards d (templateCardsFolder d t)).
Proof.
  intros Htpl. unfold renameCards.
  assert (forall c, c ∈ sortedCards d (templateCardsFolder d t) -> isTemplateCard c = true)
    as Hall.
  { intros c Hc. apply sortedCards_spec in Hc as (p & f & _ & Hu & ->).
    apply Htpl. exact (templateCardsFolder_in_templates d t p Hu). }
  induction (sortedCards d (templateCardsFolder d t)) as [|c l IH]; [reflexivity|].
  cbn [flat_map map]. unfold replaceCardPath at 1. cbn [fst].
  rewrite (Hall c) by left. cbn [negb app]. f_equal.
  apply IH. intros c' Hc'. apply Hall. right. exact Hc'.
Qed.

Lemma cards_none (d : disk) (dir : string) (details : fetchCardDetails) :
  (forall k, is_Some (cardDirs d !! k) -> isUnder dir k = false) ->
  cards d dir details = [].
Proof.
  intros H. unfold cards.
  assert (forall e, e ∈ map_to_list (cardDirs d) -> isUnder dir e.1 = false) as Hall.
  { intros [k f] He. apply elem_of_map_to_list in He. apply H. eauto. }
  induction (map_to_list (cardDirs d)) as [|e l IH]; [reflexivity|].
  rewrite filter_cons. destruct (decide (isUnder dir e.1 = true)) as [Hu|Hu].
  - rewrite (Hall e) in Hu by left. discriminate.
  - apply IH. intros e' He'. apply Hall. right. exact He'.
Qed.

Lemma renameTemplates_none (from to : string) (d : disk) (ts : list string) :
  (forall t k, t ∈ ts -> is_Some (cardDirs d !! k) ->
               isUnder (templateCardsFolder d t) k = false) ->
  renameTemplates' from to d ts = Ok d.
Proof.
  induction ts as [|t ts IH]; intros H; [reflexivity|].
  cbn [renameTemplates]. unfold sortedCards.
  rewrite cards_none by (intros k Hk; apply (H t); [left|exact Hk]).
  cbn. rewrite setCardDirs_same. apply IH.
  intros t' k Ht'. apply H. right. exact Ht'.
Qed.

(** X6. In a project that holds no card directory beneath the card root
    nor in the card folder of a local template, [rename] makes no call to
    the file system: it sets the new prefix and emits ['renamed'] with the
    path of the project. *)
Theorem rename_without_cards (d : disk) (to : string) :
  (forall k, is_Some (cardDirs d !! k) ->
     isUnder (cardrootFolder d) k = false
     /\ forall t, t ∈ localTemplates d -> isUnder (templateCardsFolder d t) k = false) ->
  rename' d to = Ok (setCardPrefix to d, Renamed (basePath d)).
Proof.
  intros H. unfold rename, sortedCards.
  rewrite cards_none by (intros k Hk; apply (H k Hk)).
  change (arraySort sortCards []) with (@nil card).
  change (renameCards' (cardkeyPrefix d) to []) with (@nil fsOp).
  cbn [execOps mbind result_bind].
  rewrite setCardDirs_same.
  rewrite renameTemplates_none; [reflexivity|].
  intros t k Ht Hk. apply (H k Hk). exact Ht.
Qed.

End RenameEdges.

Lemma rename_moves_template_cards_only_witness :
  renameCards SampleStore.isTemplateCard SampleStore.regexReplaceAll "abc" "xyz"
    (sortedCards SampleStore.disk0 (templateCardsFolder SampleStore.disk0 "page"))
  = [FsRename "/p/.cards/local/templates/page/c/abc_5"
              "/p/.cards/local/templates/page/c/xyz_5"].
Proof.
  rewrite (rename_moves_template_cards_only SampleStore.isTemplateCard
             SampleStore.regexReplaceAll SampleStore.disk0 "page" "abc" "xyz"
             sampleStore_template_cards).
  vm_compute. reflexivity.
Defined.

Lemma rename_without_cards_witness :
  let d := {| basePath := "/p"; cardkeyPrefix := "abc";
              cardDirs := {["/p/.cards/modules/base/templates/page/c/base_1"
                            := CardFiles SampleStore.meta "module card" ∅]};
              localTemplates := ["page"] |} in
  rename SampleStore.isTemplateCard SampleStore.regexReplaceAll d "xyz"
  = Ok (setCardPrefix "xyz" d, Renamed "/p").
Proof.
  intros d.
  apply (rename_without_cards SampleStore.isTemplateCard SampleStore.regexReplaceAll d "xyz").
  intros k [f Hk]. subst d. cbn [cardDirs cardrootFolder templateCardsFolder templatesFolder
    basePath localTemplates] in *.
  apply lookup_singleton_Some in Hk as [<- _]. split; [reflexivity|].
  intros t Ht. apply list_elem_of_singleton in Ht as ->. reflexivity.
Defined.

(** ** More on the Create engine *)

Lemma mkdirAll_file_back (l : list string) (s : gmap string node) (q bytes : string) :
  (mkdirAll l s).2 !! q = Some (File bytes) -> s !! q = Some (File bytes).
Proof.
  revert s. induction l as [|p l IH]; intros s H; [exact H|].
  cbn [mkdirAll] in H. unfold ioBind in H.
  assert ((mkdirOne p s).2 !! q = Some (File bytes) -> s !! q = Some (File bytes)) as Hone.
  { unfold mkdirOne. destruct (s !! p) as [[b|]|] eqn:Hp; cbn [snd]; try (intros H'; exact H').
    intros H'. destruct (decide (q = p)) as [->|Hne].
    - rewrite lookup_insert_eq in H'. discriminate.
    - rewrite lookup_insert_ne in H' by congruence. exact H'. }
  destruct (mkdirOne p s) as [[[]|e] s1]; cbn [snd] in *; auto.
Qed.

Lemma mkdirAll_ok (l : list string) (s s1 : gmap string node) :
  mkdirAll l s = (Ok tt, s1) -> forall q, q ∈ l -> isDir s1 q = true.
Proof.
  revert s. induction l as [|p l IH]; intros s H q Hq; [inversion Hq|].
  cbn [mkdirAll] in H. unfold ioBind in H.
  destruct (mkdirOne p s) as [[[]|e] s0] eqn:E; [|discriminate].
  apply elem_of_cons in Hq as [->|Hq]; [|exact (IH s0 H q Hq)].
  assert (s0 !! p = Some Dir) as Hp.
  { unfold mkdirOne in E. destruct (s !! p) as [[b|]|] eqn:Hp; try discriminate;
      injection E as <-; [exact Hp|apply lookup_insert_eq]. }
  pose proof (mkdirAll_keeps l s0 p (ex_intro _ _ Hp)) as Hk.
  rewrite H in Hk. cbn [snd] in Hk. unfold isDir. rewrite Hk, Hp. reflexivity.
Qed.

Lemma mkdirAll_succeeds (l : list string) (s : gmap string node) :
  (forall q bytes, q ∈ l -> s !! q <> Some (File bytes)) ->
  exists s1, mkdirAll l s = (Ok tt, s1).
Proof.
  revert s. induction l as [|p l IH]; intros s H; [eexists; reflexivity|].
  cbn [mkdirAll]. unfold ioBind.
  assert (exists s0, mkdirOne p s = (Ok tt, s0)
                     /\ forall q bytes, s0 !! q = Some (File bytes) -> s !! q = Some (File bytes))
    as (s0 & -> & Hback).
  { unfold mkdirOne. destruct (s !! p) as [[b|]|] eqn:Hp.
    - exfalso. apply (H p b); [left|exact Hp].
    - eexists. split; [reflexivity|]. auto.
    - eexists. split; [reflexivity|]. intros q bytes Hq.
      destruct (decide (q = p)) as [->|Hne].
      + rewrite lookup_insert_eq in Hq. discriminate.
      + rewrite lookup_insert_ne in Hq by congruence. exact Hq. }
  apply IH. intros q bytes Hq Hf. apply (H q bytes); [right; exact Hq|].
  apply Hback. exact Hf.
Qed.

Lemma join_longer (dir n : string) : Js.join dir n <> dir.
Proof.
  intros H. apply (f_equal String.length) in H. unfold Js.join in H.
  rewrite !length_append in H. cbn in H. lia.
Qed.

Section AttachmentProperties.
Context (cardAttachmentFolder : gmap string node -> string -> string -> option string)
        (errorFunction : error -> string).

Local Abbreviation createAttachment' := (createAttachment cardAttachmentFolder errorFunction).

(** X7. The ways in which [createAttachment] is rejected.  Without an
    attachment folder for the card (none, or the empty string) and with a
    folder inside an imported module it is rejected before it touches the
    disk; every other rejection is one of the file system calls, and is
    rethrown as an [Error] that bears the message that [errorFunction] makes
    of it. *)
Theorem createAttachment_rejections (cardKey p attachment : string)
    (buffer : option string) (s : gmap string node) :
  (cardAttachmentFolder s p cardKey = None \/ cardAttachmentFolder s p cardKey = Some "" ->
   createAttachment' cardKey p attachment buffer s
   = (Err (Thrown ("Attachment folder for '" ++ cardKey ++ "' not found")), s))
  /\ (forall folder, cardAttachmentFolder s p cardKey = Some folder ->
        Js.includes "/modules/" folder = true ->
        createAttachment' cardKey p attachment buffer s
        = (Err (Thrown "Cannot modify imported module"), s))
  /\ (forall e s', createAttachment' cardKey p attachment buffer s = (Err e, s') ->
        exists message, e = Thrown message).
Proof.
  unfold createAttachment. repeat split.
  - intros [-> | ->]; reflexivity.
  - intros folder -> Hm. destruct folder as [|c f]; [discriminate Hm|].
    rewrite Hm. reflexivity.
  - intros e s'. destruct (cardAttachmentFolder s p cardKey) as [[|c f]|];
      try (intros [= <- _]; eauto).
    destruct (Js.includes "/modules/" (String c f)); [intros [= <- _]; eauto|].
    unfold ioCatch. destruct (ioBind _ _ s) as [[[]|e0] s0]; intros [= <- _]. eauto.
Qed.

(** X8. What a fulfilled [createAttachment] has done: the card has an
    attachment folder outside the imported modules, which is now a
    directory; the file [basename(attachment)] in it did not exist and now
    holds the buffer, or, without a buffer, the bytes of the file at the
    path [attachment]; and all that was on the disk is as it was. *)
Theorem createAttachment_stores (cardKey p attachment : string) (buffer : option string)
    (s s' : gmap string node) :
  createAttachment' cardKey p attachment buffer s = (Ok tt, s') ->
  exists folder bytes,
    cardAttachmentFolder s p cardKey = Some folder
    /\ Js.includes "/modules/" folder = false
    /\ match buffer with
       | Some b => bytes = b
       | None => s !! attachment = Some (File bytes)
       end
    /\ s !! Js.join folder (Js.basename attachment) = None
    /\ s' !! Js.join folder (Js.basename attachment) = Some (File bytes)
    /\ isDir s' folder = true
    /\ forall q, is_Some (s !! q) -> s' !! q = s !! q.
Proof.
  intros H.
  assert (forall q, is_Some (s !! q) -> s' !! q = s !! q) as Hkeep.
  { intros q Hq. pose proof (createAttachment_keeps cardAttachmentFolder errorFunction
                               cardKey p attachment buffer s q Hq) as Hk.
    rewrite H in Hk. exact Hk. }
  unfold createAttachment in H.
  destruct (cardAttachmentFolder s p cardKey) as [[|c f]|]; try discriminate.
  destruct (Js.includes "/modules/" (String c f)) eqn:Hm; [discriminate|].
  set (folder := String c f) in *. set (target := Js.join folder (Js.basename attachment)) in *.
  unfold ioCatch, ioBind, mkdirRecursive in H.
  destruct (mkdirAll (ancestors folder ++ [folder])%list s) as [[[]|e] s1] eqn:E;
    [|discriminate].
  assert (isDir s1 folder = true) as Hdir.
  { apply (mkdirAll_ok _ _ _ E). apply elem_of_app. right. left. }
  assert (forall v, s1 !! target = None -> s' = <[target := v]> s1 ->
                    s !! target = None /\ isDir s' folder = true) as Hfin.
  { intros v Ht ->. split.
    - destruct (s !! target) eqn:Hs; [|reflexivity].
      pose proof (mkdirAll_keeps (ancestors folder ++ [folder])%list s target
                    (ex_intro _ _ Hs)) as Hk.
      rewrite E in Hk. cbn [snd] in Hk. congruence.
    - unfold isDir in *. rewrite lookup_insert_ne; [exact Hdir|]. apply join_longer. }
  destruct buffer as [b|].
  - destruct (writeFileWx target b s1) as [[[]|e] s2] eqn:W; [|discriminate].
    injection H as <-. apply writeFileWx_ok in W as (Ht & _ & ->).
    destruct (Hfin _ Ht eq_refl) as [H1 H2].
    exists folder, b. repeat split; try assumption. apply lookup_insert_eq.
  - unfold copyFileExcl in H.
    destruct (s1 !! attachment) as [[bytes|]|] eqn:Hsrc; try discriminate.
    destruct (s1 !! target) eqn:Ht; [discriminate|].
    destruct (isDir s1 (Js.dirname target)); [|discriminate].
    injection H as <-. destruct (Hfin _ eq_refl eq_refl) as [H1 H2].
    exists folder, bytes. repeat split; try assumption.
    + apply (mkdirAll_file_back (ancestors folder ++ [folder])%list). rewrite E. exact Hsrc.
    + apply lookup_insert_eq.
Qed.

(** X9. [createAttachment] makes the attachment folder before it copies:
    when nothing but directories stands in the way of the folder and there
    is no file at the path [attachment], the call is rejected with the
    message for the error of [copyFile], and the attachment folder of the
    card is left behind on the disk, which is otherwise as it was. *)
Theorem createAttachment_failed_copy_leaves_folder (cardKey p attachment folder : string)
    (s : gmap string node) :
  cardAttachmentFolder s p cardKey = Some folder ->
  folder <> "" ->
  Js.includes "/modules/" folder = false ->
  (forall q bytes, q ∈ (ancestors folder ++ [folder])%list -> s !! q <> Some (File bytes)) ->
  (forall bytes, s !! attachment <> Some (File bytes)) ->
  exists e s',
    createAttachment' cardKey p attachment None s = (Err (Thrown (errorFunction e)), s')
    /\ (e = ENOENT attachment \/ e = EISDIR attachment)
    /\ isDir s' folder = true
    /\ forall q, is_Some (s !! q) -> s' !! q = s !! q.
Proof.
  intros Hf Hne Hm Hway Hsrc.
  destruct (mkdirAll_succeeds _ s Hway) as [s1 E].
  assert (isDir s1 folder = true) as Hdir.
  { apply (mkdirAll_ok _ _ _ E). apply elem_of_app. right. left. }
  assert (forall q, is_Some (s !! q) -> s1 !! q = s !! q) as Hkeep.
  { intros q Hq. pose proof (mkdirAll_keeps (ancestors folder ++ [folder])%list s q Hq) as Hk.
    rewrite E in Hk. exact Hk. }
  assert (forall bytes, s1 !! attachment <> Some (File bytes)) as Hsrc1.
  { intros bytes Hb. apply (Hsrc bytes).
    apply (mkdirAll_file_back (ancestors folder ++ [folder])%list). rewrite E. exact Hb. }
  unfold createAttachment. rewrite Hf. destruct folder as [|c f]; [contradiction|].
  rewrite Hm. unfold ioCatch, ioBind, mkdirRecursive. rewrite E. unfold copyFileExcl.
  destruct (s1 !! attachment) as [[bytes|]|] eqn:Ha.
  - exfalso. exact (Hsrc1 bytes eq_refl).
  - exists (EISDIR attachment), s1. auto.
  - exists (ENOENT attachment), s1. auto.
Qed.

End AttachmentProperties.

Lemma createAttachment_stores_witness :
  exists s',
    createAttachment Sample.cardAttachmentFolder Sample.errorFunction
      "demo_2" "/p" "/tmp/plan.png" None Sample.disk0 = (Ok tt, s')
    /\ s' !! "/p/cardroot/demo_2/a/plan.png" = Some (File "NEW")
    /\ isDir s' "/p/cardroot/demo_2/a" = true.
Proof.
  destruct (createAttachment Sample.cardAttachmentFolder Sample.errorFunction
              "demo_2" "/p" "/tmp/plan.png" None Sample.disk0) as [[[]|e] s'] eqn:E.
  - exists s'. split; [reflexivity|].
    destruct (createAttachment_stores Sample.cardAttachmentFolder Sample.errorFunction
                "demo_2" "/p" "/tmp/plan.png" None Sample.disk0 s' E)
      as (folder & bytes & Hf & _ & Hsrc & _ & Hnew & Hdir & _).
    vm_compute in Hf. injection Hf as <-.
    vm_compute in Hsrc. injection Hsrc as <-.
    split; [exact Hnew|exact Hdir].
  - exfalso. vm_compute in E. discriminate E.
Defined.

Lemma createAttachment_failed_copy_leaves_folder_witness :
  exists e s',
    createAttachment Sample.cardAttachmentFolder Sample.errorFunction
      "demo_2" "/p" "/tmp/missing.png" None Sample.disk0
    = (Err (Thrown (Sample.errorFunction e)), s')
    /\ (e = ENOENT "/tmp/missing.png" \/ e = EISDIR "/tmp/missing.png")
    /\ isDir Sample.disk0 "/p/cardroot/demo_2/a" = false
    /\ isDir s' "/p/cardroot/demo_2/a" = true.
Proof.
  destruct (createAttachment_failed_copy_leaves_folder Sample.cardAttachmentFolder
              Sample.errorFunction "demo_2" "/p" "/tmp/missing.png" "/p/cardroot/demo_2/a"
              Sample.disk0) as (e & s' & H1 & H2 & H3 & _).
  - reflexivity.
  - discriminate.
  - reflexivity.
  - intros q bytes Hq.
    change (q ∈ ["/p"; "/p/cardroot"; "/p/cardroot/demo_2"; "/p/cardroot/demo_2/a"]) in Hq.
    repeat (apply elem_of_cons in Hq as [->|Hq]); try (vm_compute; discriminate).
    inversion Hq.
  - intros bytes. vm_compute. discriminate.
  - exists e, s'. split; [exact H1|]. split; [exact H2|]. split; [reflexivity|exact H3].
Defined.

(** *** The supported data types *)

Lemma split_nonempty (sep : ascii) (s : string) : Js.split sep s <> [].
Proof.
  destruct s as [|c s]; cbn [Js.split]; [discriminate|].
  destruct (Ascii.eqb c sep); [discriminate|]. destruct (Js.split sep s); discriminate.
Qed.

Lemma split_concat (sep : ascii) (s : string) :
  String.concat (String sep "") (Js.split sep s) = s.
Proof.
  induction s as [|c s IH]; [reflexivity|].
  cbn [Js.split]. pose proof (split_nonempty sep s) as Hne.
  destruct (Ascii.eqb_spec c sep) as [->|Hc].
  - destruct (Js.split sep s) as [|w ws]; [contradiction|].
    cbn [String.concat] in *. rewrite IH. reflexivity.
  - destruct (Js.split sep s) as [|w ws]; [contradiction|].
    destruct ws as [|w' ws]; cbn [String.concat] in *; rewrite <- IH; reflexivity.
Qed.

Lemma split_forallb (f : ascii -> bool) (sep : ascii) (s t : string) :
  Js.forallb f s = true -> t ∈ Js.split sep s -> Js.forallb f t = true.
Proof.
  revert t. induction s as [|c s IH]; intros t Hs Ht.
  - cbn [Js.split] in Ht. apply list_elem_of_singleton in Ht as ->. reflexivity.
  - cbn [Js.forallb] in Hs. apply andb_true_iff in Hs as [Hc Hs].
    cbn [Js.split] in Ht. pose proof (split_nonempty sep s) as Hne.
    destruct (Ascii.eqb c sep).
    + apply elem_of_cons in Ht as [->|Ht]; [reflexivity|exact (IH t Hs Ht)].
    + destruct (Js.split sep s) as [|w ws]; [contradiction|].
      apply elem_of_cons in Ht as [->|Ht].
      * cbn [Js.forallb]. rewrite Hc. apply (IH w Hs). left.
      * apply (IH t Hs). right. exact Ht.
Qed.

Lemma split_no_separator (sep : ascii) (s t : string) :
  t ∈ Js.split sep s -> Js.forallb (fun c => negb (Ascii.eqb c sep)) t = true.
Proof.
  revert t. induction s as [|c s IH]; intros t Ht.
  - cbn [Js.split] in Ht. apply list_elem_of_singleton in Ht as ->. reflexivity.
  - cbn [Js.split] in Ht. pose proof (split_nonempty sep s) as Hne.
    destruct (Ascii.eqb c sep) eqn:Hc.
    + apply elem_of_cons in Ht as [->|Ht]; [reflexivity|exact (IH t Ht)].
    + destruct (Js.split sep s) as [|w ws]; [contradiction|].
      apply elem_of_cons in Ht as [->|Ht].
      * cbn [Js.forallb]. rewrite Hc. apply (IH w). left.
      * apply IH. right. exact Ht.
Qed.

Lemma dropAnchors_no_anchor (s : string) :
  Js.forallb (fun c => negb (Ascii.eqb c "$"%char || Ascii.eqb c "^"%char))
             (Js.dropAnchors s) = true.
Proof.
  induction s as [|c s IH]; [reflexivity|].
  cbn [Js.dropAnchors].
  destruct (Ascii.eqb c "$"%char || Ascii.eqb c "^"%char) eqn:E; [exact IH|].
  cbn [Js.forallb]. rewrite E, IH. reflexivity.
Qed.

(** X10. The supported data types are read off the pattern of the schema:
    there is always at least one; joined by [|] they give the pattern back
    without its anchors; and none of them holds a [^], a [$] or a [|]. *)
Theorem supportedFieldTypes_of_pattern (pattern : string) :
  supportedFieldTypes pattern <> []
  /\ String.concat "|" (supportedFieldTypes pattern) = Js.dropAnchors pattern
  /\ forall t, t ∈ supportedFieldTypes pattern ->
       Js.forallb (fun c => negb (Ascii.eqb c "$"%char || Ascii.eqb c "^"%char)) t = true
       /\ Js.forallb (fun c => negb (Ascii.eqb c "|"%char)) t = true.
Proof.
  unfold supportedFieldTypes. split; [apply split_nonempty|].
  split; [apply split_concat|].
  intros t Ht. split.
  - exact (split_forallb _ _ _ _ (dropAnchors_no_anchor pattern) Ht).
  - exact (split_no_separator _ _ _ Ht).
Qed.

(** *** The existence checks *)

Section ResourceProperties.
Context (importedResources : gmap string node -> string -> string -> list string)
        (validateJson : document -> string -> list string)
        (formatJson jsonStringify : document -> string)
        (dataTypePattern : string).

Local Abbreviation createCardtype' := (createCardtype importedResources formatJson).
Local Abbreviation createFieldType' :=
  (createFieldType importedResources formatJson dataTypePattern).
Local Abbreviation createLinkType' :=
  (createLinkType importedResources validateJson jsonStringify).
Local Abbreviation createWorkflow' := (createWorkflow validateJson formatJson).
Local Abbreviation fieldTypeExists' := (fieldTypeExists importedResources).
Local Abbreviation linkTypeExists' := (linkTypeExists importedResources).
Local Abbreviation workflowExists' := (workflowExists importedResources).

Lemma resource_listed_with_extension (s : gmap string node) (p collection name : string) :
  Js.includes "/" name = false ->
  is_Some (s !! resourceFile p collection name) ->
  existsb (fun item => String.eqb item ((name ++ ".json") ++ ".json")
                       || String.eqb item (name ++ ".json"))
          (resources importedResources s p collection) = true.
Proof.
  intros Hname Hfile. apply existsb_elem_of. exists (name ++ ".json"). split.
  - unfold resources. apply elem_of_app. left. apply readdir_lists_file.
    + destruct name; discriminate.
    + rewrite includes_slash_app, Hname. reflexivity.
    + exact Hfile.
  - rewrite String.eqb_refl. apply orb_true_r.
Qed.

(** X11. The existence checks compare each listed name with the name asked
    for and with that name followed by [.json]: a resource whose file
    [<name>.json] is in the collection folder is found under [<name>] and
    under [<name>.json] alike.  So [createFieldType] and [createLinkType]
    refuse the name [<name>.json] as existing, and [createCardtype] accepts
    the workflow name [<name>.json] and records it as it is given. *)
Theorem existence_checks_accept_file_names (s : gmap string node) (p n : string) :
  Js.includes "/" n = false ->
  (is_Some (s !! resourceFile p "workflows" n) ->
   workflowExists' s p n = true /\ workflowExists' s p (n ++ ".json") = true
   /\ forall name,
        createCardtype' p name (n ++ ".json") s
        = writeFileWx (resourceFile p "cardtypes" name)
            (formatJson (DocCardtype (CardtypeContent name (n ++ ".json")))) s)
  /\ (is_Some (s !! resourceFile p "fieldtypes" n) ->
      fieldTypeExists' s p n = true /\ fieldTypeExists' s p (n ++ ".json") = true
      /\ forall dt,
           createFieldType' p (n ++ ".json") dt s
           = (Err (Thrown ("Field type with name '" ++ (n ++ ".json")
                           ++ "' already exists in the project")), s))
  /\ (is_Some (s !! resourceFile p "linktypes" n) ->
      linkTypeExists' s p n = true /\ linkTypeExists' s p (n ++ ".json") = true
      /\ createLinkType' p (n ++ ".json") s
         = (Err (Thrown ("Link type with name '" ++ (n ++ ".json")
                         ++ "' already exists in the project")), s)).
Proof.
  intros Hn. split; [|split]; intros Hfile.
  - pose proof (resource_file_listed importedResources s p "workflows" n Hn Hfile) as H1.
    pose proof (resource_listed_with_extension s p "workflows" n Hn Hfile) as H2.
    split; [exact H1|]. split; [exact H2|].
    intros name. unfold createCardtype, workflowExists. rewrite H2. reflexivity.
  - pose proof (resource_file_listed importedResources s p "fieldtypes" n Hn Hfile) as H1.
    pose proof (resource_listed_with_extension s p "fieldtypes" n Hn Hfile) as H2.
    split; [exact H1|]. split; [exact H2|].
    intros dt. unfold createFieldType, fieldTypeExists. rewrite H2. reflexivity.
  - pose proof (resource_file_listed importedResources s p "linktypes" n Hn Hfile) as H1.
    pose proof (resource_listed_with_extension s p "linktypes" n Hn Hfile) as H2.
    split; [exact H1|]. split; [exact H2|].
    unfold createLinkType, linkTypeExists. rewrite H2. reflexivity.
Qed.

Lemma resourceFile_apart (p c1 c2 n1 n2 : string) :
  Js.includes "/" c1 = false -> Js.includes "/" c2 = false -> c1 <> c2 ->
  resourceFile p c1 n1 <> resourceFile p c2 n2.
Proof.
  intros H1 H2 Hne H. apply Hne. unfold resourceFile, resourceFolder, Js.join in H.
  rewrite !append_assoc in H. do 3 apply append_inj_l in H.
  change ("/" ++ c1 ++ "/" ++ n1 ++ ".json") with (String "/" (c1 ++ "/" ++ n1 ++ ".json")) in H.
  change ("/" ++ c2 ++ "/" ++ n2 ++ ".json") with (String "/" (c2 ++ "/" ++ n2 ++ ".json")) in H.
  injection H as H. exact (separator_splits c1 c2 _ _ H1 H2 H).
Qed.

Lemma resourceFile_not_folder (p c1 c2 n : string) :
  Js.includes "/" c2 = false -> resourceFile p c1 n <> resourceFolder p c2.
Proof.
  intros H2 H. unfold resourceFile, resourceFolder, Js.join in H.
  rewrite !append_assoc in H. do 3 apply append_inj_l in H.
  change ("/" ++ c1 ++ "/" ++ n ++ ".json") with (String "/" (c1 ++ "/" ++ n ++ ".json")) in H.
  change ("/" ++ c2) with (String "/" c2) in H.
  injection H as H. rewrite <- H, includes_slash_app in H2.
  apply orb_false_iff in H2 as [_ H2]. discriminate H2.
Qed.

(** X12. A workflow that [createWorkflow] has written can be used at once:
    [createCardtype] with its name passes the workflow check, and where the
    card type is new and the [cardtypes] folder is there it writes the card
    type, with that workflow, and changes nothing else. *)
Theorem created_workflow_serves_createCardtype (p name : string) (w : workflowMetadata)
    (s s1 : gmap string node) :
  createWorkflow' p w s = (Ok tt, s1) ->
  Js.includes "/" (wf_name w) = false ->
  Js.includes "/" name = false ->
  isDir s (resourceFolder p "cardtypes") = true ->
  s !! resourceFile p "cardtypes" name = None ->
  workflowExists' s1 p (wf_name w) = true
  /\ createCardtype' p name (wf_name w) s1
     = (Ok tt, <[resourceFile p "cardtypes" name
                 := File (formatJson (DocCardtype (CardtypeContent name (wf_name w))))]> s1).
Proof.
  intros Hw Hwn Hname Hdir Hfresh.
  destruct (createWorkflow_cases validateJson formatJson p w s) as [[m Hm] | Hc];
    [congruence|].
  rewrite Hc in Hw. apply writeFileWx_ok in Hw as (_ & _ & ->).
  assert (workflowExists' (<[resourceFile p "workflows" (wf_name w)
                             := File (formatJson (DocWorkflow w))]> s) p (wf_name w) = true)
    as Hex.
  { apply resource_file_listed; [exact Hwn|]. rewrite lookup_insert_eq. eauto. }
  split; [exact Hex|].
  unfold createCardtype. rewrite Hex. cbn [negb ct_name].
  apply writeFileWx_fresh.
  - fold (resourceFile p "cardtypes" name).
    rewrite lookup_insert_ne; [exact Hfresh|].
    apply resourceFile_apart; [reflexivity|reflexivity|discriminate].
  - fold (resourceFile p "cardtypes" name).
    rewrite resource_file_dirname by exact Hname.
    unfold isDir in *. rewrite lookup_insert_ne; [exact Hdir|].
    apply resourceFile_not_folder. reflexivity.
Qed.

End ResourceProperties.

Lemma created_workflow_serves_createCardtype_witness :
  exists s1 s2,
    createWorkflow Sample.validateJson Sample.formatJson "/p"
      (defaultWorkflowContent "review") Sample.disk0 = (Ok tt, s1)
    /\ createCardtype Sample.importedResources Sample.formatJson "/p" "note" "review" s1
       = (Ok tt, s2)
    /\ s2 !! "/p/.cards/local/cardtypes/note.json" = Some (File "{name:note,workflow:review}").
Proof.
  destruct (createWorkflow Sample.validateJson Sample.formatJson "/p"
              (defaultWorkflowContent "review") Sample.disk0) as [[[]|e] s1] eqn:E.
  - destruct (created_workflow_serves_createCardtype Sample.importedResources
                Sample.validateJson Sample.formatJson "/p" "note"
                (defaultWorkflowContent "review") Sample.disk0 s1 E)
      as [_ H]; try reflexivity.
    eexists s1, _. split; [reflexivity|]. split; [exact H|]. apply lookup_insert_eq.
  - exfalso. vm_compute in E. discriminate E.
Defined.

Lemma existence_checks_accept_file_names_witness :
  workflowExists Sample.importedResources Sample.disk0 "/p" "simple.json" = true
  /\ createFieldType Sample.importedResources Sample.formatJson Sample.dataTypePattern
       "/p" "owner.json" "number" Sample.disk0
     = (Err (Thrown "Field type with name 'owner.json' already exists in the project"),
        Sample.disk0).
Proof.
  destruct (existence_checks_accept_file_names Sample.importedResources Sample.validateJson
              Sample.formatJson Sample.jsonStringify Sample.dataTypePattern
              Sample.disk0 "/p" "simple" eq_refl) as (Hw & _ & _).
  destruct (existence_checks_accept_file_names Sample.importedResources Sample.validateJson
              Sample.formatJson Sample.jsonStringify Sample.dataTypePattern
              Sample.disk0 "/p" "owner" eq_refl) as (_ & Hf & _).
  split.
  - apply Hw. vm_compute. eauto.
  - apply Hf. vm_compute. eauto.
Defined.

Section LinkTypeProperties.
Context (findSpecificCard :
           gmap string node -> string -> string -> fetchCardDetails -> option card)
        (pathToCard : gmap string node -> string -> string -> option string)
        (updateCardMetadata : string -> string -> string -> list link -> io unit)
        (importedResources : gmap string node -> string -> string -> list string)
        (validateJson : document -> string -> list string)
        (jsonStringify : document -> string).

Local Abbreviation createLink' :=
  (createLink findSpecificCard pathToCard updateCardMetadata importedResources).
Local Abbreviation createLinkType' :=
  (createLinkType importedResources validateJson jsonStringify).

(** X13. A link type that [createLinkType] has written can be used at
    once: it passes the link type check of [createLink], which then, for a
    source card and a destination card that are found and a link that the
    source card does not hold yet, hands the links with the new link
    appended to [updateCardMetadata]. *)
Theorem created_linktype_serves_createLink (p lt : string) (s s1 : gmap string node) :
  createLinkType' p lt s = (Ok tt, s1) ->
  Js.includes "/" lt = false ->
  linkTypeExists importedResources s1 p lt = true
  /\ forall cardKey dest desc c,
       findSpecificCard s1 p cardKey metadataOnly = Some c ->
       Js.truthy (pathToCard s1 p dest) = true ->
       Link lt dest desc ∉ default [] (cardLinks c) ->
       createLink' p cardKey dest lt desc s1
       = updateCardMetadata p cardKey "links"
           (default [] (cardLinks c) ++ [Link lt dest desc])%list s1.
Proof.
  intros Hl Hlt.
  destruct (createLinkType_cases importedResources validateJson jsonStringify p lt s)
    as [[m Hm] | Hc]; [congruence|].
  rewrite Hc in Hl. apply writeFileWx_ok in Hl as (_ & _ & ->).
  assert (linkTypeExists importedResources
            (<[resourceFile p "linktypes" lt
               := File (jsonStringify (DocLinktype (getLinkTypeContent lt)))]> s) p lt = true)
    as Hex.
  { apply resource_file_listed; [exact Hlt|]. rewrite lookup_insert_eq. eauto. }
  split; [exact Hex|].
  intros cardKey dest desc c Hc' Hd Hn. apply createLink_appends; assumption.
Qed.

End LinkTypeProperties.

Lemma created_linktype_serves_createLink_witness :
  exists s1,
    createLinkType Sample.importedResources Sample.validateJson Sample.jsonStringify
      "/p" "relates" Sample.disk0 = (Ok tt, s1)
    /\ linkTypeExists Sample.importedResources s1 "/p" "relates" = true.
Proof.
  destruct (createLinkType Sample.importedResources Sample.validateJson Sample.jsonStringify
              "/p" "relates" Sample.disk0) as [[[]|e] s1] eqn:E.
  - exists s1. split; [reflexivity|].
    exact (proj1 (created_linktype_serves_createLink Sample.findSpecificCard
                    Sample.pathToCard Sample.updateCardMetadata Sample.importedResources
                    Sample.validateJson Sample.jsonStringify "/p" "relates"
                    Sample.disk0 s1 E eq_refl)).
  - exfalso. vm_compute in E. discriminate E.
Defined.

Section AddCardsChecks.
Context (stringifyKeys : list string -> string)
        (normalizedTemplateName : string -> string)
        (templateFolder : string -> string -> string)
        (templateFindSpecificCard :
           gmap string node -> string -> string -> string -> option card)
        (templateAddCard : string -> string -> string -> option card -> io string).

Local Abbreviation addCards' :=
  (addCards stringifyKeys normalizedTemplateName templateFolder
            templateFindSpecificCard templateAddCard).

(** X14. The checks that [addCards] makes before it adds a card, in their
    order: a template name that normalises to the empty string is refused
    under the name as it was given; then a parent card that the template
    does not hold; then a template whose folder lies in an imported module.
    Each refusal leaves the disk as it was and no [addCard] call is made.
    A parent card given as the empty string counts as none given: the
    template is not searched for it. *)
Theorem addCards_template_checks (p ct t : string) (card : option string) (count : Z)
    (s : gmap string node) :
  let name := normalizedTemplateName t in
  (name = "" ->
   addCards' p ct t card count s
   = (Err (Thrown ("Template '" ++ t ++ "' is invalid template name")), s))
  /\ (name <> "" ->
      forall k, card = Some k -> k <> "" ->
        templateFindSpecificCard s p name k = None ->
        addCards' p ct t card count s
        = (Err (Thrown ("Card '" ++ k ++ "' was not found from template '" ++ t ++ "'")), s))
  /\ (name <> "" ->
      (forall k, card = Some k -> k <> "" ->
                 is_Some (templateFindSpecificCard s p name k)) ->
      Js.includes "/modules/" (templateFolder p name) = true ->
      addCards' p ct t card count s
      = (Err (Thrown "Cannot add cards to imported module templates"), s))
  /\ (name <> "" -> card = Some "" ->
      addCards' p ct t card count s = addCards' p ct t None count s).
Proof.
  intros name. unfold addCards. fold name. repeat split.
  - intros ->. reflexivity.
  - intros Hne k -> Hk Hnone. destruct (String.eqb_spec name ""); [contradiction|].
    destruct k as [|c k]; [contradiction|]. cbn [Js.truthy default from_option id].
    rewrite Hnone. reflexivity.
  - intros Hne Hfound Hm. destruct (String.eqb_spec name ""); [contradiction|].
    rewrite Hm. destruct card as [[|c k]|]; cbn [Js.truthy andb]; try reflexivity.
    destruct (Hfound (String c k) eq_refl) as [x Hx]; [discriminate|].
    cbn [default from_option id]. rewrite Hx.
    rewrite bool_decide_eq_true_2 by eauto. reflexivity.
  - intros Hne ->. reflexivity.
Qed.

End AddCardsChecks.

(** ** Creating a project *)

Lemma taskThen_inv {A B : Type} (c : task A) (k : task B) (w w' : world) (r : result B) :
  (c >>> k) w = (r, w') ->
  (exists e, c w = (Err e, w') /\ r = Err e)
  \/ (exists a w1, c w = (Ok a, w1) /\ k w1 = (r, w')).
Proof.
  unfold taskThen, taskBind. destruct (c w) as [[a|e] w1]; intros H.
  - right. eauto.
  - left. injection H as <- <-. eauto.
Qed.

(** *** What a run keeps: an invariant of the world goes through the calls
    of [createProject] when every step keeps it. *)

Definition keeps {A : Type} (I : world -> Prop) (t : task A) : Prop :=
  forall w r w', I w -> t w = (r, w') -> I w'.

Lemma keeps_then {A B : Type} (I : world -> Prop) (c : task A) (k : task B) :
  keeps I c -> keeps I k -> keeps I (c >>> k).
Proof.
  intros Hc Hk w r w' Hw H. apply taskThen_inv in H as [(e & H & _)|(a & w1 & H1 & H2)].
  - exact (Hc _ _ _ Hw H).
  - exact (Hk _ _ _ (Hc _ _ _ Hw H1) H2).
Qed.

Lemma foldl_keeps {X : Type} (I : world -> Prop) (f : world -> X -> world) (l : list X)
    (w : world) :
  (forall w x, x ∈ l -> I w -> I (f w x)) -> I w -> I (foldl f w l).
Proof.
  revert w. induction l as [|x l IH]; intros w H Hw; [exact Hw|].
  cbn [foldl]. apply IH.
  - intros w0 y Hy. apply H. right. exact Hy.
  - apply H; [left|exact Hw].
Qed.

(** *** The folder of the link types *)

(** A call that, whenever it settles, leaves the folder [dir] absent. *)
Definition harmless (dir : string) (c : fsCall) : Prop :=
  forall s, absent dir s -> absent dir (runCall c s).2.

Definition restsWithout (dir : string) (w : world) : Prop :=
  absent dir (files w) /\ Forall (harmless dir) (pending w).

Lemma dirname_app (a r : string) :
  Js.includes "/" r = true -> Js.dirname (a ++ "/" ++ r) = a ++ "/" ++ Js.dirname r.
Proof.
  intros Hr. induction a as [|c a IH].
  - change ("" ++ "/" ++ r) with (String "/" r). cbn [Js.dirname]. rewrite Hr. reflexivity.
  - change (String c a ++ "/" ++ r) with (String c (a ++ "/" ++ r)).
    cbn [Js.dirname]. rewrite includes_slash_app.
    replace (Js.includes "/" ("/" ++ r)) with true by (simpl; reflexivity).
    rewrite orb_true_r. rewrite IH. reflexivity.
Qed.

Lemma dirname_under (dir p : string) :
  isUnder dir p = true -> inside dir (Js.dirname p) = true.
Proof.
  intros H. apply isUnder_inv in H as [r ->]. apply inside_spec.
  destruct (Js.includes "/" r) eqn:Hr.
  - right. rewrite (dirname_app dir r Hr). apply isUnder_app.
  - left. apply (dirname_join dir r Hr).
Qed.

Lemma absent_no_dir (dir : string) (s : gmap string node) (q : string) :
  absent dir s -> inside dir q = true -> isDir s q = false.
Proof.
  intros [Hd Hu] Hq. apply inside_spec in Hq as [->|Hq]; [exact Hd|].
  unfold isDir. rewrite (Hu q Hq). reflexivity.
Qed.

Lemma absent_insert_file (dir : string) (s : gmap string node) (p data : string) :
  absent dir s -> isUnder dir p = false -> absent dir (<[p := File data]> s).
Proof.
  intros [Hd Hu] Hp. split.
  - unfold isDir in *. destruct (decide (dir = p)) as [<-|Hne].
    + rewrite lookup_insert_eq. reflexivity.
    + rewrite lookup_insert_ne by congruence. exact Hd.
  - intros q Hq. rewrite lookup_insert_ne; [exact (Hu q Hq)|]. intros ->. congruence.
Qed.

Lemma absent_insert_dir (dir : string) (s : gmap string node) (p : string) :
  absent dir s -> inside dir p = false -> absent dir (<[p := Dir]> s).
Proof.
  intros [Hd Hu] Hp. apply inside_false in Hp as [Hne Hp]. split.
  - unfold isDir in *. rewrite lookup_insert_ne by congruence. exact Hd.
  - intros q Hq. rewrite lookup_insert_ne; [exact (Hu q Hq)|]. intros ->. congruence.
Qed.

Lemma writeFile_harmless (dir p data : string) : harmless dir (WriteFile p data).
Proof.
  intros s Hs. cbn [runCall]. unfold writeFile.
  assert (isDir s (Js.dirname p) = true -> isUnder dir p = false) as Hp.
  { intros Hdir. destruct (isUnder dir p) eqn:Hu; [|reflexivity].
    rewrite (absent_no_dir dir s _ Hs (dirname_under dir p Hu)) in Hdir. discriminate. }
  destruct (s !! p) as [[b|]|]; try exact Hs;
    destruct (isDir s (Js.dirname p)); try exact Hs;
    cbn [snd]; apply absent_insert_file; auto.
Qed.

Lemma mkdir_harmless (dir p : string) :
  inside dir p = false -> harmless dir (Mkdir p false).
Proof.
  intros Hp s Hs. cbn [runCall]. unfold mkdir.
  destruct (s !! p); [exact Hs|].
  destruct (isDir s (Js.dirname p)); [|exact Hs].
  cbn [snd]. apply absent_insert_dir; assumption.
Qed.

Lemma mkdirAll_absent (dir : string) (l : list string) (s : gmap string node) :
  (forall q, q ∈ l -> inside dir q = false) -> absent dir s -> absent dir (mkdirAll l s).2.
Proof.
  revert s. induction l as [|p l IH]; intros s Hl Hs; [exact Hs|].
  cbn [mkdirAll]. unfold ioBind.
  assert (absent dir (mkdirOne p s).2) as H1.
  { unfold mkdirOne. destruct (s !! p) as [[b|]|]; try exact Hs.
    cbn [snd]. apply absent_insert_dir; [exact Hs|]. apply Hl. left. }
  destruct (mkdirOne p s) as [[[]|e] s1]; cbn [snd] in *; [|exact H1].
  apply IH; [|exact H1]. intros q Hq. apply Hl. right. exact Hq.
Qed.

Lemma ancestorsFrom_length (acc p q : string) :
  q ∈ ancestorsFrom acc p -> (String.length q <= String.length acc + String.length p)%nat.
Proof.
  revert acc. induction p as [|c p IH]; intros acc Hq; [inversion Hq|].
  cbn [ancestorsFrom] in Hq. apply elem_of_app in Hq as [Hq|Hq].
  - destruct (Ascii.eqb c "/"%char && negb (String.eqb acc "")); [|inversion Hq].
    apply list_elem_of_singleton in Hq as ->. lia.
  - apply IH in Hq. rewrite length_append in Hq. cbn [String.length] in *. lia.
Qed.

Lemma mkdirRecursive_harmless (dir p : string) :
  (String.length p < String.length dir)%nat -> harmless dir (Mkdir p true).
Proof.
  intros Hlen s Hs. cbn [runCall]. unfold mkdirRecursive.
  apply mkdirAll_absent; [|exact Hs].
  intros q Hq. destruct (inside dir q) eqn:Hi; [|reflexivity].
  apply inside_longer in Hi.
  apply elem_of_app in Hq as [Hq|Hq].
  - apply ancestorsFrom_length in Hq. cbn [String.length] in Hq. lia.
  - apply list_elem_of_singleton in Hq as ->. lia.
Qed.

Lemma settleOne_rests (dir : string) (w : world) (i : nat) :
  restsWithout dir w -> restsWithout dir (settleOne w i).
Proof.
  intros [Hs Hp]. unfold settleOne. destruct (pending w !! i) as [c|] eqn:Hc; [|split; assumption].
  split; cbn [files pending].
  - rewrite Forall_forall in Hp. apply (Hp c); [|exact Hs].
    apply list_elem_of_lookup. eauto.
  - apply (Forall_delete _ _ _ Hp).
Qed.

Lemma settle_rests (dir : string) (picks : list nat) (w : world) :
  restsWithout dir w -> restsWithout dir (settle picks w).
Proof.
  intros H. unfold settle. apply foldl_keeps; [|exact H].
  intros w0 i _. apply settleOne_rests.
Qed.

Lemma awaitCall_rests (dir : string) (picks : list nat) (c : fsCall) :
  harmless dir c -> keeps (restsWithout dir) (awaitCall picks c).
Proof.
  intros Hc w r w' Hw H. unfold awaitCall in H. injection H as _ <-.
  pose proof (settle_rests dir picks (log c w) Hw) as [H1 H2].
  split; [apply Hc; exact H1|exact H2].
Qed.

Lemma awaitAll2_rests (dir : string) (sch : schedule) (point : nat) (c1 c2 : fsCall) :
  harmless dir c1 -> harmless dir c2 -> keeps (restsWithout dir) (awaitAll2 sch point c1 c2).
Proof.
  intros H1 H2 w r w' Hw H. unfold awaitAll2 in H.
  pose proof (settle_rests dir (before sch point) (log c2 (log c1 w)) Hw) as Hw1.
  set (w1 := settle (before sch point) (log c2 (log c1 w))) in *.
  assert (forall a b, harmless dir a -> harmless dir b ->
            match runCall a (files w1) with
            | (Ok _, s2) =>
                let w2 := settle (before sch (S point)) (setFiles s2 w1) in
                ((runCall b (files w2)).1, setFiles (runCall b (files w2)).2 w2)
            | (Err e, s2) =>
                (Err e, {| files := s2; pending := (pending w1 ++ [b])%list;
                           started := started w1; console := console w1;
                           schemaFilesContent := schemaFilesContent w1 |})
            end = (r, w') -> restsWithout dir w') as Hgen.
  { intros a b Ha Hb Hrun. destruct Hw1 as [Hf Hp].
    pose proof (Ha _ Hf) as Hfa.
    destruct (runCall a (files w1)) as [[[]|e] s2]; cbn [snd] in Hfa.
    - assert (restsWithout dir (setFiles s2 w1)) as Hw2 by (split; assumption).
      apply (settle_rests dir (before sch (S point))) in Hw2.
      cbv zeta in Hrun. injection Hrun as _ <-. destruct Hw2 as [Hf2 Hp2].
      split; [apply Hb; exact Hf2|exact Hp2].
    - injection Hrun as _ <-. split; [exact Hfa|]. cbn [pending].
      apply Forall_app. split; [exact Hp|]. apply Forall_singleton. exact Hb. }
  destruct (secondFirst sch); [exact (Hgen c2 c1 H2 H1 H)|exact (Hgen c1 c2 H1 H2 H)].
Qed.

Lemma startAll_rests (dir : string) (calls : list fsCall) :
  Forall (harmless dir) calls -> keeps (restsWithout dir) (startAll calls).
Proof.
  intros Hc w r w' Hw H. unfold startAll in H. injection H as _ <-.
  apply foldl_keeps; [|exact Hw].
  intros w0 c Hin [Hf Hp]. split; [exact Hf|]. cbn [start pending].
  apply Forall_app. split; [exact Hp|]. apply Forall_singleton.
  rewrite Forall_forall in Hc. exact (Hc c Hin).
Qed.

Lemma orLog_rests {A : Type} (dir : string) (c : task A) (message : string) :
  keeps (restsWithout dir) c -> keeps (restsWithout dir) (orLog c message).
Proof.
  intros Hc w r w' Hw H. unfold orLog in H.
  destruct (c w) as [[a|e] w1] eqn:E; injection H as _ <-.
  - exact (Hc _ _ _ Hw E).
  - exact (Hc _ _ _ Hw E).
Qed.
